(** * PagePilot browser perception and action engine

    A shallow embedding of [chrome-extension/src/background/dom/views.ts]
    and [chrome-extension/src/background/browser/page.ts], and the
    properties of selector synthesis, hash memoisation, state refresh,
    element location, the click ladder, scrolling and the network-idle
    monitor that are stated about them.

    Conventions of the embedding.
    - A JavaScript string is a [string]; its characters are code units in
      the range 0..255.  A [string | null] or a missing attribute is an
      [option string]; JavaScript truthiness of such a value is [truthy].
    - A JavaScript number that the code uses as an index, a pixel amount or
      a millisecond clock is a [Z]: an integer in the range that a double
      holds exactly, where a template literal prints it in plain decimal.
    - An awaited call into the browser is a transition of an abstract
      world that either returns a value or raises: [outcome].  The calls
      that leave the controller are recorded in the order they are made.
    - The calls of the logger are left out: they change nothing that the
      methods read. *)

From Stdlib Require Import ZArith Ascii String List Bool Lia DecimalString.
From stdpp Require Import base gmap strings.

Open Scope string_scope.
Open Scope Z_scope.

(* ================================================================== *)
(** * Part I: definitions                                              *)
(* ================================================================== *)

(** A call either returns or raises an [Error] carrying a message. *)
Inductive outcome (A : Type) : Type :=
| Ok (a : A)
| Throw (msg : string).
Arguments Ok {A} a.
Arguments Throw {A} msg.

(** ** JavaScript string primitives *)
Module JS.

Definition code (c : ascii) : N := N_of_ascii c.

Definition between (lo hi : N) (c : ascii) : bool :=
  (lo <=? code c)%N && (code c <=? hi)%N.

Definition isDigit (c : ascii) : bool := between 48 57 c.
Definition isUpper (c : ascii) : bool := between 65 90 c.
Definition isLower (c : ascii) : bool := between 97 122 c.
Definition isAlpha (c : ascii) : bool := isUpper c || isLower c.

(** [\s] (and the characters removed by [trim]) below code 256. *)
Definition isSpace (c : ascii) : bool :=
  between 9 13 c || (code c =? 32)%N || (code c =? 160)%N.

Definition dquote : ascii := Eval cbv in ascii_of_nat 34.
Definition squote : ascii := Eval cbv in ascii_of_nat 39.
Definition backquote : ascii := Eval cbv in ascii_of_nat 96.
Definition backslash : ascii := Eval cbv in ascii_of_nat 92.
Definition str (c : ascii) : string := String c EmptyString.

(** A value between double quotes, as a template literal writes it. *)
Definition quoted (s : string) : string := str dquote +:+ s +:+ str dquote.

Definition isEmpty (s : string) : bool :=
  match s with EmptyString => true | String _ _ => false end.

(** Truthiness of a [string | undefined | null]. *)
Definition truthy (o : option string) : bool :=
  match o with Some s => negb (isEmpty s) | None => false end.

(** [a || b] on strings that may be missing. *)
Definition orElse (o : option string) (d : string) : string :=
  if truthy o then default d o else d.

(** [s.startsWith(p)] *)
Fixpoint startsWith (s p : string) {struct p} : bool :=
  match p with
  | EmptyString => true
  | String a p' =>
      match s with
      | EmptyString => false
      | String b s' => Ascii.eqb a b && startsWith s' p'
      end
  end.

(** [s.includes(needle)] *)
Fixpoint includes (s needle : string) : bool :=
  startsWith s needle ||
  match s with
  | EmptyString => false
  | String _ r => includes r needle
  end.

Fixpoint all (p : ascii -> bool) (s : string) : bool :=
  match s with
  | EmptyString => true
  | String c r => p c && all p r
  end.

Fixpoint any (p : ascii -> bool) (s : string) : bool :=
  match s with
  | EmptyString => false
  | String c r => p c || any p r
  end.

Fixpoint mapChars (f : ascii -> ascii) (s : string) : string :=
  match s with
  | EmptyString => EmptyString
  | String c r => String (f c) (mapChars f r)
  end.

(** [toLowerCase]: A-Z, and the Latin-1 capitals 192..222 except 215. *)
Definition lowerChar (c : ascii) : ascii :=
  if isUpper c || (between 192 222 c && negb (code c =? 215)%N)
  then ascii_of_N (code c + 32) else c.

Definition toLowerCase (s : string) : string := mapChars lowerChar s.

Fixpoint trimStart (s : string) : string :=
  match s with
  | EmptyString => EmptyString
  | String c r => if isSpace c then trimStart r else s
  end.

Fixpoint trimEnd (s : string) : string :=
  match s with
  | EmptyString => EmptyString
  | String c r =>
      let r' := trimEnd r in
      if isSpace c && isEmpty r' then EmptyString else String c r'
  end.

Definition trim (s : string) : string := trimEnd (trimStart s).

(** [s.split(sep)] for a one-character separator. *)
Fixpoint splitChar (sep : ascii) (cur : string) (s : string) : list string :=
  match s with
  | EmptyString => [cur]
  | String c r =>
      if Ascii.eqb c sep then cur :: splitChar sep EmptyString r
      else splitChar sep (cur +:+ str c) r
  end.

Definition split (sep : ascii) (s : string) : list string :=
  splitChar sep EmptyString s.

(** [s.split(/\s+/)]: a maximal run of white space separates two pieces,
    so white space at either end leaves an empty piece there. *)
Fixpoint splitSpaces (inRun : bool) (cur : string) (s : string) : list string :=
  match s with
  | EmptyString => [cur]
  | String c r =>
      if isSpace c then
        if inRun then splitSpaces true cur r
        else cur :: splitSpaces true EmptyString r
      else splitSpaces false (cur +:+ str c) r
  end.

Definition splitWhitespace (s : string) : list string :=
  splitSpaces false EmptyString s.

(** [s.replace(/\s+/g, ' ')]. *)
Fixpoint collapseSpaces (inRun : bool) (s : string) : string :=
  match s with
  | EmptyString => EmptyString
  | String c r =>
      if isSpace c then
        if inRun then collapseSpaces true r
        else String " " (collapseSpaces true r)
      else String c (collapseSpaces false r)
  end.

(** [s.replace(c, by)] with a string pattern: the first occurrence only. *)
Fixpoint replaceFirst (c : ascii) (by_ : string) (s : string) : string :=
  match s with
  | EmptyString => EmptyString
  | String d r =>
      if Ascii.eqb d c then by_ +:+ r else String d (replaceFirst c by_ r)
  end.

(** [s.replace(/c/g, by)]. *)
Fixpoint replaceAll (c : ascii) (by_ : string) (s : string) : string :=
  match s with
  | EmptyString => EmptyString
  | String d r =>
      if Ascii.eqb d c then by_ +:+ replaceAll c by_ r
      else String d (replaceAll c by_ r)
  end.

(** [s.replace(/^\//, '')]. *)
Definition dropLeadingSlash (s : string) : string :=
  match s with
  | String c r => if Ascii.eqb c "/" then r else s
  | EmptyString => EmptyString
  end.

(** [s.substring(0, s.indexOf(c))] and [s.substring(s.indexOf(c))], for a
    character that occurs in [s]. *)
Fixpoint beforeChar (c : ascii) (s : string) : string :=
  match s with
  | EmptyString => EmptyString
  | String d r => if Ascii.eqb d c then EmptyString else String d (beforeChar c r)
  end.

Fixpoint fromChar (c : ascii) (s : string) : string :=
  match s with
  | EmptyString => EmptyString
  | String d r => if Ascii.eqb d c then s else fromChar c r
  end.

Fixpoint join (sep : string) (l : list string) : string :=
  match l with
  | [] => EmptyString
  | [x] => x
  | x :: r => x +:+ sep +:+ join sep r
  end.

(** [/\d{3,}/.test(s)]: [run] digits have just been read. *)
Fixpoint digitRun (run : nat) (s : string) : bool :=
  match s with
  | EmptyString => false
  | String c r =>
      if isDigit c then
        match run with
        | S (S _) => true
        | _ => digitRun (S run) r
        end
      else digitRun 0%nat r
  end.

Definition hasThreeDigits (s : string) : bool := digitRun 0%nat s.

(** [Number.parseInt(s, 10)] on a string of digits. *)
Fixpoint parseDigits (acc : Z) (s : string) : Z :=
  match s with
  | EmptyString => acc
  | String c r => parseDigits (10 * acc + Z.of_N (code c - 48)) r
  end.

(** [Number.parseInt(s)] without a radix: leading white space, a sign, a
    [0x] prefix, then the longest run of digits; [None] is [NaN]. *)
Definition hexValue (c : ascii) : option Z :=
  if isDigit c then Some (Z.of_N (code c - 48))
  else if between 97 102 c then Some (Z.of_N (code c - 87))
  else if between 65 70 c then Some (Z.of_N (code c - 55))
  else None.

Definition decValue (c : ascii) : option Z :=
  if isDigit c then Some (Z.of_N (code c - 48)) else None.

Fixpoint parseRun (radix : Z) (digit : ascii -> option Z) (acc : option Z)
  (s : string) : option Z :=
  match s with
  | EmptyString => acc
  | String c r =>
      match digit c with
      | Some d => parseRun radix digit (Some (radix * default 0 acc + d)) r
      | None => acc
      end
  end.

Definition parseUnsigned (s : string) : option Z :=
  match s with
  | String "0" (String "x" r) => parseRun 16 hexValue None r
  | String "0" (String "X" r) => parseRun 16 hexValue None r
  | _ => parseRun 10 decValue None s
  end.

Definition parseInt (s : string) : option Z :=
  match trimStart s with
  | String "-" r => Z.opp <$> parseUnsigned r
  | String "+" r => parseUnsigned r
  | t => parseUnsigned t
  end.

(** A number in a template literal. *)
Definition showZ (z : Z) : string := NilZero.string_of_int (Z.to_int z).

End JS.

(** ** dom/views.ts *)

(** Modelled from the spec: the geometry types of [dom/history/view],
    whose declaration is not among the sources; only the members read by
    [page.ts] appear. *)
Record Coordinates : Type := { x : Z; y : Z }.
Record CoordinateSet : Type := { center : option Coordinates }.
Record ViewportInfo : Type := { scrollX : option Z; scrollY : option Z }.

(** A [DOMElementNode] as seen from below: the fields of the node and its
    parent chain.  The tree owns its nodes child-ward and is acyclic, so
    the chain is finite.  The list of children is left out: a value that
    held both the children and the parent would be cyclic, and the methods
    embedded here walk upwards only. *)
Unset Elimination Schemes.
Inductive DOMElementNode : Type := {
  tagName : option string;
  xpath : option string;
  attributes : list (string * string);
  isVisible : bool;
  isInteractive : bool;
  isTopElement : bool;
  shadowRoot : bool;
  highlightIndex : option Z;
  viewportCoordinates : option CoordinateSet;
  pageCoordinates : option CoordinateSet;
  viewportInfo : option ViewportInfo;
  parent : option DOMElementNode
}.
Set Elimination Schemes.

(** [attributes[key]]: the attribute record in insertion order. *)
Fixpoint lookupAttr (key : string) (l : list (string * string)) : option string :=
  match l with
  | [] => None
  | (k, v) :: r => if String.eqb k key then Some v else lookupAttr key r
  end.

Definition attr (e : DOMElementNode) (key : string) : option string :=
  lookupAttr key (attributes e).

(** [/^[a-zA-Z_][a-zA-Z0-9_-]*$/.test(s)] *)
Definition isIdStart (c : ascii) : bool := JS.isAlpha c || Ascii.eqb c "_".
Definition isIdPart (c : ascii) : bool :=
  JS.isAlpha c || JS.isDigit c || Ascii.eqb c "_" || Ascii.eqb c "-".

Definition validIdentifier (s : string) : bool :=
  match s with
  | EmptyString => false
  | String c r => isIdStart c && JS.all isIdPart r
  end.

(** One bracketed index of an XPath step.  A number is read and printed
    as an integer: that is what the method does for a number of at most
    15 digits, which [Number.parseInt] holds exactly and a template
    literal prints in plain decimal; longer numbers are outside the
    embedding. *)
Definition indexSuffix (idx : string) : string :=
  if negb (JS.isEmpty idx) && JS.all JS.isDigit idx then
    let index := JS.parseDigits 0 idx - 1 in
    ":nth-of-type(" +:+ JS.showZ (index + 1) +:+ ")"
  else if String.eqb idx "last()" then ":last-of-type"
  else if JS.includes idx "position()" then
    if JS.includes idx ">1" then ":nth-of-type(n+2)" else EmptyString
  else EmptyString.

Definition convertPart (part : string) : string :=
  if JS.includes part "[" then
    let basePart := JS.beforeChar "[" part in
    let indexPart := JS.fromChar "[" part in
    let indices :=
      map (JS.replaceFirst "[" EmptyString) (removelast (JS.split "]" indexPart)) in
    fold_left (fun acc idx => acc +:+ indexSuffix idx) indices basePart
  else part.

Definition convertSimpleXPathToCssSelector (xp : string) : string :=
  if JS.isEmpty xp then EmptyString
  else
    let cleanXpath := JS.dropLeadingSlash xp in
    let parts := JS.split "/" cleanXpath in
    let cssParts :=
      map convertPart (List.filter (fun part => negb (JS.isEmpty part)) parts) in
    JS.join " > " cssParts.

Definition formControlTags : list string := ["input"; "textarea"; "select"; "button"].

Definition KEY_ATTRIBUTES : list string :=
  ["aria-label"; "role"; "type"; "placeholder"; "title"; "alt"].

Definition memStr (s : string) (l : list string) : bool :=
  existsb (String.eqb s) l.

(** The class loop of rule 4: [(cssSelector, classCount)] is threaded
    through the pieces of the class attribute. *)
Definition classStep (st : string * nat) (className : string) : string * nat :=
  let '(cssSelector, classCount) := st in
  if JS.isEmpty (JS.trim className) then st
  else if JS.hasThreeDigits className || (20 <? String.length className)%nat then st
  else if validIdentifier className && (classCount <? 2)%nat
       then (cssSelector +:+ "." +:+ className, S classCount)
       else st.

Definition addClasses (cssSelector : string) (classAttr : string) : string :=
  fst (fold_left classStep (JS.splitWhitespace classAttr) (cssSelector, 0%nat)).

(** The character class of the test on an attribute value: the two
    quotes, the angle brackets, the back quote, line feed, carriage return
    and tab. *)
Definition needsSubstringMatch (c : ascii) : bool :=
  Ascii.eqb c JS.dquote || Ascii.eqb c JS.squote || Ascii.eqb c "<" ||
  Ascii.eqb c ">" || Ascii.eqb c JS.backquote ||
  (JS.code c =? 10)%N || (JS.code c =? 13)%N || (JS.code c =? 9)%N.

(** The key-attribute loop of rule 4, one entry of [Object.entries]. *)
Definition attributeStep (cssSelector : string) (entry : string * string) : string :=
  let '(attribute, value) := entry in
  if String.eqb attribute "class" || String.eqb attribute "id" then cssSelector
  else if JS.isEmpty (JS.trim attribute) || negb (memStr attribute KEY_ATTRIBUTES)
       then cssSelector
  else if JS.isEmpty value then cssSelector
  else
    let safeAttribute :=
      JS.replaceFirst ":" (JS.str JS.backslash +:+ ":") attribute in
    if JS.any needsSubstringMatch value then
      let collapsedValue := JS.trim (JS.collapseSpaces false value) in
      let safeValue :=
        JS.replaceAll JS.dquote (JS.str JS.backslash +:+ JS.str JS.dquote) collapsedValue in
      cssSelector +:+ "[" +:+ safeAttribute +:+ "*=" +:+ JS.quoted safeValue +:+ "]"
    else
      cssSelector +:+ "[" +:+ safeAttribute +:+ "=" +:+ JS.quoted value +:+ "]".

Definition showIndex (i : option Z) : string :=
  match i with Some n => JS.showZ n | None => "undefined" end.

(** The selector of the [catch] handler. *)
Definition sentinelSelector (e : DOMElementNode) : string :=
  JS.orElse (tagName e) "*" +:+ "[highlight-index=" +:+ JS.str JS.squote
    +:+ showIndex (highlightIndex e) +:+ JS.str JS.squote +:+ "]".

(** The name of the test attribute that rule 2 writes. *)
Definition testAttribute (e : DOMElementNode) : string :=
  if JS.truthy (attr e "data-testid") then "data-testid"
  else if JS.truthy (attr e "data-qa") then "data-qa"
  else "data-cy".

(** [a || b || c] over the three test attributes. *)
Definition testIdOf (e : DOMElementNode) : option string :=
  if JS.truthy (attr e "data-testid") then attr e "data-testid"
  else if JS.truthy (attr e "data-qa") then attr e "data-qa"
  else attr e "data-cy".

(** The body of the [try] block of [enhancedCssSelectorForElement]. *)
Definition selectorBody (e : DOMElementNode) (includeDynamicAttributes : bool)
  : outcome string :=
  if negb (JS.truthy (xpath e)) then Ok EmptyString
  else
    let tag := JS.orElse (tagName e) "*" in
    let id := attr e "id" in
    if JS.truthy id && validIdentifier (default EmptyString id) then
      Ok (tag +:+ "#" +:+ default EmptyString id)
    else
      let testId := testIdOf e in
      if JS.truthy testId && includeDynamicAttributes then
        Ok (tag +:+ "[" +:+ testAttribute e +:+ "="
              +:+ JS.quoted (default EmptyString testId) +:+ "]")
      else
        let name := attr e "name" in
        if JS.truthy name && memStr tag formControlTags then
          Ok (tag +:+ "[name=" +:+ JS.quoted (default EmptyString name) +:+ "]")
        else
          let withClasses :=
            if JS.truthy (attr e "class") && includeDynamicAttributes
            then addClasses tag (default EmptyString (attr e "class"))
            else tag in
          let cssSelector := fold_left attributeStep (attributes e) withClasses in
          if String.eqb cssSelector tag
          then Ok (convertSimpleXPathToCssSelector (default EmptyString (xpath e)))
          else Ok cssSelector.

Definition enhancedCssSelectorForElement
  (e : DOMElementNode) (includeDynamicAttributes : bool) : string :=
  match selectorBody e includeDynamicAttributes with
  | Ok s => s
  | Throw _ => sentinelSelector e
  end.

Definition getAdvancedCssSelector (e : DOMElementNode) : string :=
  enhancedCssSelectorForElement e true.

(** The rules of selector synthesis in the words of their description.
    An attribute is present when the node carries it with a non-empty
    value, which is the test the method applies to [id], to the test
    attributes, to [name] and to [class]. *)
Definition present (e : DOMElementNode) (key : string) : bool := JS.truthy (attr e key).

Definition testAttributeNames : list string := ["data-testid"; "data-qa"; "data-cy"].

(** The first of the given attributes that is present, with its value. *)
Fixpoint firstPresent (e : DOMElementNode) (names : list string)
  : option (string * string) :=
  match names with
  | [] => None
  | k :: rest =>
      if present e k then Some (k, default EmptyString (attr e k))
      else firstPresent e rest
  end.

(** Rule 1 applies: the id matches the identifier syntax. *)
Definition idRuleApplies (e : DOMElementNode) : Prop :=
  exists i, attr e "id" = Some i /\ validIdentifier i = true.

(** Rule 3 applies: a name on a form control. *)
Definition nameRuleApplies (e : DOMElementNode) : Prop :=
  present e "name" = true /\ In (JS.orElse (tagName e) "*") formControlTags.

(** A class name that rule 4 keeps: no run of three digits, at most 20
    characters, and the identifier syntax. *)
Definition stableLooking (className : string) : bool :=
  negb (JS.hasThreeDigits className)
  && (String.length className <=? 20)%nat
  && validIdentifier className.

(** The class names rule 4 appends: the first two stable-looking ones. *)
Definition retainedClasses (classAttr : string) : list string :=
  firstn 2 (List.filter stableLooking (JS.splitWhitespace classAttr)).

(** [.a.b] for the classes [a] and [b]. *)
Fixpoint dotted (classes : list string) : string :=
  match classes with
  | [] => EmptyString
  | c :: rest => "." +:+ c +:+ dotted rest
  end.

(** A detached element with the given tag, XPath and attributes. *)
Definition element (tag : string) (xp : option string)
  (attrs : list (string * string)) : DOMElementNode :=
  {| tagName := Some tag; xpath := xp; attributes := attrs;
     isVisible := true; isInteractive := false; isTopElement := false;
     shadowRoot := false; highlightIndex := None;
     viewportCoordinates := None; pageCoordinates := None;
     viewportInfo := None; parent := None |}.

(** *** The hash cache of a node

    [hash()] contains no [await]: a call runs to its [return] without
    interleaving, and hands back either the cached value or the shared
    promise.  A promise is identified by the number of the computation
    behind it; the computation settles later, and its [then]/[catch]
    handlers then run on the node. *)

Record HashedDomElement : Type := {
  branchPathHash : string;
  attributesHash : string;
  xpathHash : string
}.

Inductive PromiseState : Type :=
| Pending
| Fulfilled (value : HashedDomElement)
| Rejected (msg : string).

Record HashCache : Type := {
  _hashedValue : option HashedDomElement;
  _hashPromise : option nat;
  promises : list PromiseState;   (* promise [p] is entry [p] *)
  invocations : nat               (* calls of HistoryTreeProcessor.hashDomElement *)
}.

(** The cache of a node that was just constructed. *)
Definition newHashCache : HashCache :=
  {| _hashedValue := None; _hashPromise := None; promises := []; invocations := 0%nat |}.

(** What a caller of [hash()] holds. *)
Inductive HashTicket : Type :=
| Immediate (value : HashedDomElement)
| Shared (promise : nat).

Definition hash (c : HashCache) : HashTicket * HashCache :=
  match _hashedValue c with
  | Some v => (Immediate v, c)
  | None =>
      match _hashPromise c with
      | Some p => (Shared p, c)
      | None =>
          let p := length (promises c) in
          (Shared p,
           {| _hashedValue := None;
              _hashPromise := Some p;
              promises := promises c ++ [Pending];
              invocations := S (invocations c) |})
      end
  end.

Definition clearHashCache (c : HashCache) : HashCache :=
  {| _hashedValue := None; _hashPromise := None;
     promises := promises c; invocations := invocations c |}.

(** The computation behind promise [p] settles: the [then] handler
    stores the value, the [catch] handler re-raises an enriched error;
    both clear [_hashPromise]. *)
Definition settle (e : DOMElementNode) (p : nat) (result : outcome HashedDomElement)
  (c : HashCache) : HashCache :=
  match result with
  | Ok v =>
      {| _hashedValue := Some v; _hashPromise := None;
         promises := <[p := Fulfilled v]> (promises c);
         invocations := invocations c |}
  | Throw msg =>
      {| _hashedValue := _hashedValue c; _hashPromise := None;
         promises :=
           <[p := Rejected ("Failed to hash DOM element ("
                              +:+ JS.orElse (tagName e) "unknown" +:+ "): " +:+ msg)]>
             (promises c);
         invocations := invocations c |}
  end.

(** What [await] on a ticket yields in a given cache. *)
Definition awaited (t : HashTicket) (c : HashCache) : PromiseState :=
  match t with
  | Immediate v => Fulfilled v
  | Shared p => default Pending (promises c !! p)
  end.


(** What happens to the cache of a node that is never invalidated: a call
    of [hash()], or the settlement of a computation that is still
    pending (a promise settles once). *)
Inductive HashEvent : Type :=
| HashCalled
| HashSettled (p : nat) (result : outcome HashedDomElement).

Definition hashStep (e : DOMElementNode) (c : HashCache) (ev : HashEvent) : HashCache :=
  match ev with
  | HashCalled => snd (hash c)
  | HashSettled p result =>
      match promises c !! p with
      | Some Pending => settle e p result c
      | _ => c
      end
  end.

Definition hashRun (e : DOMElementNode) (events : list HashEvent) (c : HashCache)
  : HashCache :=
  fold_left (hashStep e) events c.


(** What happens to the cache of a node that may be invalidated: one of
    the events above, or a call of [clearHashCache]. *)
Inductive CacheEvent : Type :=
| Happened (ev : HashEvent)
| Invalidated.

Definition cacheStep (e : DOMElementNode) (c : HashCache) (ev : CacheEvent) : HashCache :=
  match ev with
  | Happened ev => hashStep e c ev
  | Invalidated => clearHashCache c
  end.

Definition cacheRun (e : DOMElementNode) (events : list CacheEvent) (c : HashCache)
  : HashCache :=
  fold_left (cacheStep e) events c.

(** No computation is pending. *)
Definition idle (c : HashCache) : Prop :=
  forall p, promises c !! p <> Some Pending.

(** A run in which [clearHashCache] is only called while no computation
    is pending. *)
Fixpoint invalidatedWhenIdle (e : DOMElementNode) (events : list CacheEvent)
  (c : HashCache) : Prop :=
  match events with
  | [] => True
  | Happened ev :: rest => invalidatedWhenIdle e rest (hashStep e c ev)
  | Invalidated :: rest => idle c /\ invalidatedWhenIdle e rest (clearHashCache c)
  end.

(** ** browser/page.ts: the network-idle monitor

    The two listeners of [_waitForStableNetwork] and the state they close
    over.  [Date.now()] is the [now] argument of a listener; a request
    object is identified by [requestId]. *)

Record HTTPRequest : Type := {
  requestId : nat;
  resourceType : string;
  requestUrl : string;
  requestHeaders : list (string * string)
}.

Record HTTPResponse : Type := {
  request : HTTPRequest;
  responseHeaders : list (string * string)
}.

Record Monitor : Type := {
  pendingRequests : gmap nat HTTPRequest;
  lastActivity : Z
}.

Definition RELEVANT_RESOURCE_TYPES : list string :=
  ["document"; "stylesheet"; "image"; "font"; "script"; "iframe"].

Definition realTimeResourceTypes : list string :=
  ["websocket"; "media"; "eventsource"; "manifest"; "other"].

Definition RELEVANT_CONTENT_TYPES : list string :=
  ["text/html"; "text/css"; "application/javascript"; "image/"; "font/";
   "application/json"].

Definition IGNORED_URL_PATTERNS : list string :=
  ["analytics"; "tracking"; "telemetry"; "beacon"; "metrics";
   "doubleclick"; "adsystem"; "adserver"; "advertising";
   "facebook.com/plugins"; "platform.twitter"; "linkedin.com/embed";
   "livechat"; "zendesk"; "intercom"; "crisp.chat"; "hotjar";
   "push-notifications"; "onesignal"; "pushwoosh";
   "heartbeat"; "ping"; "alive";
   "webrtc"; "rtmp://"; "wss://";
   "cloudfront.net"; "fastly.net"].

Definition streamingMarkers : list string :=
  ["streaming"; "video"; "audio"; "webm"; "mp4"; "event-stream"; "websocket";
   "protobuf"].

(** [headers[name] === value] *)
Definition headerIs (headers : list (string * string)) (name value : string) : bool :=
  match lookupAttr name headers with
  | Some v => String.eqb v value
  | None => false
  end.

Definition isPending (r : HTTPRequest) (m : Monitor) : bool :=
  match pendingRequests m !! requestId r with Some _ => true | None => false end.

Definition removePending (r : HTTPRequest) (m : Monitor) : Monitor :=
  {| pendingRequests := delete (requestId r) (pendingRequests m);
     lastActivity := lastActivity m |}.

Definition onRequest (now : Z) (r : HTTPRequest) (m : Monitor) : Monitor :=
  if negb (memStr (resourceType r) RELEVANT_RESOURCE_TYPES) then m
  else if memStr (resourceType r) realTimeResourceTypes then m
  else
    let url := JS.toLowerCase (requestUrl r) in
    if existsb (fun pattern => JS.includes url pattern) IGNORED_URL_PATTERNS then m
    else if JS.startsWith url "data:" || JS.startsWith url "blob:" then m
    else
      let headers := requestHeaders r in
      if headerIs headers "purpose" "prefetch"
         || headerIs headers "sec-fetch-dest" "video"
         || headerIs headers "sec-fetch-dest" "audio"
      then m
      else
        {| pendingRequests := <[requestId r := r]> (pendingRequests m);
           lastActivity := now |}.

Definition onResponse (now : Z) (response : HTTPResponse) (m : Monitor) : Monitor :=
  let r := request response in
  if negb (isPending r m) then m
  else
    let contentType :=
      JS.orElse (JS.toLowerCase <$> lookupAttr "content-type" (responseHeaders response))
        EmptyString in
    if existsb (fun t => JS.includes contentType t) streamingMarkers then
      removePending r m
    else if negb (existsb (fun ct => JS.includes contentType ct) RELEVANT_CONTENT_TYPES) then
      removePending r m
    else
      let contentLength := lookupAttr "content-length" (responseHeaders response) in
      if JS.truthy contentLength &&
         match JS.parseInt (default EmptyString contentLength) with
         | Some n => 5 * 1024 * 1024 <? n
         | None => false
         end
      then removePending r m
      else
        {| pendingRequests := delete (requestId r) (pendingRequests m);
           lastActivity := now |}.

(** The traffic seen while the listeners are installed. *)
Inductive NetEvent : Type :=
| RequestEvent (now : Z) (r : HTTPRequest)
| ResponseEvent (now : Z) (response : HTTPResponse).

Definition netStep (m : Monitor) (ev : NetEvent) : Monitor :=
  match ev with
  | RequestEvent now r => onRequest now r m
  | ResponseEvent now response => onResponse now response m
  end.

(** The state of the listeners after a run of events; they start with an
    empty pending set and the clock value [start]. *)
Definition monitorAfter (start : Z) (events : list NetEvent) : Monitor :=
  fold_left netStep events {| pendingRequests := ∅; lastActivity := start |}.

(** What the request filter of [onRequest] rejects, stated on the request
    as it arrives: a resource type outside the relevant set, a URL that
    contains a deny-listed substring or starts with [data:] or [blob:], or
    a prefetch, video or audio fetch purpose. *)
Definition nonRelevantType (r : HTTPRequest) : Prop :=
  ~ In (resourceType r) RELEVANT_RESOURCE_TYPES.

Definition denyListedUrl (r : HTTPRequest) : Prop :=
  exists pattern, In pattern IGNORED_URL_PATTERNS /\
    JS.includes (requestUrl r) pattern = true.

Definition inlineUrl (r : HTTPRequest) : Prop :=
  JS.startsWith (requestUrl r) "data:" = true \/
  JS.startsWith (requestUrl r) "blob:" = true.

Definition backgroundFetch (r : HTTPRequest) : Prop :=
  lookupAttr "purpose" (requestHeaders r) = Some "prefetch" \/
  lookupAttr "sec-fetch-dest" (requestHeaders r) = Some "video" \/
  lookupAttr "sec-fetch-dest" (requestHeaders r) = Some "audio".

Definition excludedRequest (r : HTTPRequest) : Prop :=
  nonRelevantType r \/ denyListedUrl r \/ inlineUrl r \/ backgroundFetch r.

(** A response whose content type names a streaming format. *)
Definition streamingResponse (response : HTTPResponse) : Prop :=
  exists ct marker,
    lookupAttr "content-type" (responseHeaders response) = Some ct /\
    In marker streamingMarkers /\ JS.includes ct marker = true.

(** ** browser/page.ts: the page controller *)

Definition Browser : Type := nat.
Definition PuppeteerPage : Type := nat.
Definition Frame : Type := nat.
Definition ElementHandle : Type := nat.

(** [PuppeteerPage | Frame], the receiver of a [$] query. *)
Inductive FrameContext : Type :=
| InPage (p : PuppeteerPage)
| InFrame (f : Frame).

Module DOMState.
Record t : Type := {
  elementTree : DOMElementNode;
  selectorMap : gmap Z DOMElementNode
}.
End DOMState.

(** Modelled from the spec: [PageState] and [BrowserContextConfig] of
    [browser/types], whose declaration is not among the sources.  The
    fields of [PageState] are those [build_initial_state] writes; of the
    configuration only the options read by the functions below appear. *)
Record PageState : Type := {
  elementTree : DOMElementNode;
  selectorMap : gmap Z DOMElementNode;
  tabId : Z;
  url : string;
  title : string;
  screenshot : option string;
  pixelsAbove : Z;
  pixelsBelow : Z
}.

Record BrowserContextConfig : Type := {
  highlightElements : bool;
  viewportExpansion : Z;
  includeDynamicAttributes : bool
}.

Record Page : Type := {
  _tabId : Z;
  _browser : option Browser;
  _puppeteerPage : option PuppeteerPage;
  _config : BrowserContextConfig;
  _state : PageState;
  _validWebPage : bool
}.

Definition build_initial_state (tab : option Z) (u t : option string) : PageState :=
  {| elementTree :=
       {| tagName := Some "root"; xpath := Some EmptyString; attributes := [];
          isVisible := true; isInteractive := false; isTopElement := false;
          shadowRoot := false; highlightIndex := None;
          viewportCoordinates := None; pageCoordinates := None;
          viewportInfo := None; parent := None |};
     selectorMap := ∅;
     tabId := default 0 tab;
     url := JS.orElse u EmptyString;
     title := JS.orElse t EmptyString;
     screenshot := None;
     pixelsAbove := 0;
     pixelsBelow := 0 |}.

Definition attached (pg : Page) : bool :=
  _validWebPage pg && match _puppeteerPage pg with Some _ => true | None => false end.

(** The argument and the result of the host script of the click ladder. *)
Record ClickParams : Type := {
  paramId : option string;
  paramName : option string;
  paramAriaLabel : option string;
  paramTagName : string;
  paramCenter : option Coordinates
}.

Record ScriptResult : Type := {
  success : bool;
  error : option string
}.

(** The calls that leave the controller, in the order they are made. *)
Inductive Call : Type :=
| CallEvaluate (p : PuppeteerPage) (script : string)
| CallPages (b : Browser)
| CallRemoveHighlights (tab : Z)
| CallGetClickableElements (tab : Z) (highlight : bool) (focus : Z) (expansion : Z)
| CallScreenshot (p : PuppeteerPage) (fullPage : bool)
| CallGetScrollInfo (tab : Z)
| CallUrl (p : PuppeteerPage)
| CallTitle (p : PuppeteerPage)
| CallWaitForPageAndFramesLoad
| CallQuery (ctx : FrameContext) (selector : string)
| CallContentFrame (h : ElementHandle)
| CallScrollIntoView (h : ElementHandle) (timeout : Z)
| CallClick (h : ElementHandle)
| CallEvaluateClick (h : ElementHandle)
| CallMouseMove (p : PuppeteerPage) (px py : Z)
| CallMouseClick (p : PuppeteerPage) (px py : Z)
| CallExecuteScript (tab : Z) (params : ClickParams).

(** The browser behind the controller: every awaited call is a transition
    of a world [W] that returns or raises.  [scrollIntoViewIfNeeded] stands
    for the polling loop of [_scrollIntoViewIfNeeded], which returns once
    the element is visible inside the viewport and raises when its time is
    up; [click] for the native click raced against its two-second timer. *)
Record Transport (W : Type) : Type := {
  evaluate : PuppeteerPage -> string -> W -> outcome unit * W;
  pages : Browser -> W -> outcome (list PuppeteerPage) * W;
  removeHighlights : Z -> W -> outcome unit * W;
  getClickableElements : Z -> bool -> Z -> Z -> W -> outcome (option DOMState.t) * W;
  takeScreenshotOf : PuppeteerPage -> bool -> W -> outcome string * W;
  getScrollInfo : Z -> W -> outcome (Z * Z) * W;
  urlOf : PuppeteerPage -> W -> outcome string * W;
  titleOf : PuppeteerPage -> W -> outcome string * W;
  waitForPageAndFramesLoad : W -> W;
  query : FrameContext -> string -> W -> outcome (option ElementHandle) * W;
  contentFrame : ElementHandle -> W -> outcome (option Frame) * W;
  scrollIntoViewIfNeeded : ElementHandle -> Z -> W -> outcome unit * W;
  click : ElementHandle -> W -> outcome unit * W;
  evaluateClick : ElementHandle -> W -> outcome unit * W;
  mouseMove : PuppeteerPage -> Z -> Z -> W -> outcome unit * W;
  mouseClick : PuppeteerPage -> Z -> Z -> W -> outcome unit * W;
  executeScript : Z -> ClickParams -> W -> outcome (option ScriptResult) * W
}.
Arguments evaluate {W}.
Arguments pages {W}.
Arguments removeHighlights {W}.
Arguments getClickableElements {W}.
Arguments takeScreenshotOf {W}.
Arguments getScrollInfo {W}.
Arguments urlOf {W}.
Arguments titleOf {W}.
Arguments waitForPageAndFramesLoad {W}.
Arguments query {W}.
Arguments contentFrame {W}.
Arguments scrollIntoViewIfNeeded {W}.
Arguments click {W}.
Arguments evaluateClick {W}.
Arguments mouseMove {W}.
Arguments mouseClick {W}.
Arguments executeScript {W}.

(** The controller object, the world and the calls made so far. *)
Record Machine (W : Type) : Type := {
  page : Page;
  world : W;
  calls : list Call
}.
Arguments page {W}.
Arguments world {W}.
Arguments calls {W}.

(** An asynchronous method: a state transformer that returns or raises.
    What was written before a raise stays written. *)
Definition M (W A : Type) : Type := Machine W -> outcome A * Machine W.

Definition ret {W A} (a : A) : M W A := fun s => (Ok a, s).

Definition throw {W A} (msg : string) : M W A := fun s => (Throw msg, s).

Definition bind {W A B} (m : M W A) (k : A -> M W B) : M W B :=
  fun s =>
    match m s with
    | (Ok a, s') => k a s'
    | (Throw msg, s') => (Throw msg, s')
    end.

(** [try { m } catch (error) { handler(error.message) }] *)
Definition tryCatch {W A} (m : M W A) (handler : string -> M W A) : M W A :=
  fun s =>
    match m s with
    | (Ok a, s') => (Ok a, s')
    | (Throw msg, s') => handler msg s'
    end.

Notation "x <- c1 ;; c2" := (bind c1 (fun x => c2))
  (at level 100, c1 at next level, right associativity).
Notation "c1 ;; c2" := (bind c1 (fun _ => c2))
  (at level 100, right associativity).

Definition getPage {W} : M W Page := fun s => (Ok (page s), s).

Definition setPage {W} (pg : Page) : M W unit :=
  fun s => (Ok tt, {| page := pg; world := world s; calls := calls s |}).

(** One awaited call: the world moves and the call is recorded. *)
Definition perform {W A} (c : Call) (f : W -> outcome A * W) : M W A :=
  fun s =>
    let '(r, w) := f (world s) in
    (r, {| page := page s; world := w; calls := calls s ++ [c] |}).

(** [this._state.field = value] *)
Definition setState {W} (f : PageState -> PageState) : M W unit :=
  pg <- getPage;;
  setPage {| _tabId := _tabId pg; _browser := _browser pg;
             _puppeteerPage := _puppeteerPage pg; _config := _config pg;
             _state := f (_state pg); _validWebPage := _validWebPage pg |}.

Definition set_elementTree (v : DOMElementNode) (st : PageState) : PageState :=
  {| elementTree := v; selectorMap := selectorMap st; tabId := tabId st;
     url := url st; title := title st; screenshot := screenshot st;
     pixelsAbove := pixelsAbove st; pixelsBelow := pixelsBelow st |}.

Definition set_selectorMap (v : gmap Z DOMElementNode) (st : PageState) : PageState :=
  {| elementTree := elementTree st; selectorMap := v; tabId := tabId st;
     url := url st; title := title st; screenshot := screenshot st;
     pixelsAbove := pixelsAbove st; pixelsBelow := pixelsBelow st |}.

Definition set_url (v : string) (st : PageState) : PageState :=
  {| elementTree := elementTree st; selectorMap := selectorMap st; tabId := tabId st;
     url := v; title := title st; screenshot := screenshot st;
     pixelsAbove := pixelsAbove st; pixelsBelow := pixelsBelow st |}.

Definition set_title (v : string) (st : PageState) : PageState :=
  {| elementTree := elementTree st; selectorMap := selectorMap st; tabId := tabId st;
     url := url st; title := v; screenshot := screenshot st;
     pixelsAbove := pixelsAbove st; pixelsBelow := pixelsBelow st |}.

Definition set_screenshot (v : option string) (st : PageState) : PageState :=
  {| elementTree := elementTree st; selectorMap := selectorMap st; tabId := tabId st;
     url := url st; title := title st; screenshot := v;
     pixelsAbove := pixelsAbove st; pixelsBelow := pixelsBelow st |}.

Definition set_pixelsAbove (v : Z) (st : PageState) : PageState :=
  {| elementTree := elementTree st; selectorMap := selectorMap st; tabId := tabId st;
     url := url st; title := title st; screenshot := screenshot st;
     pixelsAbove := v; pixelsBelow := pixelsBelow st |}.

Definition set_pixelsBelow (v : Z) (st : PageState) : PageState :=
  {| elementTree := elementTree st; selectorMap := selectorMap st; tabId := tabId st;
     url := url st; title := title st; screenshot := screenshot st;
     pixelsAbove := pixelsAbove st; pixelsBelow := v |}.

Definition set_puppeteerPage (v : option PuppeteerPage) (pg : Page) : Page :=
  {| _tabId := _tabId pg; _browser := _browser pg; _puppeteerPage := v;
     _config := _config pg; _state := _state pg; _validWebPage := _validWebPage pg |}.

(** The scripts of [takeScreenshot], with their layout dropped. *)
Definition disableAnimationsScript : string :=
  "(function() { const styleId = 'puppeteer-disable-animations'; if (!document.getElementById(styleId)) { const style = document.createElement('style'); style.id = styleId; style.textContent = '*, *::before, *::after { animation: none !important; transition: none !important; }'; document.head.appendChild(style); } })()".

Definition restoreAnimationsScript : string :=
  "(function() { const style = document.getElementById('puppeteer-disable-animations'); if (style) { style.remove(); } })()".

Definition notConnected : string := "Puppeteer page is not connected".

(** The message of the [TypeError] of a member access on [null]. *)
Definition nullAccess : string := "Cannot read properties of null".

Section Controller.
Context {W : Type} (T : Transport W).

Definition removeHighlight : M W unit :=
  pg <- getPage;;
  if highlightElements (_config pg) && _validWebPage pg
  then perform (CallRemoveHighlights (_tabId pg)) (removeHighlights T (_tabId pg))
  else ret tt.

Definition getClickableElementsOf (focusElement : Z) : M W (option DOMState.t) :=
  pg <- getPage;;
  if negb (_validWebPage pg) then ret None
  else
    let cfg := _config pg in
    perform
      (CallGetClickableElements (_tabId pg) (highlightElements cfg) focusElement
         (viewportExpansion cfg))
      (getClickableElements T (_tabId pg) (highlightElements cfg) focusElement
         (viewportExpansion cfg)).

Definition getScrollInfoOf : M W (Z * Z) :=
  pg <- getPage;;
  if negb (_validWebPage pg) then ret (0, 0)
  else perform (CallGetScrollInfo (_tabId pg)) (getScrollInfo T (_tabId pg)).

Definition takeScreenshot (fullPage : bool) : M W string :=
  pg <- getPage;;
  match _puppeteerPage pg with
  | None => throw notConnected
  | Some p =>
      tryCatch
        (perform (CallEvaluate p disableAnimationsScript)
           (evaluate T p disableAnimationsScript);;
         shot <- perform (CallScreenshot p fullPage) (takeScreenshotOf T p fullPage);;
         perform (CallEvaluate p restoreAnimationsScript)
           (evaluate T p restoreAnimationsScript);;
         ret shot)
        (fun msg => throw msg)
  end.

(** The first [try] of [_updateState]: probe the page, and on failure
    switch to the first page the browser still has. *)
Definition recoverPage : M W unit :=
  tryCatch
    (pg <- getPage;;
     match _puppeteerPage pg with
     | Some p => perform (CallEvaluate p "1") (evaluate T p "1")
     | None => throw nullAccess
     end)
    (fun _ =>
       pg <- getPage;;
       match _browser pg with
       | Some b =>
           ps <- perform (CallPages b) (pages T b);;
           match ps with
           | p :: _ => setPage (set_puppeteerPage (Some p) pg)
           | [] => throw "Browser closed: no valid pages available"
           end
       | None => ret tt
       end).

Definition currentState : M W PageState :=
  pg <- getPage;; ret (_state pg).

(** [this._puppeteerPage?.url()] and [this._puppeteerPage?.title()] *)
Definition currentUrl : M W (option string) :=
  pg <- getPage;;
  match _puppeteerPage pg with
  | Some p => u <- perform (CallUrl p) (urlOf T p);; ret (Some u)
  | None => ret None
  end.

Definition currentTitle : M W (option string) :=
  pg <- getPage;;
  match _puppeteerPage pg with
  | Some p => t <- perform (CallTitle p) (titleOf T p);; ret (Some t)
  | None => ret None
  end.

Definition _updateState (useVision : bool) (focusElement : Z) : M W PageState :=
  recoverPage;;
  tryCatch
    (removeHighlight;;
     content <- getClickableElementsOf focusElement;;
     match content with
     | None => currentState
     | Some content =>
         shot <- (if useVision
                  then s <- takeScreenshot false;; ret (Some s)
                  else ret None);;
         scroll <- getScrollInfoOf;;
         setState (set_elementTree (DOMState.elementTree content));;
         setState (set_selectorMap (DOMState.selectorMap content));;
         u <- currentUrl;;
         setState (set_url (JS.orElse u EmptyString));;
         t <- currentTitle;;
         setState (set_title (JS.orElse t EmptyString));;
         setState (set_screenshot shot);;
         setState (set_pixelsAbove (fst scroll));;
         setState (set_pixelsBelow (snd scroll));;
         currentState
     end)
    (fun _ => currentState).

Definition getState : M W PageState :=
  pg <- getPage;;
  if negb (_validWebPage pg) then ret (build_initial_state (Some (_tabId pg)) None None)
  else
    perform CallWaitForPageAndFramesLoad
      (fun w => (Ok tt, waitForPageAndFramesLoad T w));;
    _updateState true (-1).

(** [scrollDown] and [scrollUp]: [amount] is [None] when the argument is
    left out; a number is truthy unless it is zero. *)
Definition truthyNumber (amount : option Z) : bool :=
  match amount with Some a => negb (a =? 0) | None => false end.

Definition scrollDown (amount : option Z) : M W unit :=
  pg <- getPage;;
  match _puppeteerPage pg with
  | Some p =>
      if truthyNumber amount then
        let script := "window.scrollBy(0, " +:+ JS.showZ (default 0 amount) +:+ ");" in
        perform (CallEvaluate p script) (evaluate T p script)
      else
        perform (CallEvaluate p "window.scrollBy(0, window.innerHeight);")
          (evaluate T p "window.scrollBy(0, window.innerHeight);")
  | None => ret tt
  end.

Definition scrollUp (amount : option Z) : M W unit :=
  pg <- getPage;;
  match _puppeteerPage pg with
  | Some p =>
      if truthyNumber amount then
        let script := "window.scrollBy(0, -" +:+ JS.showZ (default 0 amount) +:+ ");" in
        perform (CallEvaluate p script) (evaluate T p script)
      else
        perform (CallEvaluate p "window.scrollBy(0, -window.innerHeight);")
          (evaluate T p "window.scrollBy(0, -window.innerHeight);")
  | None => ret tt
  end.

(** *** locateElement *)

Fixpoint ancestors (e : DOMElementNode) : list DOMElementNode :=
  match e with
  | {| parent := Some p |} => p :: ancestors p
  | {| parent := None |} => []
  end.

Definition isIframe (item : DOMElementNode) : bool :=
  match tagName item with Some t => String.eqb t "iframe" | None => false end.

(** [parents.reverse().filter(item => item.tagName === 'iframe')] *)
Definition iframeParents (e : DOMElementNode) : list DOMElementNode :=
  List.filter isIframe (rev (ancestors e)).

(** The loop over the iframe parents; [None] is its [return null]. *)
Fixpoint enterFrames (inc : bool) (iframes : list DOMElementNode)
  (currentFrame : FrameContext) : M W (option FrameContext) :=
  match iframes with
  | [] => ret (Some currentFrame)
  | parent :: rest =>
      let cssSelector := enhancedCssSelectorForElement parent inc in
      frameElement <- perform (CallQuery currentFrame cssSelector)
                        (query T currentFrame cssSelector);;
      match frameElement with
      | None => ret None
      | Some handle =>
          frame <- perform (CallContentFrame handle) (contentFrame T handle);;
          match frame with
          | None => ret None
          | Some f => enterFrames inc rest (InFrame f)
          end
      end
  end.

(** The body shared by the five strategies: query, wait for the scroll to
    settle, hand the handle back; a miss or a raise leaves [None]. *)
Definition tryLocate (currentFrame : FrameContext) (selector : string)
  : M W (option ElementHandle) :=
  tryCatch
    (found <- perform (CallQuery currentFrame selector) (query T currentFrame selector);;
     match found with
     | Some handle =>
         perform (CallScrollIntoView handle 2500)
           (scrollIntoViewIfNeeded T handle 2500);;
         ret (Some handle)
     | None => ret None
     end)
    (fun _ => ret None).

Definition locateElement (element : DOMElementNode) : M W (option ElementHandle) :=
  pg <- getPage;;
  match _puppeteerPage pg with
  | None => ret None
  | Some p =>
      let inc := includeDynamicAttributes (_config pg) in
      entered <- enterFrames inc (iframeParents element) (InPage p);;
      match entered with
      | None => ret None
      | Some currentFrame =>
          (* Strategy 1 *)
          let cssSelector := enhancedCssSelectorForElement element inc in
          r1 <- tryLocate currentFrame cssSelector;;
          match r1 with Some h => ret (Some h) | None =>
          (* Strategy 2 *)
          r2 <- (if JS.truthy (xpath element)
                 then tryLocate currentFrame
                        ("xpath/" +:+ default EmptyString (xpath element))
                 else ret None);;
          match r2 with Some h => ret (Some h) | None =>
          (* Strategy 3 *)
          let elementId := attr element "id" in
          r3 <- (if JS.truthy elementId
                 then tryLocate currentFrame ("#" +:+ default EmptyString elementId)
                 else ret None);;
          match r3 with Some h => ret (Some h) | None =>
          (* Strategy 4 *)
          let elementName := attr element "name" in
          r4 <- (if JS.truthy elementName && JS.truthy (tagName element)
                 then tryLocate currentFrame
                        (default EmptyString (tagName element) +:+ "[name="
                           +:+ JS.quoted (default EmptyString elementName) +:+ "]")
                 else ret None);;
          match r4 with Some h => ret (Some h) | None =>
          (* Strategy 5 *)
          let ariaLabel := attr element "aria-label" in
          r5 <- (if JS.truthy ariaLabel && JS.truthy (tagName element)
                 then tryLocate currentFrame
                        (default EmptyString (tagName element) +:+ "[aria-label="
                           +:+ JS.quoted (default EmptyString ariaLabel) +:+ "]")
                 else ret None);;
          match r5 with Some h => ret (Some h) | None => ret None end
          end end end end
      end
  end.

(** *** clickElementNode *)

Definition showTag (t : option string) : string :=
  match t with Some s => s | None => "null" end.

Definition centerOf (c : option CoordinateSet) : option Coordinates :=
  match c with Some cs => center cs | None => None end.

Definition scrollOffset (v : option ViewportInfo) (get : ViewportInfo -> option Z) : Z :=
  match v with Some vi => default 0 (get vi) | None => 0 end.

(** A mouse move followed by a mouse click on the current page. *)
Definition mouseAt (px py : Z) : M W unit :=
  pg <- getPage;;
  match _puppeteerPage pg with
  | Some p =>
      perform (CallMouseMove p px py) (mouseMove T p px py);;
      perform (CallMouseClick p px py) (mouseClick T p px py)
  | None => throw nullAccess
  end.

Definition clickParams (targetElement : DOMElementNode) : ClickParams :=
  {| paramId := attr targetElement "id";
     paramName := attr targetElement "name";
     paramAriaLabel := attr targetElement "aria-label";
     paramTagName := JS.orElse (tagName targetElement) "*";
     paramCenter := centerOf (viewportCoordinates targetElement) |}.

Definition allAttemptsFailed (targetElement : DOMElementNode) (errorMsg : string) : string :=
  "All click attempts failed for element "
    +:+ JS.orElse (tagName targetElement) "element" +:+ "["
    +:+ showIndex (highlightIndex targetElement) +:+ "]. Fallback error: " +:+ errorMsg.

Definition failedToClick (elementNode : DOMElementNode) (msg : string) : string :=
  "Failed to click element: " +:+ showTag (tagName elementNode) +:+ "["
    +:+ showIndex (highlightIndex elementNode) +:+ "]. Error: " +:+ msg.

(** The refresh at the head of [clickElementNode]: the node to act on. *)
Definition freshTarget (useVision : bool) (elementNode : DOMElementNode)
  : M W DOMElementNode :=
  match highlightIndex elementNode with
  | Some index =>
      _updateState useVision index;;
      pg <- getPage;;
      match selectorMap (_state pg) !! index with
      | Some freshElement => ret freshElement
      | None => ret elementNode
      end
  | None => ret elementNode
  end.

Definition clickElementNode (useVision : bool) (elementNode : DOMElementNode) : M W unit :=
  pg <- getPage;;
  match _puppeteerPage pg with
  | None => throw "Puppeteer is not connected"
  | Some _ =>
      tryCatch
        (targetElement <- freshTarget useVision elementNode;;
         element <- locateElement targetElement;;
         (* first and second attempt *)
         clicked <-
           match element with
           | Some handle =>
               perform (CallScrollIntoView handle 2500)
                 (scrollIntoViewIfNeeded T handle 2500);;
               tryCatch
                 (perform (CallClick handle) (click T handle);; ret true)
                 (fun _ =>
                    tryCatch
                      (perform (CallEvaluateClick handle) (evaluateClick T handle);;
                       ret true)
                      (fun _ => ret false))
           | None => ret false
           end;;
         if clicked then ret tt else
         (* third attempt *)
         clicked <-
           match centerOf (viewportCoordinates targetElement) with
           | Some c => tryCatch (mouseAt (x c) (y c);; ret true) (fun _ => ret false)
           | None => ret false
           end;;
         if clicked then ret tt else
         (* fourth attempt *)
         clicked <-
           match centerOf (pageCoordinates targetElement) with
           | Some c =>
               let scrollX := scrollOffset (viewportInfo targetElement) scrollX in
               let scrollY := scrollOffset (viewportInfo targetElement) scrollY in
               let viewportX := x c - scrollX in
               let viewportY := y c - scrollY in
               tryCatch (mouseAt viewportX viewportY;; ret true) (fun _ => ret false)
           | None => ret false
           end;;
         if clicked then ret tt else
         (* fifth attempt *)
         tab <- (pg <- getPage;; ret (_tabId pg));;
         scriptResult <- perform (CallExecuteScript tab (clickParams targetElement))
                           (executeScript T tab (clickParams targetElement));;
         match scriptResult with
         | Some {| success := true |} => ret tt
         | Some {| success := false; error := err |} =>
             throw (allAttemptsFailed targetElement (JS.orElse err "Unknown error"))
         | None => throw (allAttemptsFailed targetElement "Unknown error")
         end)
        (fun msg => throw (failedToClick elementNode msg))
  end.

End Controller.

(** ** The ladders as ordered lists

    The locator and the click ladder restated as lists of uniform
    attempts that are run in order until one succeeds.  The theorems below
    compare the methods above with these. *)

Section Ladders.
Context {W : Type} (T : Transport W).

(** The selectors of the five locate strategies that apply to a node, in
    the order in which they are tried. *)
Definition strategySelectors (inc : bool) (e : DOMElementNode) : list string :=
  [enhancedCssSelectorForElement e inc]
  ++ (if JS.truthy (xpath e)
      then ["xpath/" +:+ default EmptyString (xpath e)] else [])
  ++ (if JS.truthy (attr e "id")
      then ["#" +:+ default EmptyString (attr e "id")] else [])
  ++ (if JS.truthy (attr e "name") && JS.truthy (tagName e)
      then [default EmptyString (tagName e) +:+ "[name="
              +:+ JS.quoted (default EmptyString (attr e "name")) +:+ "]"]
      else [])
  ++ (if JS.truthy (attr e "aria-label") && JS.truthy (tagName e)
      then [default EmptyString (tagName e) +:+ "[aria-label="
              +:+ JS.quoted (default EmptyString (attr e "aria-label")) +:+ "]"]
      else []).

(** Run the selectors in order; the first that yields a handle which then
    settles in the viewport is the answer, and none is not-found. *)
Fixpoint firstLocated (currentFrame : FrameContext) (selectors : list string)
  : M W (option ElementHandle) :=
  match selectors with
  | [] => ret None
  | selector :: rest =>
      r <- tryLocate T currentFrame selector;;
      match r with
      | Some h => ret (Some h)
      | None => firstLocated currentFrame rest
      end
  end.

(** The selectors of the [$] queries in a run of calls. *)
Definition queriesOf (cs : list Call) : list (FrameContext * string) :=
  flat_map (fun c => match c with CallQuery ctx sel => [(ctx, sel)] | _ => [] end) cs.

Inductive ClickAttempt : Type :=
| NativeClick (h : ElementHandle)
| ScriptClick (h : ElementHandle)
| MouseClickAt (px py : Z)
| HostScriptClick (params : ClickParams).

(** The two coordinate attempts of a node: the cached viewport centre,
    then the page centre moved by the cached scroll offsets. *)
Definition coordinateAttempts (target : DOMElementNode) : list ClickAttempt :=
  match centerOf (viewportCoordinates target) with
  | Some c => [MouseClickAt (x c) (y c)]
  | None => []
  end ++
  match centerOf (pageCoordinates target) with
  | Some c =>
      [MouseClickAt (x c - scrollOffset (viewportInfo target) scrollX)
                    (y c - scrollOffset (viewportInfo target) scrollY)]
  | None => []
  end.

(** The click ladder: the two attempts on the handle exist only when the
    node was located. *)
Definition clickLadder (handle : option ElementHandle) (target : DOMElementNode)
  : list ClickAttempt :=
  match handle with
  | Some h => [NativeClick h; ScriptClick h]
  | None => []
  end ++ coordinateAttempts target ++ [HostScriptClick (clickParams target)].

(** One attempt; it raises when it fails. *)
Definition runClickAttempt (target : DOMElementNode) (a : ClickAttempt) : M W unit :=
  match a with
  | NativeClick h => perform (CallClick h) (click T h)
  | ScriptClick h => perform (CallEvaluateClick h) (evaluateClick T h)
  | MouseClickAt px py => mouseAt T px py
  | HostScriptClick params =>
      tab <- (pg <- getPage;; ret (_tabId pg));;
      scriptResult <- perform (CallExecuteScript tab params) (executeScript T tab params);;
      match scriptResult with
      | Some r =>
          if success r then ret tt
          else throw (allAttemptsFailed target (JS.orElse (error r) "Unknown error"))
      | None => throw (allAttemptsFailed target "Unknown error")
      end
  end.

(** Run the attempts in order and stop at the first that succeeds; when
    none is left the error of the last one is raised. *)
Fixpoint firstSuccess (target : DOMElementNode) (ladder : list ClickAttempt)
  (lastError : string) : M W unit :=
  match ladder with
  | [] => throw lastError
  | a :: rest =>
      tryCatch (runClickAttempt target a) (fun msg => firstSuccess target rest msg)
  end.

(** [clickElementNode] over the ladder. *)
Definition clickByLadder (useVision : bool) (elementNode : DOMElementNode) : M W unit :=
  pg <- getPage;;
  match _puppeteerPage pg with
  | None => throw "Puppeteer is not connected"
  | Some _ =>
      tryCatch
        (targetElement <- freshTarget T useVision elementNode;;
         element <- locateElement T targetElement;;
         match element with
         | Some handle =>
             perform (CallScrollIntoView handle 2500)
               (scrollIntoViewIfNeeded T handle 2500)
         | None => ret tt
         end;;
         firstSuccess targetElement (clickLadder element targetElement) EmptyString)
        (fun msg => throw (failedToClick elementNode msg))
  end.

End Ladders.

(** ** Concrete browsers

    A browser without memory whose answers are fixed by a script; it is
    used to run the methods on explicit inputs. *)

Record Scenario : Type := {
  probeAnswer : outcome unit;
  openPages : outcome (list PuppeteerPage);
  extracted : outcome (option DOMState.t);
  shotAnswer : outcome string;
  scrollAnswer : outcome (Z * Z);
  urlAnswer : outcome string;
  titleAnswer : outcome string;
  queryAnswer : FrameContext -> string -> outcome (option ElementHandle);
  frameAnswer : ElementHandle -> outcome (option Frame);
  settleAnswer : ElementHandle -> outcome unit;
  clickAnswer : ElementHandle -> outcome unit;
  scriptClickAnswer : ElementHandle -> outcome unit;
  mouseAnswer : Z -> Z -> outcome unit;
  hostAnswer : ClickParams -> outcome (option ScriptResult)
}.

Definition scripted (sc : Scenario) : Transport unit :=
  {| evaluate := fun _ script w =>
       (if String.eqb script "1" then probeAnswer sc else Ok tt, w);
     pages := fun _ w => (openPages sc, w);
     removeHighlights := fun _ w => (Ok tt, w);
     getClickableElements := fun _ _ _ _ w => (extracted sc, w);
     takeScreenshotOf := fun _ _ w => (shotAnswer sc, w);
     getScrollInfo := fun _ w => (scrollAnswer sc, w);
     urlOf := fun _ w => (urlAnswer sc, w);
     titleOf := fun _ w => (titleAnswer sc, w);
     waitForPageAndFramesLoad := fun w => w;
     query := fun ctx sel w => (queryAnswer sc ctx sel, w);
     contentFrame := fun h w => (frameAnswer sc h, w);
     scrollIntoViewIfNeeded := fun h _ w => (settleAnswer sc h, w);
     click := fun h w => (clickAnswer sc h, w);
     evaluateClick := fun h w => (scriptClickAnswer sc h, w);
     mouseMove := fun _ px py w => (mouseAnswer sc px py, w);
     mouseClick := fun _ px py w => (mouseAnswer sc px py, w);
     executeScript := fun _ params w => (hostAnswer sc params, w) |}.

(** A page on which nothing is found and every action goes through. *)
Definition emptyPage : Scenario :=
  {| probeAnswer := Ok tt;
     openPages := Ok [];
     extracted := Ok None;
     shotAnswer := Ok "jpeg";
     scrollAnswer := Ok (0, 0);
     urlAnswer := Ok "https://a.example/";
     titleAnswer := Ok "A";
     queryAnswer := fun _ _ => Ok None;
     frameAnswer := fun _ => Ok None;
     settleAnswer := fun _ => Ok tt;
     clickAnswer := fun _ => Ok tt;
     scriptClickAnswer := fun _ => Ok tt;
     mouseAnswer := fun _ _ => Ok tt;
     hostAnswer := fun _ => Ok (Some {| success := true; error := None |}) |}.

Definition defaultConfig : BrowserContextConfig :=
  {| highlightElements := true; viewportExpansion := 0;
     includeDynamicAttributes := true |}.

(** The controller of tab 1, attached to document handle 0, with the
    state [st] of its last refresh. *)
Definition attachedPage (st : PageState) : Page :=
  {| _tabId := 1; _browser := Some 0%nat; _puppeteerPage := Some 0%nat;
     _config := defaultConfig; _state := st; _validWebPage := true |}.

Definition start (st : PageState) : Machine unit :=
  {| page := attachedPage st; world := tt; calls := [] |}.

(** The state kept from an earlier refresh of [https://a.example/]. *)
Definition lastGoodState : PageState :=
  {| elementTree := element "body" (Some "html/body") [];
     selectorMap := ∅;
     tabId := 1;
     url := "https://a.example/";
     title := "A";
     screenshot := Some "old-jpeg";
     pixelsAbove := 10;
     pixelsBelow := 20 |}.

(** A fresh snapshot of [https://b.example/] whose title cannot be read:
    the extraction, the screenshot and the scroll offsets succeed, and
    [title()] raises. *)
Definition newTree : DOMElementNode := element "main" (Some "html/body/main") [].

Definition titleRaises : Scenario :=
  {| probeAnswer := Ok tt;
     openPages := Ok [];
     extracted := Ok (Some {| DOMState.elementTree := newTree;
                              DOMState.selectorMap := ∅ |});
     shotAnswer := Ok "new-jpeg";
     scrollAnswer := Ok (30, 40);
     urlAnswer := Ok "https://b.example/";
     titleAnswer := Throw "Execution context was destroyed";
     queryAnswer := fun _ _ => Ok None;
     frameAnswer := fun _ => Ok None;
     settleAnswer := fun _ => Ok tt;
     clickAnswer := fun _ => Ok tt;
     scriptClickAnswer := fun _ => Ok tt;
     mouseAnswer := fun _ _ => Ok tt;
     hostAnswer := fun _ => Ok None |}.


(** ** Auxiliary notions of the theorems *)

(** The request filter, read off the branches of [onRequest]. *)
Definition passesFilter (r : HTTPRequest) : bool :=
  memStr (resourceType r) RELEVANT_RESOURCE_TYPES
  && negb (memStr (resourceType r) realTimeResourceTypes)
  && negb (existsb (fun pattern => JS.includes (JS.toLowerCase (requestUrl r)) pattern)
             IGNORED_URL_PATTERNS)
  && negb (JS.startsWith (JS.toLowerCase (requestUrl r)) "data:"
           || JS.startsWith (JS.toLowerCase (requestUrl r)) "blob:")
  && negb (headerIs (requestHeaders r) "purpose" "prefetch"
           || headerIs (requestHeaders r) "sec-fetch-dest" "video"
           || headerIs (requestHeaders r) "sec-fetch-dest" "audio").

Section Refresh.
Context {W : Type} (T : Transport W).

(** A computation that leaves [this._state] alone, however it ends. *)
Definition keepsState {A : Type} (m : M W A) : Prop :=
  forall s, _state (page (snd (m s))) = _state (page s).

(** Everything [_updateState] does before it writes to the state: the
    highlight removal, the extraction, the screenshot and the scroll
    offsets. *)
Definition gathered (useVision : bool) (focusElement : Z)
  : M W (option (DOMState.t * option string * (Z * Z))) :=
  removeHighlight T;;
  content <- getClickableElementsOf T focusElement;;
  match content with
  | None => ret None
  | Some content =>
      shot <- (if useVision
               then s <- takeScreenshot T false;; ret (Some s)
               else ret None);;
      scroll <- getScrollInfoOf T;;
      ret (Some (content, shot, scroll))
  end.

End Refresh.

(** ** Example inputs *)

Definition sampleHash : HashedDomElement :=
  {| branchPathHash := "b1"; attributesHash := "a1"; xpathHash := "x1" |}.




Definition adRequest : HTTPRequest :=
  {| requestId := 7%nat; resourceType := "script";
     requestUrl := "https://ad.doubleclick.net/pixel.js"; requestHeaders := [] |}.

Definition clipRequest : HTTPRequest :=
  {| requestId := 8%nat; resourceType := "document";
     requestUrl := "https://media.example/clip"; requestHeaders := [] |}.

Definition clipResponse : HTTPResponse :=
  {| request := clipRequest; responseHeaders := [("content-type", "video/mp4")] |}.

(** A button with an id on a page where the synthesized selector raises,
    the XPath finds nothing and [#go] finds element 7. *)
Definition goButton : DOMElementNode :=
  element "button" (Some "html/body/button") [("id", "go")].

Definition onlyIdResolves : Scenario :=
  {| probeAnswer := Ok tt;
     openPages := Ok [];
     extracted := Ok None;
     shotAnswer := Ok "jpeg";
     scrollAnswer := Ok (0, 0);
     urlAnswer := Ok "https://a.example/";
     titleAnswer := Ok "A";
     queryAnswer := fun _ sel =>
       if String.eqb sel "button#go" then Throw "detached"
       else if String.eqb sel "#go" then Ok (Some 7%nat)
       else Ok None;
     frameAnswer := fun _ => Ok None;
     settleAnswer := fun _ => Ok tt;
     clickAnswer := fun _ => Ok tt;
     scriptClickAnswer := fun _ => Ok tt;
     mouseAnswer := fun _ _ => Ok tt;
     hostAnswer := fun _ => Ok None |}.

(** The same button inside an iframe that the page does not have. *)
Definition framedButton : DOMElementNode :=
  {| tagName := Some "button"; xpath := Some "html/body/button";
     attributes := [("id", "go")];
     isVisible := true; isInteractive := true; isTopElement := true;
     shadowRoot := false; highlightIndex := Some 3;
     viewportCoordinates := None; pageCoordinates := None; viewportInfo := None;
     parent := Some (element "iframe" (Some "html/body/iframe") [("id", "pay")]) |}.

(** Pages on which the lookup of the iframe [iframe#pay] raises, and on
    which it gives element 5 whose [contentFrame()] raises. *)
Definition frameLookupRaises : Scenario :=
  {| probeAnswer := Ok tt;
     openPages := Ok [];
     extracted := Ok None;
     shotAnswer := Ok "jpeg";
     scrollAnswer := Ok (0, 0);
     urlAnswer := Ok "https://a.example/";
     titleAnswer := Ok "A";
     queryAnswer := fun _ sel =>
       if String.eqb sel "iframe#pay" then Throw "Execution context was destroyed"
       else Ok None;
     frameAnswer := fun _ => Ok None;
     settleAnswer := fun _ => Ok tt;
     clickAnswer := fun _ => Ok tt;
     scriptClickAnswer := fun _ => Ok tt;
     mouseAnswer := fun _ _ => Ok tt;
     hostAnswer := fun _ => Ok None |}.

Definition frameContentRaises : Scenario :=
  {| probeAnswer := Ok tt;
     openPages := Ok [];
     extracted := Ok None;
     shotAnswer := Ok "jpeg";
     scrollAnswer := Ok (0, 0);
     urlAnswer := Ok "https://a.example/";
     titleAnswer := Ok "A";
     queryAnswer := fun _ sel =>
       if String.eqb sel "iframe#pay" then Ok (Some 5%nat) else Ok None;
     frameAnswer := fun _ => Throw "Frame was detached";
     settleAnswer := fun _ => Ok tt;
     clickAnswer := fun _ => Ok tt;
     scriptClickAnswer := fun _ => Ok tt;
     mouseAnswer := fun _ _ => Ok tt;
     hostAnswer := fun _ => Ok None |}.

(** A page on which every lookup raises. *)
Definition everyLookupRaises : Scenario :=
  {| probeAnswer := Ok tt;
     openPages := Ok [];
     extracted := Ok None;
     shotAnswer := Ok "jpeg";
     scrollAnswer := Ok (0, 0);
     urlAnswer := Ok "https://a.example/";
     titleAnswer := Ok "A";
     queryAnswer := fun _ _ => Throw "Execution context was destroyed";
     frameAnswer := fun _ => Ok None;
     settleAnswer := fun _ => Ok tt;
     clickAnswer := fun _ => Ok tt;
     scriptClickAnswer := fun _ => Ok tt;
     mouseAnswer := fun _ _ => Ok tt;
     hostAnswer := fun _ => Ok None |}.

(** A button of the last snapshot, index 3, with a cached viewport centre
    at (10, 20) and a page centre at (10, 520) under a scroll of 500. *)
Definition cachedButton : DOMElementNode :=
  {| tagName := Some "button"; xpath := Some "html/body/button";
     attributes := [("id", "go")];
     isVisible := true; isInteractive := true; isTopElement := true;
     shadowRoot := false; highlightIndex := Some 3;
     viewportCoordinates := Some {| center := Some {| x := 10; y := 20 |} |};
     pageCoordinates := Some {| center := Some {| x := 10; y := 520 |} |};
     viewportInfo := Some {| scrollX := Some 0; scrollY := Some 500 |};
     parent := None |}.

(** A page where [#go] finds element 7, and neither click on the handle
    nor the mouse nor the host script gets through. *)
Definition nothingWorks : Scenario :=
  {| probeAnswer := Ok tt;
     openPages := Ok [];
     extracted := Ok None;
     shotAnswer := Ok "jpeg";
     scrollAnswer := Ok (0, 0);
     urlAnswer := Ok "https://a.example/";
     titleAnswer := Ok "A";
     queryAnswer := fun _ sel =>
       if String.eqb sel "#go" then Ok (Some 7%nat) else Ok None;
     frameAnswer := fun _ => Ok None;
     settleAnswer := fun _ => Ok tt;
     clickAnswer := fun _ => Throw "Click timeout";
     scriptClickAnswer := fun _ => Throw "Node is detached";
     mouseAnswer := fun _ _ => Throw "Target closed";
     hostAnswer := fun _ =>
       Ok (Some {| success := false;
                   error := Some "Element not found via any selector" |}) |}.


(* ================================================================== *)
(** * Part I, continued: the rest of the two files                    *)
(* ================================================================== *)

(** ** dom/views.ts: the tree below a node *)

Definition newline : string := Eval cbv in String (ascii_of_nat 10) EmptyString.

(** A [DOMBaseNode] as seen from above: a text node with its parent
    pointer, or an element node (the record above, which holds the parent
    pointer) with the children it owns. *)
Unset Elimination Schemes.
Inductive DOMBaseNode : Type :=
| DOMText (text : string) (visible : bool) (textParent : option DOMElementNode)
| DOMElement (node : DOMElementNode) (children : list DOMBaseNode).
Set Elimination Schemes.

Definition isHighlighted (e : DOMElementNode) : bool :=
  match highlightIndex e with Some _ => true | None => false end.

(** The loop of [hasParentWithHighlightIndex], from [current] upwards. *)
Fixpoint highlightedUpwards (current : DOMElementNode) : bool :=
  match current with
  | {| highlightIndex := Some _ |} => true
  | {| highlightIndex := None; parent := Some p |} => highlightedUpwards p
  | {| highlightIndex := None; parent := None |} => false
  end.

Definition hasParentWithHighlightIndex (textParent : option DOMElementNode) : bool :=
  match textParent with
  | Some current => highlightedUpwards current
  | None => false
  end.

(** [collectText] of [getAllTextTillNextClickableElement] on a node other
    than [this]; the result is what it pushes on [textParts]. *)
Fixpoint collectText (maxDepth currentDepth : Z) (node : DOMBaseNode) : list string :=
  if negb (maxDepth =? -1) && (maxDepth <? currentDepth) then []
  else
    match node with
    | DOMElement e children =>
        if isHighlighted e then []
        else flat_map (collectText maxDepth (currentDepth + 1)) children
    | DOMText text _ _ => [text]
    end.

(** [collectText(this, 0)]: the test on the highlight index is skipped
    for [this]. *)
Definition textParts (maxDepth : Z) (children : list DOMBaseNode) : list string :=
  if negb (maxDepth =? -1) && (maxDepth <? 0) then []
  else flat_map (collectText maxDepth 1) children.

Definition getAllTextTillNextClickableElement (maxDepth : Z)
  (children : list DOMBaseNode) : string :=
  JS.trim (JS.join newline (textParts maxDepth children)).

(** The members that the attribute record, a plain object, inherits
    from [Object.prototype], with the text a template literal prints for
    them: the prototype itself for [__proto__], and a built-in function
    for the others, printed the way V8 prints it. *)
Definition inheritedFunctions : list string :=
  ["__defineGetter__"; "__defineSetter__"; "hasOwnProperty"; "__lookupGetter__";
   "__lookupSetter__"; "isPrototypeOf"; "propertyIsEnumerable"; "toString";
   "valueOf"; "toLocaleString"].

Definition inheritedMemberText (key : string) : option string :=
  if String.eqb key "__proto__" then Some "[object Object]"
  else if String.eqb key "constructor" then Some "function Object() { [native code] }"
  else if memStr key inheritedFunctions
       then Some ("function " +:+ key +:+ "() { [native code] }")
       else None.

(** [node.attributes[key]] in a template literal, [None] when it is
    falsy: an attribute of the node when there is one, else an inherited
    member. *)
Definition attributeText (e : DOMElementNode) (key : string) : option string :=
  match attr e key with
  | Some value => if JS.isEmpty value then None else Some value
  | None => inheritedMemberText key
  end.

(** The attribute part of a line of [clickableElementsToString]. *)
Definition attributesStr (includeAttributes : list string) (e : DOMElementNode) : string :=
  match includeAttributes with
  | [] => EmptyString
  | _ :: _ =>
      " " +:+
      JS.join " "
        (List.filter (fun s => negb (JS.isEmpty s))
           (map (fun key =>
                   match attributeText e key with
                   | Some value => key +:+ "=" +:+ JS.quoted value
                   | None => EmptyString
                   end)
              includeAttributes))
  end.

Definition elementLine (includeAttributes : list string) (index : Z)
  (e : DOMElementNode) (children : list DOMBaseNode) : string :=
  "[" +:+ JS.showZ index +:+ "]<" +:+ showTag (tagName e)
    +:+ attributesStr includeAttributes e +:+ ">"
    +:+ getAllTextTillNextClickableElement (-1) children
    +:+ "</" +:+ showTag (tagName e) +:+ ">".

(** [processNode] of [clickableElementsToString]; the result is what it
    pushes on [formattedText]. *)
Fixpoint processNode (includeAttributes : list string) (node : DOMBaseNode)
  : list string :=
  match node with
  | DOMElement e children =>
      (match highlightIndex e with
       | Some index => [elementLine includeAttributes index e children]
       | None => []
       end ++ flat_map (processNode includeAttributes) children)%list
  | DOMText text _ textParent =>
      if negb (hasParentWithHighlightIndex textParent) then ["[]" +:+ text] else []
  end.

Definition clickableElementsToString (includeAttributes : list string)
  (node : DOMBaseNode) : string :=
  JS.join newline (processNode includeAttributes node).

(** [this.tagName === 'input' && this.attributes['type'] === 'file'] *)
Definition isFileInput (e : DOMElementNode) : bool :=
  match tagName e, attr e "type" with
  | Some t, Some ty => String.eqb t "input" && String.eqb ty "file"
  | _, _ => false
  end.

(** [getFileUploadElement(false)]: the node itself, then its element
    children in order, depth first. *)
Fixpoint getFileUploadElementBelow (node : DOMBaseNode) : option DOMElementNode :=
  match node with
  | DOMText _ _ _ => None
  | DOMElement e children =>
      if isFileInput e then Some e
      else
        (fix scan (rest : list DOMBaseNode) : option DOMElementNode :=
           match rest with
           | [] => None
           | child :: rest' =>
               match getFileUploadElementBelow child with
               | Some result => Some result
               | None => scan rest'
               end
           end) children
  end.

Fixpoint firstFileUploadElement (nodes : list DOMBaseNode) : option DOMElementNode :=
  match nodes with
  | [] => None
  | child :: rest =>
      match getFileUploadElementBelow child with
      | Some result => Some result
      | None => firstFileUploadElement rest
      end
  end.

(** [getFileUploadElement(checkSiblings)] on the element [this];
    [siblings] are the other children of its parent in order, [None] for a
    node without a parent. *)
Definition getFileUploadElement (checkSiblings : bool) (this : DOMBaseNode)
  (siblings : option (list DOMBaseNode)) : option DOMElementNode :=
  match getFileUploadElementBelow this with
  | Some result => Some result
  | None =>
      match siblings with
      | Some others => if checkSiblings then firstFileUploadElement others else None
      | None => None
      end
  end.

(** The test of [isFileUploader] on one element:
    [type?.toLowerCase() === 'file' || !!accept] on an [input]. *)
Definition acceptsFiles (e : DOMElementNode) : bool :=
  match tagName e with
  | Some t =>
      String.eqb t "input" &&
      (match attr e "type" with
       | Some ty => String.eqb (JS.toLowerCase ty) "file"
       | None => false
       end || JS.truthy (attr e "accept"))
  | None => false
  end.

(** [isFileUploader(elementNode, maxDepth, currentDepth)] of [page.ts];
    a text child has no [tagName] and is passed over. *)
Fixpoint isFileUploader (elementNode : DOMBaseNode) (maxDepth currentDepth : Z) : bool :=
  match elementNode with
  | DOMText _ _ _ => false
  | DOMElement e children =>
      if maxDepth <? currentDepth then false
      else if acceptsFiles e then true
      else if currentDepth <? maxDepth
           then existsb (fun child => isFileUploader child maxDepth (currentDepth + 1))
                  children
           else false
  end.

(** The number of levels of a tree. *)
Fixpoint levels (node : DOMBaseNode) : Z :=
  match node with
  | DOMText _ _ _ => 0
  | DOMElement _ children => 1 + fold_right (fun c acc => Z.max (levels c) acc) 0 children
  end.

(** The parent pointers below [above] agree with the ownership: every
    child points to the element that holds it. *)
Fixpoint wellParented (above : option DOMElementNode) (node : DOMBaseNode) : Prop :=
  match node with
  | DOMText _ _ textParent => textParent = above
  | DOMElement e children =>
      parent e = above /\
      fold_right (fun c acc => wellParented (Some e) c /\ acc) True children
  end.

(** [processNode] with the walk up the parent pointers replaced by a flag
    that is handed down. *)
Fixpoint linesUnder (includeAttributes : list string) (underHighlight : bool)
  (node : DOMBaseNode) : list string :=
  match node with
  | DOMElement e children =>
      (match highlightIndex e with
       | Some index => [elementLine includeAttributes index e children]
       | None => []
       end ++ flat_map (linesUnder includeAttributes (underHighlight || isHighlighted e))
                children)%list
  | DOMText text _ _ => if underHighlight then [] else ["[]" +:+ text]
  end.

(** The same element with another attribute record. *)
Definition withAttributes (attrs : list (string * string)) (e : DOMElementNode)
  : DOMElementNode :=
  {| tagName := tagName e; xpath := xpath e; attributes := attrs;
     isVisible := isVisible e; isInteractive := isInteractive e;
     isTopElement := isTopElement e; shadowRoot := shadowRoot e;
     highlightIndex := highlightIndex e;
     viewportCoordinates := viewportCoordinates e;
     pageCoordinates := pageCoordinates e; viewportInfo := viewportInfo e;
     parent := parent e |}.

(** The attributes that only rules 2 and 4 read, and only when dynamic
    attributes are included. *)
Definition dynamicAttributes : list string :=
  ["class"; "data-testid"; "data-qa"; "data-cy"].

Definition withoutDynamic (attrs : list (string * string)) : list (string * string) :=
  List.filter (fun entry => negb (memStr (fst entry) dynamicAttributes)) attrs.

(** A step of an XPath without a slash or a bracket in it. *)
Definition plainTag (s : string) : Prop :=
  s <> EmptyString /\
  JS.any (fun c => Ascii.eqb c "/" || Ascii.eqb c "[") s = false.

(** [[p1][p2]...]: the bracketed expressions that follow a step. *)
Definition bracketed (predicates : list string) : string :=
  fold_right (fun p rest => "[" +:+ p +:+ "]" +:+ rest) EmptyString predicates.

(** A bracketed expression that is neither a number, nor [last()], nor a
    test on [position()]. *)
Definition unhandledPredicate (p : string) : bool :=
  negb (negb (JS.isEmpty p) && JS.all JS.isDigit p)
  && negb (String.eqb p "last()")
  && negb (JS.includes p "position()").

(** A form with a file input one level down. *)
Definition uploadForm : DOMBaseNode :=
  DOMElement (element "form" (Some "html/body/form") [])
    [DOMText "Attach" true None;
     DOMElement (element "input" (Some "html/body/form/input") [("type", "file")]) []].

(** ** browser/page.ts: the rest of the controller *)

(** The constructor of [Page]; [config] is the configuration with the
    defaults merged in. *)
Definition newPage (tab : Z) (u t : string) (config : BrowserContextConfig) : Page :=
  {| _tabId := tab; _browser := None; _puppeteerPage := None; _config := config;
     _state := build_initial_state (Some tab) (Some u) (Some t);
     _validWebPage := negb (tab =? 0) && negb (JS.isEmpty u) && JS.startsWith u "http" |}.

(** A computation whose result, when it returns, is [this._state]. *)
Definition returnsState {W : Type} (m : M W PageState) : Prop :=
  forall s st s', m s = (Ok st, s') -> st = _state (page s').

(** A page whose screenshot cannot be taken. *)
Definition shotRaises : Scenario :=
  {| probeAnswer := Ok tt;
     openPages := Ok [];
     extracted := Ok None;
     shotAnswer := Throw "Target closed";
     scrollAnswer := Ok (0, 0);
     urlAnswer := Ok "https://a.example/";
     titleAnswer := Ok "A";
     queryAnswer := fun _ _ => Ok None;
     frameAnswer := fun _ => Ok None;
     settleAnswer := fun _ => Ok tt;
     clickAnswer := fun _ => Ok tt;
     scriptClickAnswer := fun _ => Ok tt;
     mouseAnswer := fun _ _ => Ok tt;
     hostAnswer := fun _ => Ok None |}.

(** *** sendKeys *)

(** What [_convertKey] hands to the keyboard: a key name or, for a name
    that the key table inherits from [Object.prototype], the inherited
    member, which is no string. *)
Inductive KeyInput : Type :=
| KeyName (name : string)
| InheritedMember (name : string).

Definition keyMap : list (string * string) :=
  [("a", "KeyA"); ("b", "KeyB"); ("c", "KeyC"); ("d", "KeyD"); ("e", "KeyE");
   ("f", "KeyF"); ("g", "KeyG"); ("h", "KeyH"); ("i", "KeyI"); ("j", "KeyJ");
   ("k", "KeyK"); ("l", "KeyL"); ("m", "KeyM"); ("n", "KeyN"); ("o", "KeyO");
   ("p", "KeyP"); ("q", "KeyQ"); ("r", "KeyR"); ("s", "KeyS"); ("t", "KeyT");
   ("u", "KeyU"); ("v", "KeyV"); ("w", "KeyW"); ("x", "KeyX"); ("y", "KeyY");
   ("z", "KeyZ");
   ("0", "Digit0"); ("1", "Digit1"); ("2", "Digit2"); ("3", "Digit3");
   ("4", "Digit4"); ("5", "Digit5"); ("6", "Digit6"); ("7", "Digit7");
   ("8", "Digit8"); ("9", "Digit9");
   ("control", "Control"); ("shift", "Shift"); ("alt", "Alt"); ("meta", "Meta");
   ("enter", "Enter"); ("backspace", "Backspace"); ("delete", "Delete");
   ("arrowleft", "ArrowLeft"); ("arrowright", "ArrowRight");
   ("arrowup", "ArrowUp"); ("arrowdown", "ArrowDown");
   ("escape", "Escape"); ("tab", "Tab"); ("space", "Space")].

(** The members of [Object.prototype] whose name has no capital: the only
    ones a lower-cased key can name. *)
Definition inheritedNames : list string := ["constructor"; "__proto__"].

(** [keyMap[lowerKey] || key] *)
Definition _convertKey (key : string) : KeyInput :=
  let lowerKey := JS.toLowerCase (JS.trim key) in
  match lookupAttr lowerKey keyMap with
  | Some convertedKey => KeyName convertedKey
  | None =>
      if memStr lowerKey inheritedNames then InheritedMember lowerKey
      else KeyName key
  end.

(** The keyboard of the page.  [keyboardPress] stands for the press
    together with the wait for the load that runs beside it, which never
    raises. *)
Record Keyboard (W : Type) : Type := {
  keyboardDown : PuppeteerPage -> KeyInput -> W -> outcome unit * W;
  keyboardPress : PuppeteerPage -> KeyInput -> W -> outcome unit * W;
  keyboardUp : PuppeteerPage -> KeyInput -> W -> outcome unit * W
}.
Arguments keyboardDown {W}.
Arguments keyboardPress {W}.
Arguments keyboardUp {W}.

(** One awaited call that is not among the recorded ones. *)
Definition effect {W A} (f : W -> outcome A * W) : M W A :=
  fun s =>
    let '(r, w) := f (world s) in
    (r, {| page := page s; world := w; calls := calls s |}).

(** [try { m } finally { cleanup }] *)
Definition tryFinally {W A} (m : M W A) (cleanup : M W unit) : M W A :=
  fun s =>
    let '(r, s1) := m s in
    match cleanup s1 with
    | (Ok _, s2) => (r, s2)
    | (Throw msg, s2) => (Throw msg, s2)
    end.

Section Keys.
Context {W : Type} (K : Keyboard W).

Fixpoint pressModifiers (p : PuppeteerPage) (modifiers : list string) : M W unit :=
  match modifiers with
  | [] => ret tt
  | modifier :: rest =>
      effect (keyboardDown K p (_convertKey modifier));;
      pressModifiers p rest
  end.

Fixpoint releaseModifiers (p : PuppeteerPage) (modifiers : list string) : M W unit :=
  match modifiers with
  | [] => ret tt
  | modifier :: rest =>
      tryCatch (effect (keyboardUp K p (_convertKey modifier))) (fun _ => ret tt);;
      releaseModifiers p rest
  end.

Definition sendKeys (keys : string) : M W unit :=
  pg <- getPage;;
  match _puppeteerPage pg with
  | None => throw notConnected
  | Some p =>
      let keyParts := JS.split "+" keys in
      let modifiers := removelast keyParts in
      let mainKey := List.last keyParts EmptyString in
      tryFinally
        (tryCatch
           (pressModifiers p modifiers;;
            effect (keyboardPress K p (_convertKey mainKey)))
           (fun msg => throw ("Failed to send keys: " +:+ msg)))
        (releaseModifiers p (rev modifiers))
  end.

End Keys.

(** The keyboard calls in the order they are made. *)
Inductive KeyCall : Type :=
| KeyDown (key : KeyInput)
| KeyPress (key : KeyInput)
| KeyUp (key : KeyInput).

(** A keyboard that writes down every call next to the world it acts on. *)
Definition recording {V : Type} (K : Keyboard V) : Keyboard (V * list KeyCall) :=
  {| keyboardDown := fun p key w =>
       let '(r, v) := keyboardDown K p key (fst w) in
       (r, (v, (snd w ++ [KeyDown key])%list));
     keyboardPress := fun p key w =>
       let '(r, v) := keyboardPress K p key (fst w) in
       (r, (v, (snd w ++ [KeyPress key])%list));
     keyboardUp := fun p key w =>
       let '(r, v) := keyboardUp K p key (fst w) in
       (r, (v, (snd w ++ [KeyUp key])%list)) |}.

(** A keyboard on which the keys [stuck] cannot be pressed or released. *)
Definition stuckKeyboard (stuck : list string) : Keyboard unit :=
  let answer (key : KeyInput) : outcome unit :=
    match key with
    | KeyName name => if memStr name stuck then Throw "Unknown key" else Ok tt
    | InheritedMember _ => Throw "Unknown key"
    end in
  {| keyboardDown := fun _ key w => (answer key, w);
     keyboardPress := fun _ key w => (answer key, w);
     keyboardUp := fun _ key w => (answer key, w) |}.

(** *** Navigation, text search, dropdowns and text input *)

(** [goto(url)], [reload()], [goBack()] and [goForward()]. *)
Inductive Navigation : Type :=
| Goto (target : string)
| Reload
| Back
| Forward.

(** An [option] of a [select] as the callbacks read it. *)
Record SelectOption : Type := {
  optionIndex : Z;
  optionText : string;
  optionValue : string
}.

(** The element behind a handle, as far as the callbacks of [evaluate]
    look at it: a [select] with its options and its value, or anything
    else. *)
Inductive DomElement : Type :=
| SelectElement (options : list SelectOption) (value : string)
| OtherElement.

(** What a callback does to its element. *)
Inductive DomEffect : Type :=
| SetValue (value : string)
| DispatchEvent (name : string).

(** The result of the callback of [selectDropdownOption]. *)
Record SelectResult : Type := {
  found : bool;
  message : string
}.

(** The argument of the host script of [inputTextElementNode]. *)
Record InputParams : Type := {
  inputId : option string;
  inputName : option string;
  inputAriaLabel : option string;
  inputTagName : string;
  inputText : string
}.

(** The rest of the browser.  [navigate] stands for the navigation
    together with the wait for the load that runs beside it, which never
    raises; [readElement] for the way of [evaluate] to the element of a
    handle, and [applyEffects] for what its callback did there. *)
Record Device (W : Type) : Type := {
  navigate : PuppeteerPage -> Navigation -> W -> outcome unit * W;
  isDisplayed : ElementHandle -> W -> outcome bool * W;
  readElement : ElementHandle -> W -> outcome DomElement * W;
  applyEffects : ElementHandle -> list DomEffect -> W -> W;
  clearValue : ElementHandle -> W -> outcome unit * W;
  typeText : ElementHandle -> string -> W -> outcome unit * W;
  inputScript : Z -> InputParams -> W -> outcome (option ScriptResult) * W
}.
Arguments navigate {W}.
Arguments isDisplayed {W}.
Arguments readElement {W}.
Arguments applyEffects {W}.
Arguments clearValue {W}.
Arguments typeText {W}.
Arguments inputScript {W}.

(** The callback of [getDropdownOptions]. *)
Definition readOptions (select : DomElement)
  : outcome (list SelectOption) * list DomEffect :=
  match select with
  | SelectElement options _ =>
      (Ok (map (fun option =>
                  {| optionIndex := optionIndex option;
                     optionText := optionText option;
                     optionValue := optionValue option |}) options), [])
  | OtherElement => (Throw "Element is not a select element", [])
  end.

(** [`", "`], the separator of the available options. *)
Definition optionSeparator : string :=
  JS.str JS.dquote +:+ ", " +:+ JS.str JS.dquote.

(** The callback of [selectDropdownOption]. *)
Definition chooseOption (text : string) (elementIndex : Z) (select : DomElement)
  : outcome SelectResult * list DomEffect :=
  match select with
  | OtherElement =>
      (Ok {| found := false;
             message := "Element with index " +:+ JS.showZ elementIndex
                          +:+ " is not a SELECT" |}, [])
  | SelectElement options previousValue =>
      match List.find (fun opt => String.eqb (JS.trim (optionText opt)) text) options with
      | None =>
          let availableOptions :=
            JS.join optionSeparator (map (fun o => JS.trim (optionText o)) options) in
          (Ok {| found := false;
                 message := "Option " +:+ JS.quoted text
                              +:+ " not found in dropdown element with index "
                              +:+ JS.showZ elementIndex +:+ ". Available options: "
                              +:+ JS.quoted availableOptions |}, [])
      | Some option =>
          (Ok {| found := true;
                 message := "Selected option " +:+ JS.quoted text +:+ " with value "
                              +:+ JS.quoted (optionValue option) |},
           SetValue (optionValue option)
             :: (if negb (String.eqb previousValue (optionValue option))
                 then [DispatchEvent "change"; DispatchEvent "input"]
                 else []))
      end
  end.

(** [element.tagName?.toLowerCase() === 'select'] *)
Definition isSelectTag (t : option string) : bool :=
  match t with
  | Some name => String.eqb (JS.toLowerCase name) "select"
  | None => false
  end.

(** The selectors of [scrollToText]. *)
Definition textSelectors (text : string) : list string :=
  ["::-p-text(" +:+ text +:+ ")";
   "::-p-xpath(//*[contains(translate(text(), 'ABCDEFGHIJKLMNOPQRSTUVWXYZ', 'abcdefghijklmnopqrstuvwxyz'), '"
     +:+ JS.toLowerCase text +:+ "')])"].

Definition failedToInput (elementNode : DOMElementNode) (msg : string) : string :=
  "Failed to input text into " +:+ JS.orElse (tagName elementNode) "element" +:+ "["
    +:+ showIndex (highlightIndex elementNode) +:+ "]. Error: " +:+ msg.

Definition inputParams (targetElement : DOMElementNode) (text : string) : InputParams :=
  {| inputId := attr targetElement "id";
     inputName := attr targetElement "name";
     inputAriaLabel := attr targetElement "aria-label";
     inputTagName := JS.orElse (tagName targetElement) "input";
     inputText := text |}.

Section Devices.
Context {W : Type} (T : Transport W) (D : Device W).

(** [navigateTo], [refreshPage], [goBack] and [goForward] differ in the
    call they make and in their log lines. *)
Definition navigation (nav : Navigation) : M W unit :=
  pg <- getPage;;
  match _puppeteerPage pg with
  | None => ret tt
  | Some p =>
      tryCatch (effect (navigate D p nav))
        (fun msg => if JS.includes msg "timeout" then ret tt else throw msg)
  end.

Definition navigateTo (target : string) : M W unit := navigation (Goto target).
Definition refreshPage : M W unit := navigation Reload.
Definition goBack : M W unit := navigation Back.
Definition goForward : M W unit := navigation Forward.

(** [elementHandle.evaluate(callback, ...)] *)
Definition evaluateOn {R : Type} (handle : ElementHandle)
  (callback : DomElement -> outcome R * list DomEffect) : M W R :=
  select <- effect (readElement D handle);;
  let '(r, effects) := callback select in
  effect (fun w => (Ok tt, applyEffects D handle effects w));;
  match r with
  | Ok a => ret a
  | Throw msg => throw msg
  end.

(** The loop of [scrollToText] over its selectors. *)
Fixpoint firstVisible (p : PuppeteerPage) (selectors : list string) : M W bool :=
  match selectors with
  | [] => ret false
  | selector :: rest =>
      scrolled <-
        tryCatch
          (element <- perform (CallQuery (InPage p) selector) (query T (InPage p) selector);;
           match element with
           | Some handle =>
               isVisible <- effect (isDisplayed D handle);;
               if isVisible : bool then
                 perform (CallScrollIntoView handle 2500)
                   (scrollIntoViewIfNeeded T handle 2500);;
                 ret true
               else ret false
           | None => ret false
           end)
          (fun _ => ret false);;
      if scrolled : bool then ret true else firstVisible p rest
  end.

Definition scrollToText (text : string) : M W bool :=
  pg <- getPage;;
  match _puppeteerPage pg with
  | None => throw "Puppeteer is not connected"
  | Some p => tryCatch (firstVisible p (textSelectors text)) (fun msg => throw msg)
  end.

Definition getDropdownOptions (index : Z) : M W (list SelectOption) :=
  pg <- getPage;;
  match selectorMap (_state pg) !! index, _puppeteerPage pg with
  | Some element, Some _ =>
      tryCatch
        (elementHandle <- locateElement T element;;
         match elementHandle with
         | None => throw "Dropdown element not found"
         | Some handle =>
             options <- evaluateOn handle readOptions;;
             match options with
             | [] => throw "No options found in dropdown"
             | _ :: _ => ret options
             end
         end)
        (fun msg => throw ("Failed to get dropdown options: " +:+ msg))
  | _, _ => throw "Element not found or puppeteer is not connected"
  end.

Definition selectDropdownOption (index : Z) (text : string) : M W string :=
  pg <- getPage;;
  match selectorMap (_state pg) !! index, _puppeteerPage pg with
  | Some element, Some _ =>
      if negb (isSelectTag (tagName element)) then
        throw ("Cannot select option: Element with index " +:+ JS.showZ index
                 +:+ " is a " +:+ showTag (tagName element) +:+ ", not a SELECT")
      else
        tryCatch
          (elementHandle <- locateElement T element;;
           match elementHandle with
           | None =>
               throw ("Dropdown element with index " +:+ JS.showZ index +:+ " not found")
           | Some handle =>
               result <- evaluateOn handle (chooseOption text index);;
               ret (message result)
           end)
          (fun msg => throw msg)
  | _, _ => throw "Element not found or puppeteer is not connected"
  end.

Definition inputTextElementNode (useVision : bool) (elementNode : DOMElementNode)
  (text : string) : M W unit :=
  pg <- getPage;;
  match _puppeteerPage pg with
  | None => throw "Puppeteer is not connected"
  | Some _ =>
      tryCatch
        (targetElement <- freshTarget T useVision elementNode;;
         element <- locateElement T targetElement;;
         match element with
         | Some handle =>
             perform (CallScrollIntoView handle 2500)
               (scrollIntoViewIfNeeded T handle 2500);;
             effect (clearValue D handle);;
             effect (typeText D handle text)
         | None =>
             pg <- getPage;;
             result <- effect (inputScript D (_tabId pg) (inputParams targetElement text));;
             match result with
             | Some {| success := true |} => ret tt
             | Some {| success := false; error := err |} =>
                 throw ("Element " +:+ JS.orElse (tagName elementNode) "element" +:+ "["
                          +:+ showIndex (highlightIndex elementNode)
                          +:+ "] not found. CSS selector: "
                          +:+ enhancedCssSelectorForElement targetElement
                                (includeDynamicAttributes (_config pg))
                          +:+ ". Fallback error: " +:+ JS.orElse err "Unknown error")
             | None =>
                 throw ("Element " +:+ JS.orElse (tagName elementNode) "element" +:+ "["
                          +:+ showIndex (highlightIndex elementNode)
                          +:+ "] not found. CSS selector: "
                          +:+ enhancedCssSelectorForElement targetElement
                                (includeDynamicAttributes (_config pg))
                          +:+ ". Fallback error: Unknown error")
             end
         end)
        (fun msg => throw (failedToInput elementNode msg))
  end.

End Devices.

(** A form with a dropdown (index 5 of the snapshot, found as element 9)
    and a search box (found as element 4). *)
Definition countrySelect : DOMElementNode :=
  element "select" (Some "html/body/form/select") [("id", "country")].

Definition searchBox : DOMElementNode :=
  element "input" (Some "html/body/form/input") [("id", "q")].

Definition formState : PageState :=
  {| elementTree := element "body" (Some "html/body") [];
     selectorMap := {[ 5 := countrySelect ]};
     tabId := 1;
     url := "https://a.example/form";
     title := "Form";
     screenshot := None;
     pixelsAbove := 0;
     pixelsBelow := 0 |}.

Definition formPage : Scenario :=
  {| probeAnswer := Ok tt;
     openPages := Ok [];
     extracted := Ok None;
     shotAnswer := Ok "jpeg";
     scrollAnswer := Ok (0, 0);
     urlAnswer := Ok "https://a.example/form";
     titleAnswer := Ok "Form";
     queryAnswer := fun _ sel =>
       if String.eqb sel "select#country" then Ok (Some 9%nat)
       else if String.eqb sel "input#q" then Ok (Some 4%nat)
       else Ok None;
     frameAnswer := fun _ => Ok None;
     settleAnswer := fun _ => Ok tt;
     clickAnswer := fun _ => Ok tt;
     scriptClickAnswer := fun _ => Ok tt;
     mouseAnswer := fun _ _ => Ok tt;
     hostAnswer := fun _ => Ok None |}.

Definition countries : list SelectOption :=
  [{| optionIndex := 0; optionText := "Choose"; optionValue := EmptyString |};
   {| optionIndex := 1; optionText := "France"; optionValue := "fr" |};
   {| optionIndex := 2; optionText := "Peru"; optionValue := "pe" |}].

(** A browser in which every handle stands for the element [behind], and
    typing and navigating end as given. *)
Definition formDevice (behind : DomElement) (typing navigating : outcome unit)
  : Device unit :=
  {| navigate := fun _ _ w => (navigating, w);
     isDisplayed := fun _ w => (Ok true, w);
     readElement := fun _ w => (Ok behind, w);
     applyEffects := fun _ _ w => w;
     clearValue := fun _ w => (Ok tt, w);
     typeText := fun _ _ w => (typing, w);
     inputScript := fun _ _ w => (Ok None, w) |}.

(** *** _scrollIntoViewIfNeeded

    The polling loop that [scrollIntoViewIfNeeded] of the transport
    stands for, with the clock it reads.  [checkVisible] is the callback
    of [evaluate], which also scrolls the element into view when it is
    outside the viewport. *)
Record Viewport (W : Type) : Type := {
  dateNow : W -> Z;
  checkVisible : ElementHandle -> W -> outcome bool * W;
  setTimeout : Z -> W -> W
}.
Arguments dateNow {W}.
Arguments checkVisible {W}.
Arguments setTimeout {W}.

Section Polling.
Context {W : Type} (V : Viewport W).

(** At most [rounds] rounds of the loop; [None] when the loop is still
    running after them. *)
Fixpoint scrollRounds (rounds : nat) (element : ElementHandle)
  (timeout startTime : Z) : M W (option unit) :=
  match rounds with
  | O => ret None
  | S more =>
      isVisible <- effect (checkVisible V element);;
      if isVisible : bool then ret (Some tt)
      else
        now <- effect (fun w => (Ok (dateNow V w), w));;
        if timeout <? now - startTime
        then throw "Timed out while trying to scroll element into view"
        else
          effect (fun w => (Ok tt, setTimeout V 100 w));;
          scrollRounds more element timeout startTime
  end.

Definition _scrollIntoViewIfNeeded (rounds : nat) (element : ElementHandle)
  (timeout : Z) : M W (option unit) :=
  startTime <- effect (fun w => (Ok (dateNow V w), w));;
  scrollRounds rounds element timeout startTime.

End Polling.

(** A world that is its clock, with an element that never gets into the
    viewport. *)
Definition neverVisible : Viewport Z :=
  {| dateNow := fun w => w;
     checkVisible := fun _ w => (Ok false, w + 3);
     setTimeout := fun d w => w + d |}.

(** ** removeThinkTags of the agent base class *)

Fixpoint dropChars (n : nat) (s : string) : string :=
  match n, s with
  | O, _ => s
  | S k, EmptyString => EmptyString
  | S k, String _ r => dropChars k r
  end.

(** The text before and after the first occurrence of [needle]. *)
Fixpoint cutAt (needle text : string) : option (string * string) :=
  if JS.startsWith text needle
  then Some (EmptyString, dropChars (String.length needle) text)
  else
    match text with
    | EmptyString => None
    | String c r =>
        match cutAt needle r with
        | Some (before, after) => Some (String c before, after)
        | None => None
        end
    end.

(** [text.replace(THINK_TAGS, '')]: the pattern has no [g] flag, so the
    leftmost match only is removed; its middle is lazy, so the match ends
    with the first closing tag after the opening one.  An opening tag
    matches at the leftmost place or nowhere, since a closing tag for a
    later one closes the first one as well. *)
Definition removeThinkTags (text : string) : string :=
  match cutAt "<think>" text with
  | Some (before, rest) =>
      match cutAt "</think>" rest with
      | Some (_, after) => before +:+ after
      | None => text
      end
  | None => text
  end.
(* ================================================================== *)
(** * Part II: theorems                                                *)
(* ================================================================== *)

(** ** Strings *)

Lemma append_cons (c : ascii) (a b : string) :
  String c a +:+ b = String c (a +:+ b).
Proof. reflexivity. Qed.

Lemma append_nil_l (s : string) : EmptyString +:+ s = s.
Proof. reflexivity. Qed.

Lemma append_nil_r (s : string) : s +:+ EmptyString = s.
Proof.
  induction s as [|c s IH]; [reflexivity |].
  now rewrite append_cons, IH.
Qed.

Lemma append_assoc (a b c : string) : (a +:+ b) +:+ c = a +:+ (b +:+ c).
Proof.
  induction a as [|ch a IH]; [reflexivity |].
  now rewrite !append_cons, IH.
Qed.

Lemma append_not_empty_r (a b : string) : b <> EmptyString -> a +:+ b <> EmptyString.
Proof.
  destruct a; [rewrite append_nil_l; tauto | rewrite append_cons; discriminate].
Qed.

Lemma isEmpty_true (s : string) : JS.isEmpty s = true <-> s = EmptyString.
Proof. destruct s; simpl; split; congruence. Qed.

Lemma truthy_Some (o : option string) :
  JS.truthy o = true <-> exists s, o = Some s /\ s <> EmptyString.
Proof.
  split.
  - destruct o as [[|c r]|]; simpl; try discriminate.
    intros _. eexists. split; [reflexivity | discriminate].
  - intros (s & -> & H). destruct s; [congruence | reflexivity].
Qed.

Lemma memStr_In (s : string) (l : list string) : memStr s l = true <-> In s l.
Proof.
  unfold memStr. rewrite existsb_exists. split.
  - intros (y & Hy & E). apply String.eqb_eq in E. now subst.
  - intros H. exists s. split; [assumption | apply String.eqb_refl].
Qed.

(** ** Selector synthesis *)

Example sel_id :
  enhancedCssSelectorForElement
    (element "input" (Some "html/body/input") [("id", "search-box")]) true
  = "input#search-box".
Proof. vm_compute. reflexivity. Qed.

Example sel_name :
  enhancedCssSelectorForElement
    (element "input" (Some "html/body/input") [("name", "q")]) true
  = "input[name=" +:+ JS.quoted "q" +:+ "]".
Proof. vm_compute. reflexivity. Qed.

Example sel_class :
  enhancedCssSelectorForElement
    (element "button" (Some "html/body/button") [("class", "btn btn-1234567")]) true
  = "button.btn".
Proof. vm_compute. reflexivity. Qed.

Example sel_xpath :
  enhancedCssSelectorForElement
    (element "div" (Some "/html/body/div[2]/span[last()]") []) true
  = "html > body > div:nth-of-type(2) > span:last-of-type".
Proof. vm_compute. reflexivity. Qed.

Lemma sentinel_not_empty (e : DOMElementNode) : sentinelSelector e <> EmptyString.
Proof. unfold sentinelSelector. apply append_not_empty_r. discriminate. Qed.

Lemma selectorBody_returns (e : DOMElementNode) (inc : bool) :
  exists s, selectorBody e inc = Ok s.
Proof.
  unfold selectorBody.
  repeat match goal with
         | |- context [if ?b then _ else _] => destruct b
         end; eexists; reflexivity.
Qed.

(** C10.  A node whose XPath is null or the empty string gets the empty
    string as its selector, whatever its attributes are (an id of
    identifier syntax and a test attribute included): no rule is applied,
    and the result is not the sentinel of the error handler. *)
Theorem C10_no_xpath_no_selector (e : DOMElementNode) (inc : bool) :
  xpath e = None \/ xpath e = Some EmptyString ->
  selectorBody e inc = Ok EmptyString /\
  enhancedCssSelectorForElement e inc = EmptyString /\
  enhancedCssSelectorForElement e inc <> sentinelSelector e.
Proof.
  intros H.
  assert (B : selectorBody e inc = Ok EmptyString).
  { unfold selectorBody. destruct H as [-> | ->]; reflexivity. }
  assert (S : enhancedCssSelectorForElement e inc = EmptyString).
  { unfold enhancedCssSelectorForElement. now rewrite B. }
  repeat split; try assumption.
  rewrite S. intros E. symmetry in E. now apply sentinel_not_empty in E.
Qed.

Lemma C10_no_xpath_no_selector_witness :
  let e := element "input" None [("id", "search-box"); ("data-testid", "box-1")] in
  (xpath e = None \/ xpath e = Some EmptyString) /\
  idRuleApplies e /\
  enhancedCssSelectorForElement e true = EmptyString.
Proof.
  intros e. split; [left; reflexivity |]. split.
  - exists "search-box". split; reflexivity.
  - apply (C10_no_xpath_no_selector e true). left; reflexivity.
Defined.

Lemma validIdentifier_not_empty (i : string) : validIdentifier i = true -> i <> EmptyString.
Proof. destruct i; [discriminate | discriminate]. Qed.

Lemma idRule_test (e : DOMElementNode) :
  JS.truthy (attr e "id") && validIdentifier (default EmptyString (attr e "id")) = true
  <-> idRuleApplies e.
Proof.
  unfold idRuleApplies. split.
  - intros H. apply andb_true_iff in H as [H1 H2].
    destruct (attr e "id") as [i|]; [| discriminate].
    exists i. split; [reflexivity | exact H2].
  - intros (i & -> & V). simpl. rewrite V.
    destruct i; [discriminate | reflexivity].
Qed.

Lemma idRule_test_false (e : DOMElementNode) :
  ~ idRuleApplies e ->
  JS.truthy (attr e "id") && validIdentifier (default EmptyString (attr e "id")) = false.
Proof.
  intros H. apply not_true_is_false. intros E. apply H. now apply idRule_test.
Qed.

Lemma firstPresent_test_Some (e : DOMElementNode) (a v : string) :
  firstPresent e testAttributeNames = Some (a, v) ->
  JS.truthy (testIdOf e) = true /\ testAttribute e = a /\
  default EmptyString (testIdOf e) = v.
Proof.
  unfold firstPresent, testAttributeNames, present, testIdOf, testAttribute.
  destruct (JS.truthy (attr e "data-testid")) eqn:E1.
  { intros [= <- <-]. auto. }
  destruct (JS.truthy (attr e "data-qa")) eqn:E2.
  { intros [= <- <-]. auto. }
  destruct (JS.truthy (attr e "data-cy")) eqn:E3; [| discriminate].
  intros [= <- <-]. auto.
Qed.

Lemma firstPresent_test_None (e : DOMElementNode) :
  firstPresent e testAttributeNames = None -> JS.truthy (testIdOf e) = false.
Proof.
  unfold firstPresent, testAttributeNames, present, testIdOf.
  destruct (JS.truthy (attr e "data-testid")) eqn:E1; [discriminate |].
  destruct (JS.truthy (attr e "data-qa")) eqn:E2; [discriminate |].
  destruct (JS.truthy (attr e "data-cy")) eqn:E3; [discriminate |].
  auto.
Qed.

Lemma selector_of_body (e : DOMElementNode) (inc : bool) (s : string) :
  selectorBody e inc = Ok s -> enhancedCssSelectorForElement e inc = s.
Proof. unfold enhancedCssSelectorForElement. now intros ->. Qed.

(** Rule 1. *)
Lemma selector_rule_id (e : DOMElementNode) (inc : bool) (i : string) :
  JS.truthy (xpath e) = true ->
  attr e "id" = Some i -> validIdentifier i = true ->
  enhancedCssSelectorForElement e inc = JS.orElse (tagName e) "*" +:+ "#" +:+ i.
Proof.
  intros X A V. apply selector_of_body. unfold selectorBody.
  rewrite X, A. simpl. rewrite V.
  destruct i; [discriminate | reflexivity].
Qed.

(** Rule 2. *)
Lemma selector_rule_test (e : DOMElementNode) (a v : string) :
  JS.truthy (xpath e) = true ->
  ~ idRuleApplies e ->
  firstPresent e testAttributeNames = Some (a, v) ->
  enhancedCssSelectorForElement e true
  = JS.orElse (tagName e) "*" +:+ "[" +:+ a +:+ "=" +:+ JS.quoted v +:+ "]".
Proof.
  intros X NI F. apply selector_of_body. unfold selectorBody.
  rewrite X. simpl negb. cbv iota.
  rewrite (idRule_test_false e NI).
  destruct (firstPresent_test_Some e a v F) as (T1 & T2 & T3).
  rewrite T1, T2, T3. reflexivity.
Qed.

(** Rule 3. *)
Lemma selector_rule_name (e : DOMElementNode) (inc : bool) (n : string) :
  JS.truthy (xpath e) = true ->
  ~ idRuleApplies e ->
  inc = false \/ firstPresent e testAttributeNames = None ->
  attr e "name" = Some n -> n <> EmptyString ->
  In (JS.orElse (tagName e) "*") formControlTags ->
  enhancedCssSelectorForElement e inc
  = JS.orElse (tagName e) "*" +:+ "[name=" +:+ JS.quoted n +:+ "]".
Proof.
  intros X NI NT A NE F. apply selector_of_body. unfold selectorBody.
  rewrite X. simpl negb. cbv iota.
  rewrite (idRule_test_false e NI).
  assert (T : JS.truthy (testIdOf e) && inc = false).
  { destruct NT as [-> | N]; [apply andb_false_r |].
    now rewrite (firstPresent_test_None e N). }
  rewrite T, A.
  assert (TN : JS.truthy (Some n) = true) by (destruct n; [congruence | reflexivity]).
  rewrite TN. apply memStr_In in F. rewrite F. reflexivity.
Qed.

(** A quoted value followed by more text, character by character. *)
Lemma quoted_literal (v rest : string) :
  JS.quoted v +:+ rest = String "034" v +:+ String "034" rest.
Proof.
  unfold JS.quoted, JS.str, JS.dquote.
  now rewrite !append_assoc, !append_cons, !append_nil_l.
Qed.

(** C4.  On a node with a non-empty XPath the first matching rule gives
    the selector.  Rule 1: an id of identifier syntax gives [tag#id].
    Rule 2, when rule 1 does not match: with dynamic attributes enabled,
    the first test attribute present among data-testid, data-qa and
    data-cy gives [tag[attr="value"]].  Rule 3, when neither matches: a
    name that is present on an input, textarea, select or button gives
    [tag[name="value"]].  The value stands between two double quotes,
    character 34, written ["034"] below.  [tag] is the tag name of the
    node, or [*] for a node without one; an attribute is present when its
    value is not empty. *)
Theorem C4_first_matching_rule (e : DOMElementNode) (inc : bool) :
  JS.truthy (xpath e) = true ->
  let tag := JS.orElse (tagName e) "*" in
  (forall i, attr e "id" = Some i -> validIdentifier i = true ->
     enhancedCssSelectorForElement e inc = tag +:+ "#" +:+ i) /\
  (~ idRuleApplies e -> inc = true ->
   forall a v, firstPresent e testAttributeNames = Some (a, v) ->
     enhancedCssSelectorForElement e inc
     = tag +:+ "[" +:+ a +:+ "=" +:+ String "034" v +:+ String "034" "]") /\
  (~ idRuleApplies e ->
   inc = false \/ firstPresent e testAttributeNames = None ->
   forall n, attr e "name" = Some n -> n <> EmptyString ->
     In tag formControlTags ->
     enhancedCssSelectorForElement e inc
     = tag +:+ "[name=" +:+ String "034" n +:+ String "034" "]").
Proof.
  intros X tag. repeat split.
  - intros i A V. now apply selector_rule_id.
  - intros NI -> a v F. rewrite (selector_rule_test e a v X NI F).
    fold tag. now rewrite quoted_literal.
  - intros NI NT n A NE F. rewrite (selector_rule_name e inc n X NI NT A NE F).
    fold tag. now rewrite quoted_literal.
Qed.

Lemma no_id_rule_without_id (e : DOMElementNode) :
  attr e "id" = None -> ~ idRuleApplies e.
Proof. intros A (i & B & _). congruence. Qed.

Lemma C4_first_matching_rule_witness :
  enhancedCssSelectorForElement
    (element "input" (Some "html/body/input") [("id", "search-box"); ("name", "q")]) true
  = "input#search-box" /\
  enhancedCssSelectorForElement
    (element "button" (Some "html/body/button") [("data-qa", "go"); ("name", "b")]) true
  = "button[data-qa=" +:+ String "034" "go" +:+ String "034" "]" /\
  enhancedCssSelectorForElement
    (element "input" (Some "html/body/input") [("name", "q")]) true
  = "input[name=" +:+ String "034" "q" +:+ String "034" "]" /\
  String.length
    (enhancedCssSelectorForElement
       (element "input" (Some "html/body/input") [("name", "q")]) true) = 15%nat.
Proof.
  split; [| split; [| split]].
  - destruct (C4_first_matching_rule
                (element "input" (Some "html/body/input")
                   [("id", "search-box"); ("name", "q")]) true eq_refl)
      as (R1 & _ & _).
    apply (R1 "search-box"); reflexivity.
  - destruct (C4_first_matching_rule
                (element "button" (Some "html/body/button")
                   [("data-qa", "go"); ("name", "b")]) true eq_refl)
      as (_ & R2 & _).
    apply (R2 (no_id_rule_without_id
                 (element "button" (Some "html/body/button")
                    [("data-qa", "go"); ("name", "b")]) eq_refl)
              eq_refl "data-qa" "go"); reflexivity.
  - destruct (C4_first_matching_rule
                (element "input" (Some "html/body/input") [("name", "q")]) true eq_refl)
      as (_ & _ & R3).
    apply (R3 (no_id_rule_without_id
                 (element "input" (Some "html/body/input") [("name", "q")]) eq_refl)
              (or_intror eq_refl) "q");
      [reflexivity | discriminate | simpl; tauto].
  - reflexivity.
Defined.

(** *** Rule 4: the class names *)

Lemma idStart_not_space (c : ascii) : isIdStart c = true -> JS.isSpace c = false.
Proof.
  destruct c as [[] [] [] [] [] [] [] []]; vm_compute; congruence.
Qed.

Lemma identifier_survives_trim (c : string) :
  validIdentifier c = true -> JS.isEmpty (JS.trim c) = false.
Proof.
  destruct c as [|a r]; [discriminate |].
  intros V. apply andb_true_iff in V as [V _].
  apply idStart_not_space in V.
  unfold JS.trim. simpl. rewrite V. simpl. rewrite V. reflexivity.
Qed.

(** One piece of the class attribute is appended exactly when it is
    stable-looking and fewer than two pieces were appended before it. *)
Lemma classStep_spec (cssSelector : string) (classCount : nat) (className : string) :
  classStep (cssSelector, classCount) className
  = if stableLooking className && (classCount <? 2)%nat
    then (cssSelector +:+ "." +:+ className, S classCount)
    else (cssSelector, classCount).
Proof.
  unfold classStep, stableLooking.
  destruct (validIdentifier className) eqn:V.
  - rewrite (identifier_survives_trim _ V).
    destruct (JS.hasThreeDigits className); simpl; [reflexivity |].
    rewrite Nat.ltb_antisym.
    destruct (String.length className <=? 20)%nat; simpl; reflexivity.
  - rewrite !andb_false_r. simpl.
    destruct (JS.isEmpty (JS.trim className)); [reflexivity |].
    destruct (JS.hasThreeDigits className || (20 <? String.length className)%nat);
      reflexivity.
Qed.

Lemma classLoop_spec (pieces : list string) :
  forall (cssSelector : string) (classCount : nat),
    (classCount <= 2)%nat ->
    fst (fold_left classStep pieces (cssSelector, classCount))
    = cssSelector +:+ dotted (firstn (2 - classCount) (List.filter stableLooking pieces)).
Proof.
  induction pieces as [|c rest IH]; intros sel n Hn.
  - simpl. rewrite firstn_nil. simpl. now rewrite append_nil_r.
  - change (fold_left classStep (c :: rest) (sel, n))
      with (fold_left classStep rest (classStep (sel, n) c)).
    rewrite classStep_spec. cbn [List.filter].
    destruct (stableLooking c) eqn:St; simpl andb.
    + destruct (n <? 2)%nat eqn:L.
      * apply Nat.ltb_lt in L. rewrite IH by lia.
        replace (2 - n)%nat with (S (2 - S n)) by lia.
        rewrite firstn_cons. simpl dotted. now rewrite !append_assoc.
      * apply Nat.ltb_ge in L. rewrite IH by lia.
        replace (2 - n)%nat with 0%nat by lia. reflexivity.
    + now apply IH.
Qed.

Lemma addClasses_spec (cssSelector classAttr : string) :
  addClasses cssSelector classAttr = cssSelector +:+ dotted (retainedClasses classAttr).
Proof. unfold addClasses, retainedClasses. now rewrite classLoop_spec by lia. Qed.

Lemma retainedClasses_stable (classAttr : string) :
  Forall (fun c => JS.hasThreeDigits c = false /\ (String.length c <= 20)%nat
                   /\ validIdentifier c = true) (retainedClasses classAttr).
Proof.
  unfold retainedClasses. apply Forall_take.
  apply List.Forall_forall. intros c I.
  apply filter_In in I as [_ I]. unfold stableLooking in I.
  apply andb_true_iff in I as [I V]. apply andb_true_iff in I as [D L].
  apply negb_true_iff in D. apply Nat.leb_le in L. auto.
Qed.

(** C5.  When no rule of id, test attribute or name applies and dynamic
    attributes are enabled, rule 4 starts from the tag followed by the
    class names it retains: scanning the pieces of the class attribute in
    order, a piece is rejected when it has three digits in a row, is
    longer than 20 characters or is not of identifier syntax, and the
    first two pieces that are left are appended, never more than two.
    The key attributes follow, and the XPath selector takes over when
    nothing was added to the tag. *)
Theorem C5_at_most_two_stable_classes (e : DOMElementNode) :
  JS.truthy (xpath e) = true ->
  ~ idRuleApplies e ->
  firstPresent e testAttributeNames = None ->
  ~ nameRuleApplies e ->
  let tag := JS.orElse (tagName e) "*" in
  let classes := retainedClasses (default EmptyString (attr e "class")) in
  let cssSelector := fold_left attributeStep (attributes e) (tag +:+ dotted classes) in
  (length classes <= 2)%nat /\
  classes = firstn 2 (List.filter stableLooking
                        (JS.splitWhitespace (default EmptyString (attr e "class")))) /\
  Forall (fun c => JS.hasThreeDigits c = false /\ (String.length c <= 20)%nat
                   /\ validIdentifier c = true) classes /\
  enhancedCssSelectorForElement e true
  = if String.eqb cssSelector tag
    then convertSimpleXPathToCssSelector (default EmptyString (xpath e))
    else cssSelector.
Proof.
  intros X NI NT NN tag classes cssSelector.
  split; [| split; [| split]].
  - unfold classes, retainedClasses. rewrite length_firstn. lia.
  - reflexivity.
  - apply retainedClasses_stable.
  - apply selector_of_body. unfold selectorBody.
    rewrite X. simpl negb. cbv iota.
    rewrite (idRule_test_false e NI).
    rewrite (firstPresent_test_None e NT). cbn [andb].
    assert (N : JS.truthy (attr e "name") && memStr (JS.orElse (tagName e) "*")
                  formControlTags = false).
    { apply not_true_is_false. intros E. apply andb_true_iff in E as [E1 E2].
      apply NN. split; [exact E1 | now apply memStr_In]. }
    rewrite N. rewrite andb_true_r.
    assert (C : (if JS.truthy (attr e "class")
                 then addClasses (JS.orElse (tagName e) "*")
                        (default EmptyString (attr e "class"))
                 else JS.orElse (tagName e) "*")
                = tag +:+ dotted classes).
    { unfold classes, tag. destruct (attr e "class") as [[|c r]|]; simpl.
      - vm_compute dotted. now rewrite append_nil_r.
      - apply addClasses_spec.
      - vm_compute dotted. now rewrite append_nil_r. }
    rewrite C. fold cssSelector. fold tag.
    destruct (String.eqb cssSelector tag); reflexivity.
Qed.

Lemma C5_at_most_two_stable_classes_witness :
  let e := element "button" (Some "html/body/button") [("class", "btn btn-1234567")] in
  retainedClasses (default EmptyString (attr e "class")) = ["btn"] /\
  stableLooking "btn-1234567" = false /\
  enhancedCssSelectorForElement e true = "button.btn".
Proof.
  intros e.
  assert (NI : ~ idRuleApplies e) by (now apply no_id_rule_without_id).
  assert (NN : ~ nameRuleApplies e) by (intros [P _]; discriminate P).
  destruct (C5_at_most_two_stable_classes e eq_refl NI eq_refl NN) as (_ & R & _ & S).
  split; [| split].
  - rewrite R. reflexivity.
  - reflexivity.
  - rewrite S. reflexivity.
Defined.

(** ** The hash cache *)






(** The first call on a node with nothing cached and nothing in flight
    starts the one computation. *)
Lemma hash_unset (c : HashCache) :
  _hashedValue c = None -> _hashPromise c = None ->
  exists c1,
    hash c = (Shared (length (promises c)), c1) /\
    _hashedValue c1 = None /\
    _hashPromise c1 = Some (length (promises c)) /\
    promises c1 = (promises c ++ [Pending])%list /\
    invocations c1 = S (invocations c).
Proof.
  intros H1 H2. unfold hash. rewrite H1, H2.
  eexists. split; [reflexivity |]. simpl. auto.
Qed.







Lemma cacheRun_happened (e : DOMElementNode) (history : list HashEvent) :
  forall c, cacheRun e (map Happened history) c = hashRun e history c.
Proof.
  induction history as [| ev rest IH]; intros c; [reflexivity |].
  cbn [map cacheRun hashRun fold_left cacheStep]. apply IH.
Qed.

Lemma happened_when_idle (e : DOMElementNode) (history : list HashEvent) :
  forall c, invalidatedWhenIdle e (map Happened history) c.
Proof.
  induction history as [| ev rest IH]; intros c; [exact I |].
  cbn [map invalidatedWhenIdle]. apply IH.
Qed.







(** ** The network-idle monitor *)

Lemma startsWith_mapChars (f : ascii -> ascii) (s p : string) :
  JS.startsWith s p = true -> JS.startsWith (JS.mapChars f s) (JS.mapChars f p) = true.
Proof.
  revert s. induction p as [|a p IH]; intros s H; [reflexivity |].
  destruct s as [|b s]; [discriminate |]. simpl in *.
  apply andb_true_iff in H as [E H]. apply Ascii.eqb_eq in E. subst b.
  rewrite Ascii.eqb_refl. now apply IH.
Qed.

Lemma includes_mapChars (f : ascii -> ascii) (s needle : string) :
  JS.includes s needle = true ->
  JS.includes (JS.mapChars f s) (JS.mapChars f needle) = true.
Proof.
  induction s as [|a s IH]; simpl; intros H.
  - apply orb_true_iff in H as [H | H]; [| discriminate].
    apply orb_true_iff. left. now apply (startsWith_mapChars f EmptyString needle).
  - apply orb_true_iff in H as [H | H]; apply orb_true_iff.
    + left. now apply (startsWith_mapChars f (String a s) needle).
    + right. now apply IH.
Qed.

(** A substring written in lower case survives [toLowerCase]. *)
Lemma includes_toLowerCase (s needle : string) :
  JS.toLowerCase needle = needle ->
  JS.includes s needle = true -> JS.includes (JS.toLowerCase s) needle = true.
Proof.
  intros L H. rewrite <- L. now apply includes_mapChars.
Qed.

Lemma startsWith_toLowerCase (s p : string) :
  JS.toLowerCase p = p ->
  JS.startsWith s p = true -> JS.startsWith (JS.toLowerCase s) p = true.
Proof.
  intros L H. rewrite <- L. now apply startsWith_mapChars.
Qed.

Lemma ignored_patterns_lower (pattern : string) :
  In pattern IGNORED_URL_PATTERNS -> JS.toLowerCase pattern = pattern.
Proof.
  unfold IGNORED_URL_PATTERNS. simpl.
  intros H. repeat (destruct H as [<- | H]; [vm_compute; reflexivity |]).
  contradiction.
Qed.

Lemma streaming_markers_lower (marker : string) :
  In marker streamingMarkers -> JS.toLowerCase marker = marker.
Proof.
  unfold streamingMarkers. simpl.
  intros H. repeat (destruct H as [<- | H]; [vm_compute; reflexivity |]).
  contradiction.
Qed.

Lemma headerIs_true (headers : list (string * string)) (name value : string) :
  headerIs headers name value = true <-> lookupAttr name headers = Some value.
Proof.
  unfold headerIs. destruct (lookupAttr name headers) as [v|].
  - rewrite String.eqb_eq. split; congruence.
  - split; discriminate.
Qed.

Lemma onRequest_cases (now : Z) (r : HTTPRequest) (m : Monitor) :
  onRequest now r m
  = if passesFilter r
    then {| pendingRequests := <[requestId r := r]> (pendingRequests m);
            lastActivity := now |}
    else m.
Proof.
  unfold onRequest, passesFilter.
  destruct (memStr (resourceType r) RELEVANT_RESOURCE_TYPES);
    cbn [negb andb]; [| reflexivity].
  destruct (memStr (resourceType r) realTimeResourceTypes);
    cbn [negb andb]; [reflexivity |].
  destruct (existsb _ IGNORED_URL_PATTERNS); cbn [negb andb]; [reflexivity |].
  destruct (JS.startsWith (JS.toLowerCase (requestUrl r)) "data:"
            || JS.startsWith (JS.toLowerCase (requestUrl r)) "blob:");
    cbn [negb andb]; [reflexivity |].
  destruct (headerIs (requestHeaders r) "purpose" "prefetch"
            || headerIs (requestHeaders r) "sec-fetch-dest" "video"
            || headerIs (requestHeaders r) "sec-fetch-dest" "audio");
    reflexivity.
Qed.

Lemma excluded_fails_filter (r : HTTPRequest) :
  excludedRequest r -> passesFilter r = false.
Proof.
  unfold passesFilter. intros [H | [H | [H | H]]].
  - assert (E : memStr (resourceType r) RELEVANT_RESOURCE_TYPES = false).
    { apply not_true_is_false. intros E. apply H. now apply memStr_In. }
    now rewrite E.
  - destruct H as (pattern & I & C).
    assert (E : existsb (fun pattern =>
                  JS.includes (JS.toLowerCase (requestUrl r)) pattern)
                  IGNORED_URL_PATTERNS = true).
    { apply existsb_exists. exists pattern. split; [exact I |].
      apply includes_toLowerCase; [now apply ignored_patterns_lower | exact C]. }
    rewrite E. cbn [negb]. now rewrite !andb_false_r.
  - assert (E : JS.startsWith (JS.toLowerCase (requestUrl r)) "data:"
                || JS.startsWith (JS.toLowerCase (requestUrl r)) "blob:" = true).
    { apply orb_true_iff.
      destruct H as [H | H]; [left | right];
        (apply startsWith_toLowerCase; [reflexivity | exact H]). }
    rewrite E. cbn [negb]. now rewrite !andb_false_r.
  - assert (E : headerIs (requestHeaders r) "purpose" "prefetch"
                || headerIs (requestHeaders r) "sec-fetch-dest" "video"
                || headerIs (requestHeaders r) "sec-fetch-dest" "audio" = true).
    { destruct H as [H | [H | H]]; apply headerIs_true in H; rewrite H;
        rewrite ?orb_true_r; reflexivity. }
    rewrite E. cbn [negb]. now rewrite !andb_false_r.
Qed.

Lemma onRequest_excluded (now : Z) (r : HTTPRequest) (m : Monitor) :
  excludedRequest r -> onRequest now r m = m.
Proof.
  intros H. rewrite onRequest_cases. now rewrite (excluded_fails_filter r H).
Qed.

Lemma orElse_Some_empty (s : string) : JS.orElse (Some s) EmptyString = s.
Proof. destruct s; reflexivity. Qed.

Lemma onResponse_streaming (now : Z) (response : HTTPResponse) (m : Monitor) :
  streamingResponse response ->
  onResponse now response m
  = if isPending (request response) m
    then removePending (request response) m
    else m.
Proof.
  intros (ct & marker & L & I & C). unfold onResponse.
  destruct (isPending (request response) m); cbn [negb]; [| reflexivity].
  rewrite L.
  change (JS.toLowerCase <$> Some ct) with (Some (JS.toLowerCase ct)).
  rewrite orElse_Some_empty.
  assert (E : existsb (fun t => JS.includes (JS.toLowerCase ct) t) streamingMarkers
              = true).
  { apply existsb_exists. exists marker. split; [exact I |].
    apply includes_toLowerCase; [now apply streaming_markers_lower | exact C]. }
  now rewrite E.
Qed.

(** Nothing that the filter rejects is ever pending. *)
Lemma pending_passed_filter (events : list NetEvent) :
  forall (m : Monitor),
    (forall i r, pendingRequests m !! i = Some r -> passesFilter r = true) ->
    forall i r, pendingRequests (fold_left netStep events m) !! i = Some r ->
                passesFilter r = true.
Proof.
  induction events as [|ev events IH]; intros m Inv; [exact Inv |].
  simpl. apply IH. intros i r.
  destruct ev as [now rq | now response]; simpl.
  - rewrite onRequest_cases. destruct (passesFilter rq) eqn:P; [| apply Inv].
    simpl. destruct (decide (requestId rq = i)) as [<- | N].
    + rewrite lookup_insert_eq. now intros [= <-].
    + rewrite lookup_insert_ne by exact N. apply Inv.
  - unfold onResponse.
    repeat match goal with
           | |- context [if ?b then _ else _] => destruct b
           end; simpl; try apply Inv;
      (destruct (decide (requestId (request response) = i)) as [<- | N];
       [rewrite lookup_delete_eq; discriminate
       | rewrite lookup_delete_ne by exact N; apply Inv]).
Qed.

(** C7.  A request that the filter excludes (a resource type outside
    the relevant ones, a URL with a deny-listed substring such as
    doubleclick, a data: or blob: URL, a prefetch, video or audio fetch
    purpose) leaves the monitor as it was: it is not added to the pending
    set, and over any run of traffic no such request is ever pending.  A
    response of a streaming content type such as video/mp4 takes its
    request out of the pending set and leaves the last-activity time
    stamp as it was. *)
Theorem C7_network_idle_filter (now : Z) (m : Monitor) :
  (forall r, excludedRequest r -> onRequest now r m = m) /\
  (forall start events i r,
     pendingRequests (monitorAfter start events) !! i = Some r -> ~ excludedRequest r) /\
  (forall response, streamingResponse response ->
     pendingRequests (onResponse now response m)
     = delete (requestId (request response)) (pendingRequests m) /\
     lastActivity (onResponse now response m) = lastActivity m).
Proof.
  split; [| split].
  - intros r H. now apply onRequest_excluded.
  - intros start0 events i r H X.
    apply excluded_fails_filter in X.
    assert (P : passesFilter r = true).
    { unfold monitorAfter in H.
      apply (pending_passed_filter events _) with (i := i) (r := r) in H; [exact H |].
      intros j q. simpl. rewrite lookup_empty. discriminate. }
    congruence.
  - intros response H. rewrite (onResponse_streaming now response m H).
    destruct (isPending (request response) m) eqn:P.
    + split; reflexivity.
    + unfold isPending in P.
      destruct (pendingRequests m !! requestId (request response)) eqn:E;
        [discriminate |].
      split; [now rewrite (delete_id _ _ E) | reflexivity].
Qed.

Lemma C7_network_idle_filter_witness :
  let m0 := {| pendingRequests := ∅; lastActivity := 100 |} in
  let m1 := onRequest 150 clipRequest m0 in
  excludedRequest adRequest /\
  onRequest 200 adRequest m1 = m1 /\
  lastActivity m1 = 150 /\
  pendingRequests m1 !! 8%nat = Some clipRequest /\
  streamingResponse clipResponse /\
  pendingRequests (onResponse 300 clipResponse m1) !! 8%nat = None /\
  lastActivity (onResponse 300 clipResponse m1) = 150.
Proof.
  intros m0 m1.
  assert (X : excludedRequest adRequest).
  { right; left. exists "doubleclick". split; [simpl; tauto | reflexivity]. }
  assert (S : streamingResponse clipResponse).
  { exists "video/mp4", "mp4". split; [reflexivity |]. split; [simpl; tauto | reflexivity]. }
  destruct (C7_network_idle_filter 200 m1) as (R1 & _ & _).
  destruct (C7_network_idle_filter 300 m1) as (_ & _ & R3).
  destruct (R3 clipResponse S) as [P L].
  split; [exact X |]. split; [exact (R1 adRequest X) |].
  split; [reflexivity |]. split; [reflexivity |].
  split; [exact S |]. split.
  - rewrite P. apply lookup_delete_eq.
  - rewrite L. reflexivity.
Defined.

(** ** The page controller *)

Ltac step :=
  unfold bind, ret, throw, tryCatch, getPage, setPage, perform;
  cbn [page world calls fst snd].

Section ControllerFacts.
Context {W : Type} (T : Transport W).

(** *** Scrolling *)

Lemma scrollDown_amount (amount : Z) (s : Machine W) (p : PuppeteerPage) :
  _puppeteerPage (page s) = Some p -> amount <> 0 ->
  scrollDown T (Some amount) s
  = perform (CallEvaluate p ("window.scrollBy(0, " +:+ JS.showZ amount +:+ ");"))
      (evaluate T p ("window.scrollBy(0, " +:+ JS.showZ amount +:+ ");")) s.
Proof.
  intros P N. unfold scrollDown. step. rewrite P.
  unfold truthyNumber. apply Z.eqb_neq in N. rewrite N. reflexivity.
Qed.

Lemma scrollUp_amount (amount : Z) (s : Machine W) (p : PuppeteerPage) :
  _puppeteerPage (page s) = Some p -> amount <> 0 ->
  scrollUp T (Some amount) s
  = perform (CallEvaluate p ("window.scrollBy(0, -" +:+ JS.showZ amount +:+ ");"))
      (evaluate T p ("window.scrollBy(0, -" +:+ JS.showZ amount +:+ ");")) s.
Proof.
  intros P N. unfold scrollUp. step. rewrite P.
  unfold truthyNumber. apply Z.eqb_neq in N. rewrite N. reflexivity.
Qed.

Lemma scroll_omitted (s : Machine W) (p : PuppeteerPage) :
  _puppeteerPage (page s) = Some p ->
  scrollDown T None s
  = perform (CallEvaluate p "window.scrollBy(0, window.innerHeight);")
      (evaluate T p "window.scrollBy(0, window.innerHeight);") s /\
  scrollUp T None s
  = perform (CallEvaluate p "window.scrollBy(0, -window.innerHeight);")
      (evaluate T p "window.scrollBy(0, -window.innerHeight);") s.
Proof.
  intros P. unfold scrollDown, scrollUp. step. rewrite P. split; reflexivity.
Qed.

End ControllerFacts.

(** C8.  The amount zero is not scrolled by: [scrollDown(0)] and
    [scrollUp(0)] evaluate the script of an omitted amount and move the
    page by one viewport height, where the stated behaviour is a scroll by
    exactly the given amount, here no movement at all. *)
Theorem C8_zero_amount_scrolls_a_viewport :
  (forall (W : Type) (T : Transport W) (s : Machine W),
     scrollDown T (Some 0) s = scrollDown T None s /\
     scrollUp T (Some 0) s = scrollUp T None s) /\
  calls (snd (scrollDown (scripted emptyPage) (Some 0) (start lastGoodState)))
  = [CallEvaluate 0%nat "window.scrollBy(0, window.innerHeight);"] /\
  calls (snd (scrollUp (scripted emptyPage) (Some 0) (start lastGoodState)))
  = [CallEvaluate 0%nat "window.scrollBy(0, -window.innerHeight);"] /\
  calls (snd (scrollDown (scripted emptyPage) (Some 250) (start lastGoodState)))
  = [CallEvaluate 0%nat "window.scrollBy(0, 250);"] /\
  calls (snd (scrollUp (scripted emptyPage) (Some 250) (start lastGoodState)))
  = [CallEvaluate 0%nat "window.scrollBy(0, -250);"].
Proof.
  split; [| split; [| split; [| split]]].
  - intros W T s. split; reflexivity.
  - reflexivity.
  - reflexivity.
  - vm_compute. reflexivity.
  - vm_compute. reflexivity.
Qed.

(** *** The state refresh *)

Section RefreshFacts.
Context {W : Type} (T : Transport W).

Lemma keeps_ret {A} (a : A) : @keepsState W _ (ret a).
Proof. intros s. reflexivity. Qed.

Lemma keeps_throw {A} (msg : string) : @keepsState W _ (@throw W A msg).
Proof. intros s. reflexivity. Qed.

Lemma keeps_getPage : @keepsState W _ (@getPage W).
Proof. intros s. reflexivity. Qed.

Lemma keeps_perform {A} (c : Call) (f : W -> outcome A * W) : @keepsState W _ (perform c f).
Proof. intros s. unfold perform. destruct (f (world s)). reflexivity. Qed.

Lemma keeps_bind {A B} (m : M W A) (k : A -> M W B) :
  @keepsState W _ m -> (forall a, @keepsState W _ (k a)) -> @keepsState W _ (bind m k).
Proof.
  intros Hm Hk s. unfold bind. specialize (Hm s).
  destruct (m s) as [[a | msg] s1]; simpl in *; [| exact Hm].
  now rewrite Hk.
Qed.

Lemma keeps_tryCatch {A} (m : M W A) (h : string -> M W A) :
  @keepsState W _ m -> (forall msg, @keepsState W _ (h msg)) -> @keepsState W _ (tryCatch m h).
Proof.
  intros Hm Hh s. unfold tryCatch. specialize (Hm s).
  destruct (m s) as [[a | msg] s1]; simpl in *; [exact Hm |].
  now rewrite Hh.
Qed.

Lemma keeps_recoverPage : @keepsState W _ (recoverPage T).
Proof.
  intros s. unfold recoverPage, tryCatch, bind, getPage, perform, throw, ret, setPage.
  destruct (_puppeteerPage (page s)) as [p |]; cbn.
  - destruct (evaluate T p "1" (world s)) as [[[] | msg] w]; cbn; [reflexivity |].
    destruct (_browser (page s)) as [b |]; cbn; [| reflexivity].
    destruct (pages T b w) as [[[| q ps] | msg'] w']; reflexivity.
  - destruct (_browser (page s)) as [b |]; cbn; [| reflexivity].
    destruct (pages T b (world s)) as [[[| q ps] | msg'] w']; reflexivity.
Qed.

Lemma keeps_removeHighlight : @keepsState W _ (removeHighlight T).
Proof.
  unfold removeHighlight. apply keeps_bind; [apply keeps_getPage |].
  intros pg. destruct (_ && _); [apply keeps_perform | apply keeps_ret].
Qed.

Lemma keeps_getClickableElements (focus : Z) : @keepsState W _ (getClickableElementsOf T focus).
Proof.
  unfold getClickableElementsOf. apply keeps_bind; [apply keeps_getPage |].
  intros pg. destruct (negb _); [apply keeps_ret | apply keeps_perform].
Qed.

Lemma keeps_getScrollInfo : @keepsState W _ (getScrollInfoOf T).
Proof.
  unfold getScrollInfoOf. apply keeps_bind; [apply keeps_getPage |].
  intros pg. destruct (negb _); [apply keeps_ret | apply keeps_perform].
Qed.

Lemma keeps_takeScreenshot (fullPage : bool) : @keepsState W _ (takeScreenshot T fullPage).
Proof.
  unfold takeScreenshot. apply keeps_bind; [apply keeps_getPage |].
  intros pg. destruct (_puppeteerPage pg); [| apply keeps_throw].
  apply keeps_tryCatch; [| intros; apply keeps_throw].
  repeat (apply keeps_bind; [apply keeps_perform | intros]).
  apply keeps_ret.
Qed.

Lemma keeps_gathered (useVision : bool) (focus : Z) : @keepsState W _ (gathered T useVision focus).
Proof.
  unfold gathered. apply keeps_bind; [apply keeps_removeHighlight | intros _].
  apply keeps_bind; [apply keeps_getClickableElements | intros [content |]].
  - apply keeps_bind.
    + destruct useVision; [| apply keeps_ret].
      apply keeps_bind; [apply keeps_takeScreenshot | intros; apply keeps_ret].
    + intros shot. apply keeps_bind; [apply keeps_getScrollInfo | intros; apply keeps_ret].
  - apply keeps_ret.
Qed.

(** The refresh leaves the state it had when the extraction gives
    nothing, or when anything raises before the first field is written:
    the caller then gets the state of the last good refresh. *)
Lemma updateState_keeps_last_good_state
  (useVision : bool) (focus : Z) (s s1 s2 : Machine W)
  (r : outcome (option (DOMState.t * option string * (Z * Z)))) :
  recoverPage T s = (Ok tt, s1) ->
  gathered T useVision focus s1 = (r, s2) ->
  r = Ok None \/ (exists msg, r = Throw msg) ->
  _updateState T useVision focus s = (Ok (_state (page s)), s2) /\
  _state (page s2) = _state (page s).
Proof.
  intros R G F.
  assert (K1 : _state (page s1) = _state (page s)).
  { pose proof (keeps_recoverPage s) as K. now rewrite R in K. }
  assert (K2 : _state (page s2) = _state (page s1)).
  { pose proof (keeps_gathered useVision focus s1) as K. now rewrite G in K. }
  split; [| congruence].
  assert (Last : forall t : Machine W,
             _state (page t) = _state (page s) ->
             currentState t = (Ok (_state (page s)), t)).
  { intros t E. unfold currentState, bind, getPage, ret. now rewrite E. }
  unfold _updateState. unfold bind at 1. rewrite R.
  revert G K2. unfold gathered, tryCatch, bind.
  destruct (removeHighlight T s1) as [[[] | m0] t1].
  2:{ intros [= <- <-] K2. apply Last. congruence. }
  destruct (getClickableElementsOf T focus t1) as [[[content |] | m1] t2].
  - destruct useVision.
    + destruct (takeScreenshot T false t2) as [[shot | m2] t3].
      * cbv beta iota delta [ret].
        destruct (getScrollInfoOf T t3) as [[scroll | m3] t4].
        -- intros [= <- <-]. destruct F as [F | [msg F]]; discriminate F.
        -- intros [= <- <-] K2. apply Last. congruence.
      * intros [= <- <-] K2. apply Last. congruence.
    + cbv beta iota delta [ret].
      destruct (getScrollInfoOf T t2) as [[scroll | m3] t4].
      * intros [= <- <-]. destruct F as [F | [msg F]]; discriminate F.
      * intros [= <- <-] K2. apply Last. congruence.
  - intros [= <- <-] K2. apply Last. congruence.
  - intros [= <- <-] K2. apply Last. congruence.
Qed.

End RefreshFacts.

(** The extraction gives nothing: the refresh returns the state of the
    last good refresh, untouched. *)
Lemma refresh_without_snapshot :
  exists m,
    _updateState (scripted emptyPage) true (-1) (start lastGoodState)
    = (Ok lastGoodState, m) /\
    _state (page m) = lastGoodState.
Proof.
  destruct (updateState_keeps_last_good_state (scripted emptyPage) true (-1)
              (start lastGoodState)
              {| page := attachedPage lastGoodState; world := tt;
                 calls := [CallEvaluate 0%nat "1"] |}
              {| page := attachedPage lastGoodState; world := tt;
                 calls := [CallEvaluate 0%nat "1"; CallRemoveHighlights 1;
                           CallGetClickableElements 1 true (-1) 0] |}
              (Ok None) eq_refl eq_refl (or_introl eq_refl)) as [E K].
  eexists. split; [exact E | exact K].
Qed.

(** C1.  A refresh that fails after its first field was written leaves a
    mixed state behind.  Here the extraction, the screenshot and the
    scroll offsets succeed and reading the title raises: the refresh
    returns the stored state with the element tree, the selector map and
    the URL of the new snapshot next to the title, the screenshot and the
    scroll offsets of the previous one, where the stated behaviour is the
    previous state with every field unchanged. *)
Theorem C1_failed_refresh_overwrites_some_fields :
  exists st m,
    _updateState (scripted titleRaises) true (-1) (start lastGoodState) = (Ok st, m) /\
    _state (page m) = st /\
    elementTree st = newTree /\
    url st = "https://b.example/" /\
    title st = title lastGoodState /\
    screenshot st = screenshot lastGoodState /\
    pixelsAbove st = pixelsAbove lastGoodState /\
    pixelsBelow st = pixelsBelow lastGoodState /\
    elementTree st <> elementTree lastGoodState /\
    url st <> url lastGoodState /\
    last (calls m) = Some (CallTitle 0%nat).
Proof.
  eexists. eexists. split; [vm_compute; reflexivity |].
  repeat split; try reflexivity; discriminate.
Qed.

(** *** Locating an element *)

Section LocateFacts.
Context {W : Type} (T : Transport W).

(** One strategy in terms of the browser: the query must return a handle
    and the scroll wait on it must return; a miss or a raise of either is
    a quiet [None]. *)
Lemma tryLocate_spec (ctx : FrameContext) (selector : string) (s : Machine W) :
  tryLocate T ctx selector s
  = match query T ctx selector (world s) with
    | (Ok (Some h), w1) =>
        match scrollIntoViewIfNeeded T h 2500 w1 with
        | (Ok _, w2) =>
            (Ok (Some h),
             {| page := page s; world := w2;
                calls := (calls s ++ [CallQuery ctx selector])
                           ++ [CallScrollIntoView h 2500] |})
        | (Throw _, w2) =>
            (Ok None,
             {| page := page s; world := w2;
                calls := (calls s ++ [CallQuery ctx selector])
                           ++ [CallScrollIntoView h 2500] |})
        end
    | (Ok None, w1) =>
        (Ok None,
         {| page := page s; world := w1; calls := calls s ++ [CallQuery ctx selector] |})
    | (Throw _, w1) =>
        (Ok None,
         {| page := page s; world := w1; calls := calls s ++ [CallQuery ctx selector] |})
    end.
Proof.
  unfold tryLocate, tryCatch, bind, perform, ret.
  destruct (query T ctx selector (world s)) as [[[h |] | msg] w1];
    cbn [page world calls]; try reflexivity.
  destruct (scrollIntoViewIfNeeded T h 2500 w1) as [[[] | msg] w2]; reflexivity.
Qed.

Lemma queriesOf_app (a b : list Call) : queriesOf (a ++ b) = (queriesOf a ++ queriesOf b)%list.
Proof. unfold queriesOf. apply flat_map_app. Qed.

(** A strategy never raises, makes exactly one query, and a handle it
    returns was the answer of that query and has just come through the
    scroll wait. *)
Lemma tryLocate_run (ctx : FrameContext) (selector : string) (s : Machine W) :
  exists r s',
    tryLocate T ctx selector s = (Ok r, s') /\
    queriesOf (calls s') = (queriesOf (calls s) ++ [(ctx, selector)])%list /\
    (forall h, r = Some h ->
       fst (query T ctx selector (world s)) = Ok (Some h) /\
       last (calls s') = Some (CallScrollIntoView h 2500)).
Proof.
  rewrite tryLocate_spec.
  destruct (query T ctx selector (world s)) as [[[h |] | msg] w1].
  - destruct (scrollIntoViewIfNeeded T h 2500 w1) as [[[] | msg] w2];
      eexists; eexists; (split; [reflexivity |]); cbn [calls];
      rewrite !queriesOf_app, app_nil_r; (split; [reflexivity |]).
    + intros h' [= <-]. split; [reflexivity | apply last_snoc].
    + discriminate.
  - eexists; eexists; (split; [reflexivity |]); cbn [calls].
    rewrite !queriesOf_app. split; [reflexivity | discriminate].
  - eexists; eexists; (split; [reflexivity |]); cbn [calls].
    rewrite !queriesOf_app. split; [reflexivity | discriminate].
Qed.

Lemma firstLocated_cons (ctx : FrameContext) (selector : string) (rest : list string)
  (s : Machine W) :
  firstLocated T ctx (selector :: rest) s
  = match tryLocate T ctx selector s with
    | (Ok (Some h), s') => (Ok (Some h), s')
    | (Ok None, s') => firstLocated T ctx rest s'
    | (Throw msg, s') => (Throw msg, s')
    end.
Proof.
  cbn [firstLocated]. unfold bind.
  destruct (tryLocate T ctx selector s) as [[[h |] | msg] s']; reflexivity.
Qed.

(** The ladder over a list of selectors: it never raises, it queries a
    prefix of the list in order, the whole list when nothing is found, and
    a handle it returns was the answer to the last query made and has come
    through the scroll wait as the last call. *)
Lemma firstLocated_run (ctx : FrameContext) (selectors : list string) :
  forall s : Machine W,
  exists r s' n,
    firstLocated T ctx selectors s = (Ok r, s') /\
    queriesOf (calls s')
    = (queriesOf (calls s) ++ map (pair ctx) (firstn n selectors))%list /\
    (r = None -> firstn n selectors = selectors) /\
    (forall h, r = Some h ->
       (exists before selector w,
          firstn n selectors = (before ++ [selector])%list /\
          fst (query T ctx selector w) = Ok (Some h)) /\
       last (calls s') = Some (CallScrollIntoView h 2500)).
Proof.
  induction selectors as [| selector rest IH]; intros s.
  - exists None, s, 0%nat. cbn. rewrite app_nil_r.
    repeat split; try reflexivity; discriminate.
  - rewrite firstLocated_cons.
    destruct (tryLocate_run ctx selector s) as (r & s1 & E & Q & L).
    rewrite E. destruct r as [h |].
    + exists (Some h), s1, 1%nat. cbn. rewrite Q.
      split; [reflexivity |]. split; [reflexivity |]. split; [discriminate |].
      intros h' [= <-]. destruct (L h eq_refl) as [L1 L2].
      split; [| exact L2].
      exists [], selector, (world s). split; [reflexivity | exact L1].
    + destruct (IH s1) as (r' & s2 & n & E2 & Q2 & A2 & L2).
      exists r', s2, (S n). rewrite E2, Q2, Q. cbn. rewrite <- app_assoc.
      split; [reflexivity |]. split; [reflexivity |]. split.
      * intros N. now rewrite (A2 N).
      * intros h H. destruct (L2 h H) as [(before & sel & w & B & Y) L3].
        split; [| exact L3].
        exists (selector :: before), sel, w. split; [| exact Y].
        cbn. now rewrite B.
Qed.

(** The five strategy blocks are the ladder over [strategySelectors]. *)
Lemma strategies_are_ladder (currentFrame : FrameContext) (inc : bool)
  (element : DOMElementNode) (s1 : Machine W) :
  (r1 <- tryLocate T currentFrame (enhancedCssSelectorForElement element inc);;
   match r1 with Some h => ret (Some h) | None =>
   r2 <- (if JS.truthy (xpath element)
          then tryLocate T currentFrame
                 ("xpath/" +:+ default EmptyString (xpath element))
          else ret None);;
   match r2 with Some h => ret (Some h) | None =>
   r3 <- (if JS.truthy (attr element "id")
          then tryLocate T currentFrame ("#" +:+ default EmptyString (attr element "id"))
          else ret None);;
   match r3 with Some h => ret (Some h) | None =>
   r4 <- (if JS.truthy (attr element "name") && JS.truthy (tagName element)
          then tryLocate T currentFrame
                 (default EmptyString (tagName element) +:+ "[name="
                    +:+ JS.quoted (default EmptyString (attr element "name")) +:+ "]")
          else ret None);;
   match r4 with Some h => ret (Some h) | None =>
   r5 <- (if JS.truthy (attr element "aria-label") && JS.truthy (tagName element)
          then tryLocate T currentFrame
                 (default EmptyString (tagName element) +:+ "[aria-label="
                    +:+ JS.quoted (default EmptyString (attr element "aria-label"))
                    +:+ "]")
          else ret None);;
   match r5 with Some h => ret (Some h) | None => ret None end
   end end end end) s1
  = firstLocated T currentFrame (strategySelectors inc element) s1.
Proof.
  unfold strategySelectors.
  set (sel1 := enhancedCssSelectorForElement element inc).
  set (sel2 := "xpath/" +:+ default EmptyString (xpath element)).
  set (sel3 := "#" +:+ default EmptyString (attr element "id")).
  set (sel4 := default EmptyString (tagName element) +:+ "[name="
                 +:+ JS.quoted (default EmptyString (attr element "name")) +:+ "]").
  set (sel5 := default EmptyString (tagName element) +:+ "[aria-label="
                 +:+ JS.quoted (default EmptyString (attr element "aria-label")) +:+ "]").
  set (g2 := JS.truthy (xpath element)).
  set (g3 := JS.truthy (attr element "id")).
  set (g4 := JS.truthy (attr element "name") && JS.truthy (tagName element)).
  set (g5 := JS.truthy (attr element "aria-label") && JS.truthy (tagName element)).
  clearbody sel1 sel2 sel3 sel4 sel5 g2 g3 g4 g5.
  cbn [app]. rewrite firstLocated_cons. unfold bind at 1.
  destruct (tryLocate_run currentFrame sel1 s1) as (r1 & t1 & -> & _).
  destruct r1 as [h |]; [reflexivity |].
  unfold bind at 1.
  destruct g2; cbn [app].
  { rewrite firstLocated_cons.
    destruct (tryLocate_run currentFrame sel2 t1) as (r2 & t2 & -> & _).
    destruct r2 as [h |]; [reflexivity |].
    unfold bind at 1.
    destruct g3; cbn [app].
    { rewrite firstLocated_cons.
      destruct (tryLocate_run currentFrame sel3 t2) as (r3 & t3 & -> & _).
      destruct r3 as [h |]; [reflexivity |].
      unfold bind at 1.
      destruct g4; cbn [app].
      { rewrite firstLocated_cons.
        destruct (tryLocate_run currentFrame sel4 t3) as (r4 & t4 & -> & _).
        destruct r4 as [h |]; [reflexivity |].
        unfold bind at 1.
        destruct g5; cbn [app].
        { rewrite firstLocated_cons.
          destruct (tryLocate_run currentFrame sel5 t4) as (r5 & t5 & -> & _).
          destruct r5 as [h |]; reflexivity. }
        reflexivity. }
      cbv beta iota delta [ret]. unfold bind at 1.
      destruct g5; cbn [app].
      { rewrite firstLocated_cons.
        destruct (tryLocate_run currentFrame sel5 t3) as (r5 & t5 & -> & _).
        destruct r5 as [h |]; reflexivity. }
      reflexivity. }
    cbv beta iota delta [ret]. unfold bind at 1.
    destruct g4; cbn [app].
    { rewrite firstLocated_cons.
      destruct (tryLocate_run currentFrame sel4 t2) as (r4 & t4 & -> & _).
      destruct r4 as [h |]; [reflexivity |].
      unfold bind at 1.
      destruct g5; cbn [app].
      { rewrite firstLocated_cons.
        destruct (tryLocate_run currentFrame sel5 t4) as (r5 & t5 & -> & _).
        destruct r5 as [h |]; reflexivity. }
      reflexivity. }
    cbv beta iota delta [ret]. unfold bind at 1.
    destruct g5; cbn [app].
    { rewrite firstLocated_cons.
      destruct (tryLocate_run currentFrame sel5 t2) as (r5 & t5 & -> & _).
      destruct r5 as [h |]; reflexivity. }
    reflexivity. }
  cbv beta iota delta [ret]. unfold bind at 1.
  destruct g3; cbn [app].
  { rewrite firstLocated_cons.
    destruct (tryLocate_run currentFrame sel3 t1) as (r3 & t3 & -> & _).
    destruct r3 as [h |]; [reflexivity |].
    unfold bind at 1.
    destruct g4; cbn [app].
    { rewrite firstLocated_cons.
      destruct (tryLocate_run currentFrame sel4 t3) as (r4 & t4 & -> & _).
      destruct r4 as [h |]; [reflexivity |].
      unfold bind at 1.
      destruct g5; cbn [app].
      { rewrite firstLocated_cons.
        destruct (tryLocate_run currentFrame sel5 t4) as (r5 & t5 & -> & _).
        destruct r5 as [h |]; reflexivity. }
      reflexivity. }
    cbv beta iota delta [ret]. unfold bind at 1.
    destruct g5; cbn [app].
    { rewrite firstLocated_cons.
      destruct (tryLocate_run currentFrame sel5 t3) as (r5 & t5 & -> & _).
      destruct r5 as [h |]; reflexivity. }
    reflexivity. }
  cbv beta iota delta [ret]. unfold bind at 1.
  destruct g4; cbn [app].
  { rewrite firstLocated_cons.
    destruct (tryLocate_run currentFrame sel4 t1) as (r4 & t4 & -> & _).
    destruct r4 as [h |]; [reflexivity |].
    unfold bind at 1.
    destruct g5; cbn [app].
    { rewrite firstLocated_cons.
      destruct (tryLocate_run currentFrame sel5 t4) as (r5 & t5 & -> & _).
      destruct r5 as [h |]; reflexivity. }
    reflexivity. }
  cbv beta iota delta [ret]. unfold bind at 1.
  destruct g5; cbn [app].
  { rewrite firstLocated_cons.
    destruct (tryLocate_run currentFrame sel5 t1) as (r5 & t5 & -> & _).
    destruct r5 as [h |]; reflexivity. }
  reflexivity.
Qed.

End LocateFacts.

Section LocateTheorem.
Context {W : Type} (T : Transport W).

(** [locateElement] on an attached page, by the outcome of the walk
    through the iframe parents. *)
Lemma locateElement_spec (e : DOMElementNode) (s : Machine W) (p : PuppeteerPage) :
  _puppeteerPage (page s) = Some p ->
  locateElement T e s
  = match enterFrames T (includeDynamicAttributes (_config (page s)))
            (iframeParents e) (InPage p) s with
    | (Ok None, s1) => (Ok None, s1)
    | (Ok (Some currentFrame), s1) =>
        firstLocated T currentFrame
          (strategySelectors (includeDynamicAttributes (_config (page s))) e) s1
    | (Throw msg, s1) => (Throw msg, s1)
    end.
Proof.
  intros P. unfold locateElement. unfold bind at 1. unfold getPage. rewrite P.
  unfold bind at 1.
  destruct (enterFrames T _ (iframeParents e) (InPage p) s) as [[[ctx |] | msg] s1];
    try reflexivity.
  apply strategies_are_ladder.
Qed.

(** The walk stops with [null] only at a lookup of an iframe parent that
    found no element, or at an element without a content frame; that
    lookup is then the last call it made. *)
Lemma enterFrames_fail_closed (inc : bool) (iframes : list DOMElementNode) :
  forall (ctx : FrameContext) (s s1 : Machine W),
    enterFrames T inc iframes ctx s = (Ok None, s1) ->
    exists parent,
      In parent iframes /\
      ((exists ctx', last (calls s1)
                     = Some (CallQuery ctx' (enhancedCssSelectorForElement parent inc)))
       \/ (exists h, last (calls s1) = Some (CallContentFrame h))).
Proof.
  induction iframes as [| parent rest IH]; intros ctx s s1.
  - cbn. unfold ret. discriminate.
  - cbn [enterFrames]. unfold bind, perform, ret.
    destruct (query T ctx (enhancedCssSelectorForElement parent inc) (world s))
      as [[[h |] | msg] w1]; cbn [page world calls].
    + destruct (contentFrame T h w1) as [[[f |] | msg] w2]; cbn [page world calls].
      * intros E. destruct (IH _ _ _ E) as (q & I & L).
        exists q. split; [now right | exact L].
      * intros [= <-]. exists parent. split; [now left |].
        right. exists h. cbn [calls]. apply last_snoc.
      * discriminate.
    + intros [= <-]. exists parent. split; [now left |].
      left. exists ctx. cbn [calls]. apply last_snoc.
    + discriminate.
Qed.

(** One step of the walk in terms of the browser: the lookup of the
    iframe must return an element and the element a content frame for the
    walk to go on, in that frame; a lookup without an element or an
    element without a frame ends the walk with [null], and a raise of
    either call ends it with that raise. *)
Lemma enterFrames_cons (inc : bool) (parent : DOMElementNode)
  (rest : list DOMElementNode) (ctx : FrameContext) (s : Machine W) :
  enterFrames T inc (parent :: rest) ctx s
  = let selector := enhancedCssSelectorForElement parent inc in
    match query T ctx selector (world s) with
    | (Ok (Some h), w1) =>
        match contentFrame T h w1 with
        | (Ok (Some f), w2) =>
            enterFrames T inc rest (InFrame f)
              {| page := page s; world := w2;
                 calls := (calls s ++ [CallQuery ctx selector])
                            ++ [CallContentFrame h] |}
        | (Ok None, w2) =>
            (Ok None,
             {| page := page s; world := w2;
                calls := (calls s ++ [CallQuery ctx selector])
                           ++ [CallContentFrame h] |})
        | (Throw msg, w2) =>
            (Throw msg,
             {| page := page s; world := w2;
                calls := (calls s ++ [CallQuery ctx selector])
                           ++ [CallContentFrame h] |})
        end
    | (Ok None, w1) =>
        (Ok None,
         {| page := page s; world := w1; calls := calls s ++ [CallQuery ctx selector] |})
    | (Throw msg, w1) =>
        (Throw msg,
         {| page := page s; world := w1; calls := calls s ++ [CallQuery ctx selector] |})
    end.
Proof.
  cbv zeta. cbn [enterFrames]. unfold bind, perform, ret.
  destruct (query T ctx (enhancedCssSelectorForElement parent inc) (world s))
    as [[[h |] | msg] w1]; cbn [page world calls]; try reflexivity.
  destruct (contentFrame T h w1) as [[[f |] | msg] w2]; reflexivity.
Qed.

(** [locateElement] raises only out of the walk through the iframe
    parents: the five strategies never raise. *)
Lemma locateElement_raises_in_walk (e : DOMElementNode) (s s' : Machine W)
  (p : PuppeteerPage) (msg : string) :
  _puppeteerPage (page s) = Some p ->
  locateElement T e s = (Throw msg, s') ->
  enterFrames T (includeDynamicAttributes (_config (page s))) (iframeParents e)
    (InPage p) s = (Throw msg, s').
Proof.
  intros P. rewrite (locateElement_spec e s p P).
  destruct (enterFrames T _ (iframeParents e) (InPage p) s) as [[[ctx |] | m] s1];
    [| discriminate | now intros [= <- <-]].
  destruct (firstLocated_run T ctx
              (strategySelectors (includeDynamicAttributes (_config (page s))) e) s1)
    as (r & s2 & n & R & _).
  rewrite R. discriminate.
Qed.

End LocateTheorem.

(** [locateElement] on an attached page, as far as every call returns.  When the walk through the
    iframe parents ends at a parent whose selector finds no element or
    whose element has no content frame, the result is [null] and that
    lookup is the last call made: no strategy is tried.  When the walk
    reaches the frame of the node, the result is that of the ladder over
    the selectors of the node in the order synthesized CSS selector, raw
    XPath, [#id], [tag[name=...]], [tag[aria-label=...]]: the queries made
    are a prefix of that list in that order, the answer is the handle of
    the first query that returns one which then comes through the scroll
    wait, it is [null] only after every selector was queried, and the
    ladder never raises. *)
Lemma locate_fails_closed_then_ladder
  (W : Type) (T : Transport W) (e : DOMElementNode) (s : Machine W) (p : PuppeteerPage) :
  _puppeteerPage (page s) = Some p ->
  let inc := includeDynamicAttributes (_config (page s)) in
  (forall s1,
     enterFrames T inc (iframeParents e) (InPage p) s = (Ok None, s1) ->
     locateElement T e s = (Ok None, s1) /\
     exists parent,
       In parent (iframeParents e) /\
       ((exists ctx, last (calls s1)
                     = Some (CallQuery ctx (enhancedCssSelectorForElement parent inc)))
        \/ (exists h, last (calls s1) = Some (CallContentFrame h)))) /\
  (forall currentFrame s1,
     enterFrames T inc (iframeParents e) (InPage p) s = (Ok (Some currentFrame), s1) ->
     locateElement T e s = firstLocated T currentFrame (strategySelectors inc e) s1 /\
     exists r s2 n,
       locateElement T e s = (Ok r, s2) /\
       queriesOf (calls s2)
       = (queriesOf (calls s1)
            ++ map (pair currentFrame) (firstn n (strategySelectors inc e)))%list /\
       (r = None -> firstn n (strategySelectors inc e) = strategySelectors inc e) /\
       (forall h, r = Some h ->
          (exists before selector w,
             firstn n (strategySelectors inc e) = (before ++ [selector])%list /\
             fst (query T currentFrame selector w) = Ok (Some h)) /\
          last (calls s2) = Some (CallScrollIntoView h 2500))).
Proof.
  intros P inc. split.
  - intros s1 E. split.
    + rewrite (locateElement_spec T e s p P). fold inc. now rewrite E.
    + exact (enterFrames_fail_closed T inc _ _ _ _ E).
  - intros ctx s1 E.
    assert (L : locateElement T e s = firstLocated T ctx (strategySelectors inc e) s1).
    { rewrite (locateElement_spec T e s p P). fold inc. now rewrite E. }
    split; [exact L |].
    destruct (firstLocated_run T ctx (strategySelectors inc e) s1)
      as (r & s2 & n & R & Q & A & H).
    exists r, s2, n. rewrite L. auto.
Qed.

Lemma locate_fails_closed_then_ladder_example :
  (exists s2,
     locateElement (scripted onlyIdResolves) goButton (start lastGoodState)
     = (Ok (Some 7%nat), s2) /\
     calls s2 = [CallQuery (InPage 0%nat) "button#go";
                 CallQuery (InPage 0%nat) "xpath/html/body/button";
                 CallQuery (InPage 0%nat) "#go";
                 CallScrollIntoView 7%nat 2500]) /\
  (exists s1,
     locateElement (scripted emptyPage) framedButton (start lastGoodState)
     = (Ok None, s1) /\
     calls s1 = [CallQuery (InPage 0%nat) "iframe#pay"]).
Proof.
  split.
  - destruct (locate_fails_closed_then_ladder unit (scripted onlyIdResolves)
                goButton (start lastGoodState) 0%nat eq_refl) as [_ H].
    destruct (H (InPage 0%nat) (start lastGoodState) eq_refl) as [L _].
    eexists. split; [rewrite L; vm_compute; reflexivity | reflexivity].
  - destruct (locate_fails_closed_then_ladder unit (scripted emptyPage)
                framedButton (start lastGoodState) 0%nat eq_refl) as [H _].
    destruct (H {| page := attachedPage lastGoodState; world := tt;
                   calls := [CallQuery (InPage 0%nat) "iframe#pay"] |} eq_refl)
      as [L _].
    eexists. split; [exact L | reflexivity].
Defined.

(** C2.  [locateElement] does not fail closed when the lookup of an
    iframe parent raises.  The node sits in the iframe [iframe#pay].  On
    a page where the lookup of that iframe returns no element the result
    is [null] after that one lookup, as stated.  On a page where the same
    lookup raises, and on a page where the lookup gives an element whose
    [contentFrame()] raises, [locateElement] raises that error, where the
    stated behaviour is not-found.  The same raise of a lookup inside a
    strategy is caught: on a page where every lookup raises, a node
    outside any iframe is answered with [null] after all its strategies
    were tried. *)
Theorem C2_raising_frame_lookup_escapes :
  (exists s1,
     locateElement (scripted emptyPage) framedButton (start lastGoodState)
     = (Ok None, s1) /\
     calls s1 = [CallQuery (InPage 0%nat) "iframe#pay"]) /\
  (exists s1,
     locateElement (scripted frameLookupRaises) framedButton (start lastGoodState)
     = (Throw "Execution context was destroyed", s1) /\
     calls s1 = [CallQuery (InPage 0%nat) "iframe#pay"]) /\
  (exists s1,
     locateElement (scripted frameContentRaises) framedButton (start lastGoodState)
     = (Throw "Frame was detached", s1) /\
     calls s1 = [CallQuery (InPage 0%nat) "iframe#pay"; CallContentFrame 5%nat]) /\
  (exists s1,
     locateElement (scripted everyLookupRaises) goButton (start lastGoodState)
     = (Ok None, s1) /\
     calls s1 = [CallQuery (InPage 0%nat) "button#go";
                 CallQuery (InPage 0%nat) "xpath/html/body/button";
                 CallQuery (InPage 0%nat) "#go"]).
Proof.
  repeat split; eexists; (split; [vm_compute; reflexivity | reflexivity]).
Qed.

(** *** The click ladder *)

Section ClickFacts.
Context {W : Type} (T : Transport W).

Lemma firstSuccess_cons (target : DOMElementNode) (a : ClickAttempt)
  (rest : list ClickAttempt) (lastError : string) (s : Machine W) :
  firstSuccess T target (a :: rest) lastError s
  = match runClickAttempt T target a s with
    | (Ok u, s') => (Ok u, s')
    | (Throw msg, s') => firstSuccess T target rest msg s'
    end.
Proof. reflexivity. Qed.

(** The fifth attempt of [clickElementNode]. *)
Local Abbreviation hostTail target :=
  (tab <- (pg <- getPage;; ret (_tabId pg));;
   scriptResult <- perform (CallExecuteScript tab (clickParams target))
                     (executeScript T tab (clickParams target));;
   match scriptResult with
   | Some {| success := true |} => ret tt
   | Some {| success := false; error := err |} =>
       throw (allAttemptsFailed target (JS.orElse err "Unknown error"))
   | None => throw (allAttemptsFailed target "Unknown error")
   end).

(** The fourth attempt and what follows it. *)
Local Abbreviation pageTail target :=
  (clicked <-
     match centerOf (pageCoordinates target) with
     | Some c =>
         let scrollX := scrollOffset (viewportInfo target) scrollX in
         let scrollY := scrollOffset (viewportInfo target) scrollY in
         let viewportX := x c - scrollX in
         let viewportY := y c - scrollY in
         tryCatch (mouseAt T viewportX viewportY;; ret true) (fun _ => ret false)
     | None => ret false
     end;;
   if clicked then ret tt else hostTail target).

(** The third attempt and what follows it. *)
Local Abbreviation viewportTail target :=
  (clicked <-
     match centerOf (viewportCoordinates target) with
     | Some c => tryCatch (mouseAt T (x c) (y c);; ret true) (fun _ => ret false)
     | None => ret false
     end;;
   if clicked then ret tt else pageTail target).

Lemma hostTail_is_ladder (target : DOMElementNode) (lastError : string) (s : Machine W) :
  hostTail target s
  = firstSuccess T target [HostScriptClick (clickParams target)] lastError s.
Proof.
  rewrite firstSuccess_cons. cbn [runClickAttempt firstSuccess].
  unfold bind, getPage, ret, perform, throw. cbn [page world calls].
  destruct (executeScript T (_tabId (page s)) (clickParams target) (world s))
    as [[[[[] err] |] | msg] w]; reflexivity.
Qed.

Lemma mouse_step (px py : Z) (s : Machine W) :
  tryCatch (mouseAt T px py;; ret true) (fun _ => ret false) s
  = match mouseAt T px py s with
    | (Ok _, s') => (Ok true, s')
    | (Throw _, s') => (Ok false, s')
    end.
Proof.
  unfold tryCatch, bind, ret.
  destruct (mouseAt T px py s) as [[[] | msg] s']; reflexivity.
Qed.

Lemma pageTail_is_ladder (target : DOMElementNode) (lastError : string) (s : Machine W) :
  pageTail target s
  = firstSuccess T target
      (match centerOf (pageCoordinates target) with
       | Some c =>
           [MouseClickAt (x c - scrollOffset (viewportInfo target) scrollX)
                         (y c - scrollOffset (viewportInfo target) scrollY)]
       | None => []
       end ++ [HostScriptClick (clickParams target)]) lastError s.
Proof.
  destruct (centerOf (pageCoordinates target)) as [c |]; cbn [app].
  - rewrite firstSuccess_cons. cbn [runClickAttempt]. cbv zeta.
    unfold bind at 1. rewrite mouse_step.
    destruct (mouseAt T _ _ s) as [[[] | msg] s']; [reflexivity |].
    apply hostTail_is_ladder.
  - unfold bind at 1. unfold ret at 1. apply hostTail_is_ladder.
Qed.

Lemma viewportTail_is_ladder (target : DOMElementNode) (lastError : string)
  (s : Machine W) :
  viewportTail target s
  = firstSuccess T target
      (coordinateAttempts target ++ [HostScriptClick (clickParams target)]) lastError s.
Proof.
  unfold coordinateAttempts.
  destruct (centerOf (viewportCoordinates target)) as [c |]; cbn [app].
  - rewrite firstSuccess_cons. cbn [runClickAttempt].
    unfold bind at 1. rewrite mouse_step.
    destruct (mouseAt T _ _ s) as [[[] | msg] s']; [reflexivity |].
    apply pageTail_is_ladder.
  - unfold bind at 1. unfold ret at 1. apply pageTail_is_ladder.
Qed.

Lemma bind_ext {A B : Type} (m : M W A) (k1 k2 : A -> M W B) (s : Machine W) :
  (forall a s', k1 a s' = k2 a s') -> bind m k1 s = bind m k2 s.
Proof. intros H. unfold bind. destruct (m s) as [[a | msg] s']; [apply H | reflexivity]. Qed.

Lemma tryCatch_ext {A : Type} (m1 m2 : M W A) (h : string -> M W A) (s : Machine W) :
  m1 s = m2 s -> tryCatch m1 h s = tryCatch m2 h s.
Proof. intros H. unfold tryCatch. now rewrite H. Qed.

(** The first two attempts, on a located handle, before a rest [K]. *)
Lemma handle_step (h : ElementHandle) (K : M W unit) (s : Machine W) :
  (clicked <-
     (perform (CallScrollIntoView h 2500) (scrollIntoViewIfNeeded T h 2500);;
      tryCatch
        (perform (CallClick h) (click T h);; ret true)
        (fun _ =>
           tryCatch
             (perform (CallEvaluateClick h) (evaluateClick T h);; ret true)
             (fun _ => ret false)));;
   if clicked then ret tt else K) s
  = match perform (CallScrollIntoView h 2500) (scrollIntoViewIfNeeded T h 2500) s with
    | (Ok _, s3) =>
        match perform (CallClick h) (click T h) s3 with
        | (Ok _, s4) => (Ok tt, s4)
        | (Throw _, s4) =>
            match perform (CallEvaluateClick h) (evaluateClick T h) s4 with
            | (Ok _, s5) => (Ok tt, s5)
            | (Throw _, s5) => K s5
            end
        end
    | (Throw msg, s3) => (Throw msg, s3)
    end.
Proof.
  unfold bind, tryCatch, ret.
  destruct (perform (CallScrollIntoView h 2500) _ s) as [[[] | msg] s3];
    [| reflexivity].
  destruct (perform (CallClick h) _ s3) as [[[] | msg] s4]; [reflexivity |].
  destruct (perform (CallEvaluateClick h) _ s4) as [[[] | msg'] s5]; reflexivity.
Qed.

Lemma handle_ladder (target : DOMElementNode) (h : ElementHandle)
  (rest : list ClickAttempt) (s : Machine W) :
  (perform (CallScrollIntoView h 2500) (scrollIntoViewIfNeeded T h 2500);;
   firstSuccess T target (NativeClick h :: ScriptClick h :: rest) EmptyString) s
  = match perform (CallScrollIntoView h 2500) (scrollIntoViewIfNeeded T h 2500) s with
    | (Ok _, s3) =>
        match perform (CallClick h) (click T h) s3 with
        | (Ok _, s4) => (Ok tt, s4)
        | (Throw _, s4) =>
            match perform (CallEvaluateClick h) (evaluateClick T h) s4 with
            | (Ok _, s5) => (Ok tt, s5)
            | (Throw msg, s5) => firstSuccess T target rest msg s5
            end
        end
    | (Throw msg, s3) => (Throw msg, s3)
    end.
Proof.
  unfold bind.
  destruct (perform (CallScrollIntoView h 2500) _ s) as [[[] | msg] s3];
    [| reflexivity].
  rewrite firstSuccess_cons. cbn [runClickAttempt].
  destruct (perform (CallClick h) _ s3) as [[[] | msg] s4]; [reflexivity |].
  rewrite firstSuccess_cons. cbn [runClickAttempt].
  destruct (perform (CallEvaluateClick h) _ s4) as [[[] | msg'] s5]; reflexivity.
Qed.

(** The nest of [try] blocks of [clickElementNode] is the click ladder run
    in order up to its first success. *)
Lemma click_is_ladder (useVision : bool) (elementNode : DOMElementNode) (s : Machine W) :
  clickElementNode T useVision elementNode s = clickByLadder T useVision elementNode s.
Proof.
  unfold clickElementNode, clickByLadder.
  apply bind_ext. intros pg s0.
  destruct (_puppeteerPage pg) as [p |]; [| reflexivity].
  apply tryCatch_ext.
  apply bind_ext. intros target s1.
  apply bind_ext. intros [h |] s2.
  - unfold clickLadder. cbn [app].
    rewrite handle_step, handle_ladder.
    destruct (perform (CallScrollIntoView h 2500) _ s2) as [[[] | msg] s3];
      [| reflexivity].
    destruct (perform (CallClick h) _ s3) as [[[] | msg] s4]; [reflexivity |].
    destruct (perform (CallEvaluateClick h) _ s4) as [[[] | msg'] s5];
      [reflexivity |].
    apply viewportTail_is_ladder.
  - unfold clickLadder. cbn [app].
    unfold bind at 1. unfold ret at 1. cbv iota.
    unfold bind at 8. unfold ret at 8. cbv iota.
    apply viewportTail_is_ladder.
Qed.

End ClickFacts.

Section ClickTheorem.
Context {W : Type} (T : Transport W).

(** Without a handle the first attempt made is the mouse click at the
    cached viewport centre, and the click is done when it goes through. *)
Lemma click_without_handle (useVision : bool) (elementNode target : DOMElementNode)
  (s s1 s2 : Machine W) (p p' : PuppeteerPage) (c : Coordinates) (w3 w4 : W) :
  _puppeteerPage (page s) = Some p ->
  freshTarget T useVision elementNode s = (Ok target, s1) ->
  locateElement T target s1 = (Ok None, s2) ->
  centerOf (viewportCoordinates target) = Some c ->
  _puppeteerPage (page s2) = Some p' ->
  mouseMove T p' (x c) (y c) (world s2) = (Ok tt, w3) ->
  mouseClick T p' (x c) (y c) w3 = (Ok tt, w4) ->
  clickElementNode T useVision elementNode s
  = (Ok tt, {| page := page s2; world := w4;
               calls := (calls s2 ++ [CallMouseMove p' (x c) (y c)])
                          ++ [CallMouseClick p' (x c) (y c)] |}).
Proof.
  intros P F L C P' Mv Cl. rewrite click_is_ladder. unfold clickByLadder.
  unfold bind at 1. unfold getPage. rewrite P.
  unfold tryCatch. unfold bind at 1. rewrite F.
  unfold bind at 1. rewrite L.
  unfold bind at 1. unfold ret at 1.
  unfold clickLadder, coordinateAttempts. rewrite C. cbn [app].
  rewrite firstSuccess_cons. cbn [runClickAttempt].
  unfold mouseAt, bind, getPage, perform. rewrite P'. cbn [page world calls].
  rewrite Mv. cbn [page world calls]. rewrite Cl. reflexivity.
Qed.

(** Every error of a click on an attached page names the tag and the
    index of the node. *)
Lemma click_error_names_node (useVision : bool) (elementNode : DOMElementNode)
  (s s' : Machine W) (p : PuppeteerPage) (msg : string) :
  _puppeteerPage (page s) = Some p ->
  clickElementNode T useVision elementNode s = (Throw msg, s') ->
  exists inner, msg = failedToClick elementNode inner.
Proof.
  intros P. unfold clickElementNode. unfold bind at 1. unfold getPage. rewrite P.
  unfold tryCatch.
  match goal with |- context [let (_, _) := ?body s in _] =>
    destruct (body s) as [[[] | inner] s0] end.
  - discriminate.
  - unfold throw. intros [= <- <-]. now exists inner.
Qed.

(** When every attempt of the ladder has failed, the error of the last
    one is raised. *)
Lemma firstSuccess_exhausted (target : DOMElementNode) (ladder : list ClickAttempt) :
  forall (lastError : string) (s s' : Machine W) (msg : string),
    firstSuccess T target ladder lastError s = (Throw msg, s') ->
    (ladder = [] /\ msg = lastError /\ s' = s) \/
    (exists a s0, last ladder = Some a /\ runClickAttempt T target a s0 = (Throw msg, s')).
Proof.
  induction ladder as [| a rest IH]; intros lastError s s' msg.
  - cbn. unfold throw. intros [= <- <-]. now left.
  - rewrite firstSuccess_cons.
    destruct (runClickAttempt T target a s) as [[[] | m1] s1] eqn:E; [discriminate |].
    intros H. right. destruct (IH _ _ _ _ H) as [(-> & -> & ->) | (b & s0 & Lb & Rb)].
    + exists a, s. split; [reflexivity | exact E].
    + exists b, s0. split; [| exact Rb].
      destruct rest; [discriminate Lb | exact Lb].
Qed.

End ClickTheorem.

(** C3.  [clickElementNode] on an attached page runs, after the refresh,
    the location of the node and the scroll wait on its handle, the click
    ladder in order and stops at its first success: the native click, the
    scripted click, the mouse click at the cached viewport centre, the
    mouse click at the page centre moved by the cached scroll offsets, the
    host script.  The native and the scripted click act on the handle:
    for a node that could not be located they are left out and the ladder
    starts at the coordinates, so such a node with a cached viewport
    centre is clicked there as soon as the mouse move and click go
    through, with no attempt before them.  When the ladder is exhausted
    the error of its last attempt is raised, and every error of the click
    carries the tag and the index of the node. *)
Theorem C3_click_ladder_in_order
  (W : Type) (T : Transport W) (useVision : bool) (elementNode : DOMElementNode)
  (s : Machine W) (p : PuppeteerPage) :
  _puppeteerPage (page s) = Some p ->
  clickElementNode T useVision elementNode s = clickByLadder T useVision elementNode s /\
  (forall h target,
     clickLadder (Some h) target
     = (NativeClick h :: ScriptClick h
          :: coordinateAttempts target ++ [HostScriptClick (clickParams target)])%list) /\
  (forall target,
     clickLadder None target
     = (coordinateAttempts target ++ [HostScriptClick (clickParams target)])%list) /\
  (forall target s1 s2 p' c w3 w4,
     freshTarget T useVision elementNode s = (Ok target, s1) ->
     locateElement T target s1 = (Ok None, s2) ->
     centerOf (viewportCoordinates target) = Some c ->
     _puppeteerPage (page s2) = Some p' ->
     mouseMove T p' (x c) (y c) (world s2) = (Ok tt, w3) ->
     mouseClick T p' (x c) (y c) w3 = (Ok tt, w4) ->
     clickElementNode T useVision elementNode s
     = (Ok tt, {| page := page s2; world := w4;
                  calls := (calls s2 ++ [CallMouseMove p' (x c) (y c)])
                             ++ [CallMouseClick p' (x c) (y c)] |})) /\
  (forall target ladder lastError s0 s' msg,
     firstSuccess T target ladder lastError s0 = (Throw msg, s') ->
     (ladder = [] /\ msg = lastError /\ s' = s0) \/
     (exists a s1, last ladder = Some a /\
                   runClickAttempt T target a s1 = (Throw msg, s'))) /\
  (forall msg s',
     clickElementNode T useVision elementNode s = (Throw msg, s') ->
     exists inner,
       msg = "Failed to click element: " +:+ showTag (tagName elementNode) +:+ "["
               +:+ showIndex (highlightIndex elementNode) +:+ "]. Error: " +:+ inner).
Proof.
  intros P. split; [apply click_is_ladder |].
  split; [reflexivity |]. split; [reflexivity |].
  split; [| split].
  - intros target s1 s2 p' c w3 w4. now apply click_without_handle with (p := p).
  - intros target ladder lastError s0 s' msg. apply firstSuccess_exhausted.
  - intros msg s' H. exact (click_error_names_node T useVision _ _ _ p _ P H).
Qed.

(** C3, as stated, fails on a node that cannot be located: the click on
    [cachedButton] in a page where no selector finds anything succeeds
    through the mouse click at the cached viewport centre, and neither the
    native nor the scripted click was attempted before it. *)
Lemma C3_unlocated_node_skips_handle_clicks :
  exists m,
    clickElementNode (scripted emptyPage) true cachedButton (start lastGoodState)
    = (Ok tt, m) /\
    calls m = [CallEvaluate 0%nat "1"; CallRemoveHighlights 1;
               CallGetClickableElements 1 true 3 0;
               CallQuery (InPage 0%nat) "button#go";
               CallQuery (InPage 0%nat) "xpath/html/body/button";
               CallQuery (InPage 0%nat) "#go";
               CallMouseMove 0%nat 10 20; CallMouseClick 0%nat 10 20] /\
    ~ (exists h, In (CallClick h) (calls m)) /\
    ~ (exists h, In (CallEvaluateClick h) (calls m)).
Proof.
  eexists. split; [vm_compute; reflexivity |]. split; [reflexivity |].
  split; intros [h H]; cbn in H; intuition discriminate.
Qed.

Lemma C3_click_ladder_in_order_witness :
  exists m,
    clickElementNode (scripted nothingWorks) true cachedButton (start lastGoodState)
    = (Throw ("Failed to click element: button[3]. Error: "
                +:+ "All click attempts failed for element button[3]. "
                +:+ "Fallback error: Element not found via any selector"), m) /\
    calls m = [CallEvaluate 0%nat "1"; CallRemoveHighlights 1;
               CallGetClickableElements 1 true 3 0;
               CallQuery (InPage 0%nat) "button#go";
               CallQuery (InPage 0%nat) "xpath/html/body/button";
               CallQuery (InPage 0%nat) "#go";
               CallScrollIntoView 7%nat 2500;
               CallScrollIntoView 7%nat 2500;
               CallClick 7%nat; CallEvaluateClick 7%nat;
               CallMouseMove 0%nat 10 20;
               CallMouseMove 0%nat 10 20;
               CallExecuteScript 1 (clickParams cachedButton)].
Proof.
  destruct (C3_click_ladder_in_order unit (scripted nothingWorks) true cachedButton
              (start lastGoodState) 0%nat eq_refl) as (L & _).
  eexists. split; [rewrite L; vm_compute; reflexivity | reflexivity].
Defined.

(* ================================================================== *)
(** * Part III: further properties of the two files                   *)
(* ================================================================== *)

(** ** XPath to CSS *)

Lemma splitChar_plain (sep : ascii) (p : string) :
  forall cur s,
    JS.any (Ascii.eqb sep) p = false ->
    JS.splitChar sep cur (p +:+ s) = JS.splitChar sep (cur +:+ p) s.
Proof.
  induction p as [| c p IH]; intros cur s H.
  - now rewrite append_nil_l, append_nil_r.
  - simpl in H. apply orb_false_iff in H as [H1 H2].
    rewrite append_cons. cbn [JS.splitChar].
    rewrite Ascii.eqb_sym, H1. rewrite IH by exact H2.
    unfold JS.str. now rewrite append_assoc, append_cons, append_nil_l.
Qed.

Lemma splitChar_end (sep : ascii) (p cur : string) :
  JS.any (Ascii.eqb sep) p = false -> JS.splitChar sep cur p = [cur +:+ p].
Proof.
  intros H. rewrite <- (append_nil_r p) at 1. now rewrite splitChar_plain.
Qed.

(** Joining with a separator and splitting at it gives the pieces back. *)
Lemma split_join (sep : ascii) (pieces : list string) :
  pieces <> [] ->
  Forall (fun p => JS.any (Ascii.eqb sep) p = false) pieces ->
  JS.split sep (JS.join (JS.str sep) pieces) = pieces.
Proof.
  unfold JS.split. induction pieces as [| p rest IH]; [congruence |].
  intros _ F. inversion F as [| ? ? Hp Hrest]; subst.
  destruct rest as [| q rest].
  - cbn [JS.join]. now rewrite splitChar_end.
  - change (JS.join (JS.str sep) (p :: q :: rest))
      with (p +:+ JS.str sep +:+ JS.join (JS.str sep) (q :: rest)).
    rewrite splitChar_plain by exact Hp. rewrite append_nil_l.
    unfold JS.str at 1. rewrite append_cons, append_nil_l.
    cbn [JS.splitChar]. rewrite Ascii.eqb_refl.
    now rewrite IH.
Qed.

Lemma includes_char (s : string) (c : ascii) :
  JS.includes s (JS.str c) = JS.any (Ascii.eqb c) s.
Proof.
  induction s as [| b s IH]; [reflexivity |].
  cbn [JS.includes JS.any]. rewrite IH. unfold JS.str. cbn [JS.startsWith].
  now rewrite andb_true_r.
Qed.

Lemma any_or_false (p q : ascii -> bool) (s : string) :
  JS.any (fun c => p c || q c) s = false ->
  JS.any p s = false /\ JS.any q s = false.
Proof.
  induction s as [| c s IH]; [auto |]. cbn [JS.any]. intros H.
  apply orb_false_iff in H as [H1 H2]. apply orb_false_iff in H1 as [Hp Hq].
  destruct (IH H2) as [A B]. now rewrite Hp, Hq, A, B.
Qed.

Lemma any_ext (p q : ascii -> bool) (s : string) :
  (forall c, p c = q c) -> JS.any p s = JS.any q s.
Proof. intros E. induction s as [| c s IH]; [reflexivity |]. cbn. now rewrite E, IH. Qed.

Lemma plainTag_facts (s : string) :
  plainTag s ->
  JS.isEmpty s = false /\ JS.any (Ascii.eqb "/") s = false /\
  JS.includes s "[" = false.
Proof.
  intros [N A]. apply any_or_false in A as [A1 A2].
  split; [destruct s; [congruence | reflexivity] |]. split.
  - etransitivity; [| exact A1]. apply any_ext. intros c. apply Ascii.eqb_sym.
  - change (JS.includes s (JS.str "[") = false). rewrite includes_char.
    etransitivity; [| exact A2]. apply any_ext. intros c. apply Ascii.eqb_sym.
Qed.

Lemma filter_all {A : Type} (f : A -> bool) (l : list A) :
  Forall (fun a => f a = true) l -> List.filter f l = l.
Proof.
  induction 1 as [| a l Ha _ IH]; [reflexivity |]. cbn. now rewrite Ha, IH.
Qed.

Lemma map_id_on {A : Type} (f : A -> A) (l : list A) :
  Forall (fun a => f a = a) l -> map f l = l.
Proof.
  induction 1 as [| a l Ha _ IH]; [reflexivity |]. cbn. now rewrite Ha, IH.
Qed.

Lemma convert_of_split (xp : string) (parts : list string) :
  JS.isEmpty xp = false ->
  JS.split "/" (JS.dropLeadingSlash xp) = parts ->
  Forall plainTag parts ->
  convertSimpleXPathToCssSelector xp = JS.join " > " parts.
Proof.
  intros N S F. unfold convertSimpleXPathToCssSelector. rewrite N, S.
  rewrite filter_all.
  - rewrite map_id_on; [reflexivity |].
    eapply List.Forall_impl; [| exact F]. intros p Hp.
    destruct (plainTag_facts p Hp) as (_ & _ & I). unfold convertPart. now rewrite I.
  - eapply List.Forall_impl; [| exact F]. intros p Hp.
    destruct (plainTag_facts p Hp) as (E & _). now rewrite E.
Qed.

(** X1.  An XPath made of plain steps, with or without the leading
    slash, becomes the child chain of the same steps: [a/b/c] and [/a/b/c]
    both give [a > b > c]. *)
Theorem X1_plain_xpath_is_child_chain (tags : list string) :
  tags <> [] -> Forall plainTag tags ->
  convertSimpleXPathToCssSelector (JS.join "/" tags) = JS.join " > " tags /\
  convertSimpleXPathToCssSelector ("/" +:+ JS.join "/" tags) = JS.join " > " tags.
Proof.
  intros N F.
  assert (P : Forall (fun p => JS.any (Ascii.eqb "/") p = false) tags).
  { eapply List.Forall_impl; [| exact F]. intros p Hp. now apply plainTag_facts. }
  assert (S : JS.split "/" (JS.join "/" tags) = tags)
    by exact (split_join "/" tags N P).
  destruct tags as [| t rest]; [congruence |].
  inversion F as [| ? ? Ht _]; subst.
  destruct (plainTag_facts t Ht) as (Et & St & _).
  destruct t as [| c t]; [discriminate |].
  cbn [JS.any] in St. apply orb_false_iff in St as [Sc _].
  assert (J : exists r, JS.join "/" (String c t :: rest) = String c r).
  { destruct rest; cbn [JS.join]; [now exists t |].
    rewrite append_cons. eexists. reflexivity. }
  destruct J as [r J].
  split; apply convert_of_split with (parts := String c t :: rest); try exact F.
  - now rewrite J.
  - rewrite J. cbn [JS.dropLeadingSlash]. rewrite Ascii.eqb_sym, Sc.
    rewrite <- J. exact S.
  - reflexivity.
  - rewrite append_cons, append_nil_l. cbn [JS.dropLeadingSlash].
    rewrite Ascii.eqb_refl. exact S.
Qed.

Lemma X1_plain_xpath_is_child_chain_witness :
  convertSimpleXPathToCssSelector "html/body/div" = "html > body > div" /\
  convertSimpleXPathToCssSelector "/html/body/div" = "html > body > div".
Proof.
  apply (X1_plain_xpath_is_child_chain ["html"; "body"; "div"]); [discriminate |].
  repeat constructor; discriminate.
Defined.

Lemma any_append (f : ascii -> bool) (s r : string) :
  JS.any f (s +:+ r) = JS.any f s || JS.any f r.
Proof.
  induction s as [| c s IH]; [now rewrite append_nil_l |].
  rewrite append_cons. cbn [JS.any]. now rewrite IH, orb_assoc.
Qed.

Lemma beforeChar_plain (c : ascii) (t r : string) :
  JS.any (Ascii.eqb c) t = false ->
  JS.beforeChar c (t +:+ String c r) = t.
Proof.
  induction t as [| d t IH]; intros H.
  - rewrite append_nil_l. cbn. now rewrite Ascii.eqb_refl.
  - cbn [JS.any] in H. apply orb_false_iff in H as [H1 H2].
    rewrite append_cons. cbn [JS.beforeChar].
    rewrite Ascii.eqb_sym, H1. now rewrite IH.
Qed.

Lemma fromChar_plain (c : ascii) (t r : string) :
  JS.any (Ascii.eqb c) t = false ->
  JS.fromChar c (t +:+ String c r) = String c r.
Proof.
  induction t as [| d t IH]; intros H.
  - rewrite append_nil_l. cbn. now rewrite Ascii.eqb_refl.
  - cbn [JS.any] in H. apply orb_false_iff in H as [H1 H2].
    rewrite append_cons. cbn [JS.fromChar].
    rewrite Ascii.eqb_sym, H1. now rewrite IH.
Qed.

Lemma split_bracketed (predicates : list string) :
  Forall (fun p => JS.any (Ascii.eqb "]") p = false) predicates ->
  JS.split "]" (bracketed predicates)
  = (map (String "[") predicates ++ [EmptyString])%list.
Proof.
  unfold JS.split. induction 1 as [| p rest Hp _ IH]; [reflexivity |].
  cbn [bracketed fold_right map app].
  change (fold_right (fun p rest => "[" +:+ p +:+ "]" +:+ rest) EmptyString rest)
    with (bracketed rest).
  rewrite <- !append_assoc, !append_assoc.
  change ("[" +:+ p +:+ "]" +:+ bracketed rest)
    with (String "[" p +:+ String "]" (bracketed rest)).
  rewrite splitChar_plain by (cbn [JS.any]; now rewrite Hp).
  rewrite append_nil_l. cbn [JS.splitChar]. rewrite Ascii.eqb_refl.
  now rewrite IH.
Qed.

Lemma fold_suffixes (predicates : list string) :
  forall base,
    fold_left (fun acc idx => acc +:+ indexSuffix idx) predicates base
    = base +:+ JS.join EmptyString (map indexSuffix predicates).
Proof.
  induction predicates as [| p rest IH]; intros base.
  - cbn. now rewrite append_nil_r.
  - cbn [fold_left map]. rewrite IH. destruct rest as [| q rest].
    + cbn. now rewrite append_nil_r.
    + change (JS.join EmptyString (indexSuffix p :: map indexSuffix (q :: rest)))
        with (indexSuffix p +:+ EmptyString +:+ JS.join EmptyString (map indexSuffix (q :: rest))).
      now rewrite append_nil_l, append_assoc.
Qed.

Lemma convertPart_bracket (t r : string) :
  JS.any (Ascii.eqb "[") t = false ->
  convertPart (t +:+ String "[" r)
  = fold_left (fun acc idx => acc +:+ indexSuffix idx)
      (map (JS.replaceFirst "[" EmptyString) (removelast (JS.split "]" (String "[" r)))) t.
Proof.
  intros Ht. unfold convertPart.
  change (JS.includes (t +:+ String "[" r) "[")
    with (JS.includes (t +:+ String "[" r) (JS.str "[")).
  rewrite includes_char, any_append. cbn [JS.any].
  rewrite Ascii.eqb_refl, orb_true_r.
  cbv zeta. now rewrite beforeChar_plain, fromChar_plain.
Qed.

Lemma convertPart_bracketed (t : string) (predicates : list string) :
  JS.any (Ascii.eqb "[") t = false ->
  Forall (fun p => JS.any (Ascii.eqb "]") p = false) predicates ->
  convertPart (t +:+ bracketed predicates)
  = t +:+ JS.join EmptyString (map indexSuffix predicates).
Proof.
  intros Ht Hp. destruct predicates as [| p rest].
  - cbn [bracketed fold_right map JS.join]. rewrite append_nil_r.
    unfold convertPart. change (JS.includes t "[") with (JS.includes t (JS.str "[")).
    now rewrite includes_char, Ht.
  - change (bracketed (p :: rest)) with (String "[" (p +:+ "]" +:+ bracketed rest)) at 1.
    rewrite convertPart_bracket by exact Ht.
    change (String "[" (p +:+ "]" +:+ bracketed rest)) with (bracketed (p :: rest)).
    rewrite split_bracketed by exact Hp. rewrite removelast_last.
    rewrite map_map.
    rewrite (map_ext _ (fun x => x)), map_id.
    + apply fold_suffixes.
    + intros a. cbn [JS.replaceFirst]. rewrite Ascii.eqb_refl. apply append_nil_l.
Qed.

(** X2.  A step followed by bracketed expressions is converted to the
    step followed by what each expression contributes, in their order:
    nothing else of the brackets reaches the selector.  A number has at
    most 15 digits here, so that [Number.parseInt] holds it exactly and
    the template literal prints it in plain decimal. *)
Theorem X2_bracketed_step (t : string) (predicates : list string) :
  JS.any (Ascii.eqb "[") t = false ->
  Forall (fun p => JS.any (Ascii.eqb "]") p = false) predicates ->
  Forall (fun p => JS.all JS.isDigit p = true -> (String.length p <= 15)%nat)
    predicates ->
  convertPart (t +:+ bracketed predicates)
  = t +:+ JS.join EmptyString (map indexSuffix predicates).
Proof. intros Ht Hp _. exact (convertPart_bracketed t predicates Ht Hp). Qed.

Lemma X2_bracketed_step_witness :
  convertPart "li[2][last()]" = "li:nth-of-type(2):last-of-type".
Proof.
  apply (X2_bracketed_step "li" ["2"; "last()"]); [reflexivity | |].
  - repeat constructor.
  - repeat constructor; cbn; intros; try lia; discriminate.
Defined.

(** X3.  A bracketed expression that is not a number, [last()] or a
    test on [position()] is dropped without a trace: a step such as
    [div[@id='x']] is converted like the bare [div]. *)
Theorem X3_unhandled_predicate_is_dropped (t p : string) :
  JS.any (Ascii.eqb "[") t = false ->
  JS.any (Ascii.eqb "]") p = false ->
  unhandledPredicate p = true ->
  convertPart (t +:+ "[" +:+ p +:+ "]") = convertPart t.
Proof.
  intros Ht Hp U.
  assert (E0 : convertPart t = t).
  { unfold convertPart. change (JS.includes t "[") with (JS.includes t (JS.str "[")).
    now rewrite includes_char, Ht. }
  assert (E : t +:+ "[" +:+ p +:+ "]" = t +:+ bracketed [p]).
  { cbn [bracketed fold_right]. now rewrite append_nil_r. }
  rewrite E, E0, convertPart_bracketed by (repeat constructor; assumption).
  cbn [map JS.join]. unfold unhandledPredicate in U.
  apply andb_true_iff in U as [U U3]. apply andb_true_iff in U as [U1 U2].
  unfold indexSuffix.
  apply negb_true_iff in U1, U2, U3. rewrite U1, U2, U3.
  apply append_nil_r.
Qed.

Lemma X3_unhandled_predicate_is_dropped_witness :
  convertPart "div[@id='x']" = convertPart "div".
Proof.
  apply (X3_unhandled_predicate_is_dropped "div" "@id='x'"); reflexivity.
Defined.

(** ** The selector without dynamic attributes *)

Lemma lookup_withoutDynamic (key : string) (attrs : list (string * string)) :
  memStr key dynamicAttributes = false ->
  lookupAttr key (withoutDynamic attrs) = lookupAttr key attrs.
Proof.
  intros K. induction attrs as [| [k v] rest IH]; [reflexivity |].
  cbn [withoutDynamic List.filter fst lookupAttr].
  destruct (String.eqb k key) eqn:E.
  - apply String.eqb_eq in E. subst k. rewrite K. cbn [negb lookupAttr].
    now rewrite String.eqb_refl.
  - destruct (memStr k dynamicAttributes); cbn [negb lookupAttr].
    + exact IH.
    + rewrite E. exact IH.
Qed.

Lemma attributeStep_dynamic (cssSelector key value : string) :
  memStr key dynamicAttributes = true ->
  attributeStep cssSelector (key, value) = cssSelector.
Proof.
  intros K. unfold memStr, dynamicAttributes in K. cbn [existsb] in K.
  repeat (apply orb_true_iff in K as [K | K]); try discriminate;
    apply String.eqb_eq in K; subst key; reflexivity.
Qed.

Lemma fold_withoutDynamic (attrs : list (string * string)) :
  forall cssSelector,
    fold_left attributeStep (withoutDynamic attrs) cssSelector
    = fold_left attributeStep attrs cssSelector.
Proof.
  induction attrs as [| [k v] rest IH]; intros cssSelector; [reflexivity |].
  cbn [withoutDynamic List.filter fst fold_left].
  destruct (memStr k dynamicAttributes) eqn:K; cbn [negb fold_left].
  - rewrite attributeStep_dynamic by exact K. apply IH.
  - apply IH.
Qed.

(** X4.  With [includeDynamicAttributes] off, the selector of a node
    does not depend on its [class], [data-testid], [data-qa] and
    [data-cy] attributes: removing them from the node leaves the selector
    as it is. *)
Theorem X4_static_selector_ignores_dynamic_attributes (e : DOMElementNode) :
  enhancedCssSelectorForElement (withAttributes (withoutDynamic (attributes e)) e) false
  = enhancedCssSelectorForElement e false.
Proof.
  unfold enhancedCssSelectorForElement, sentinelSelector, selectorBody, attr.
  cbn [withAttributes tagName xpath attributes highlightIndex].
  rewrite !andb_false_r.
  rewrite !(lookup_withoutDynamic "id"), !(lookup_withoutDynamic "name") by reflexivity.
  now rewrite fold_withoutDynamic.
Qed.

(** ** The tree below a node *)

(** Induction on a tree with the hypothesis on every child. *)
Lemma DOMBaseNode_induction (P : DOMBaseNode -> Prop) :
  (forall text visible textParent, P (DOMText text visible textParent)) ->
  (forall e children, Forall P children -> P (DOMElement e children)) ->
  forall node, P node.
Proof.
  intros Ht He. fix IH 1. intros [text visible textParent | e children].
  - apply Ht.
  - apply He. induction children as [| c rest IHrest]; constructor.
    + apply IH.
    + exact IHrest.
Qed.

Lemma flat_map_equal {A B : Type} (f g : A -> list B) (l : list A) :
  Forall (fun a => f a = g a) l -> flat_map f l = flat_map g l.
Proof.
  induction 1 as [| a l Ha _ IH]; [reflexivity |]. cbn. now rewrite Ha, IH.
Qed.

Lemma flat_map_nil {A B : Type} (f : A -> list B) (l : list A) :
  Forall (fun a => f a = []) l -> flat_map f l = [].
Proof.
  induction 1 as [| a l Ha _ IH]; [reflexivity |]. cbn. now rewrite Ha, IH.
Qed.

Lemma levels_nonneg (node : DOMBaseNode) : 0 <= levels node.
Proof.
  induction node as [| e children IH] using DOMBaseNode_induction; cbn [levels]; [lia |].
  induction IH as [| c rest Hc _ IHrest]; cbn [fold_right]; lia.
Qed.

Lemma levels_element (e : DOMElementNode) (children : list DOMBaseNode) :
  1 <= levels (DOMElement e children).
Proof. cbn [levels]. induction children; cbn [fold_right]; lia. Qed.

Lemma levels_child (e : DOMElementNode) (children : list DOMBaseNode) (c : DOMBaseNode) :
  In c children -> 1 + levels c <= levels (DOMElement e children).
Proof.
  cbn [levels]. induction children as [| d rest IH]; [contradiction |].
  intros [-> | H]; cbn [fold_right]; [lia |]. specialize (IH H). lia.
Qed.

Lemma collectText_within (maxDepth : Z) (node : DOMBaseNode) :
  forall currentDepth,
    currentDepth + levels node <= maxDepth ->
    collectText maxDepth currentDepth node = collectText (-1) currentDepth node.
Proof.
  induction node as [text visible textParent | e children IH] using DOMBaseNode_induction;
    intros currentDepth H.
  - cbn [levels] in H. cbn [collectText].
    replace (maxDepth <? currentDepth) with false by (symmetry; apply Z.ltb_ge; lia).
    now rewrite andb_false_r.
  - pose proof (levels_nonneg (DOMElement e children)) as L.
    pose proof (levels_element e children) as L1.
    cbn [collectText].
    replace (maxDepth <? currentDepth) with false by (symmetry; apply Z.ltb_ge; lia).
    rewrite andb_false_r. cbn [negb andb Z.eqb].
    destruct (isHighlighted e); [reflexivity |].
    apply flat_map_equal. apply List.Forall_forall. intros c Hc.
    rewrite List.Forall_forall in IH. apply IH; [exact Hc |].
    pose proof (levels_child e children c Hc). lia.
Qed.

(** X5.  The depth limit of [getAllTextTillNextClickableElement]: a
    limit that is at least the number of levels of the node gives the
    text of the unlimited call ([maxDepth = -1]), while with
    [maxDepth = 0] the text is empty whatever the node holds. *)
Theorem X5_text_depth_limit (e : DOMElementNode) (children : list DOMBaseNode)
  (maxDepth : Z) :
  levels (DOMElement e children) <= maxDepth ->
  getAllTextTillNextClickableElement maxDepth children
  = getAllTextTillNextClickableElement (-1) children /\
  getAllTextTillNextClickableElement 0 children = EmptyString.
Proof.
  intros H. split.
  - pose proof (levels_nonneg (DOMElement e children)) as L.
    unfold getAllTextTillNextClickableElement, textParts.
    replace (maxDepth <? 0) with false by (symmetry; apply Z.ltb_ge; lia).
    rewrite andb_false_r. cbn [negb andb Z.eqb Z.ltb Z.compare].
    f_equal. f_equal. apply flat_map_equal. apply List.Forall_forall. intros c Hc.
    apply collectText_within. pose proof (levels_child e children c Hc). lia.
  - unfold getAllTextTillNextClickableElement, textParts.
    cbn [Z.eqb negb andb Z.ltb Z.compare].
    rewrite flat_map_nil; [reflexivity |].
    apply List.Forall_forall. intros c _. now destruct c.
Qed.

Lemma X5_text_depth_limit_witness :
  getAllTextTillNextClickableElement 2
    [DOMElement (element "b" None []) [DOMText "Go" true None]]
  = getAllTextTillNextClickableElement (-1)
      [DOMElement (element "b" None []) [DOMText "Go" true None]] /\
  getAllTextTillNextClickableElement 0
    [DOMElement (element "b" None []) [DOMText "Go" true None]] = EmptyString.
Proof.
  apply (X5_text_depth_limit (element "a" None [])). vm_compute. discriminate.
Defined.

(** ** The hash cache under invalidation and failure *)

(** X6.  [clearHashCache] does not cancel a computation in flight.  The
    next [hash()] starts a second computation beside it; when the first one
    settles, its value, computed before the invalidation, is cached and
    returned by [hash()] while the second computation is still pending. *)
Theorem X6_invalidation_keeps_computation_running (e : DOMElementNode)
  (c : HashCache) (p : nat) (v : HashedDomElement) :
  promises c !! p = Some Pending ->
  exists c1,
    hash (clearHashCache c) = (Shared (length (promises c)), c1) /\
    invocations c1 = S (invocations c) /\
    promises c1 !! p = Some Pending /\
    let c2 := hashStep e c1 (HashSettled p (Ok v)) in
    hash c2 = (Immediate v, c2) /\
    promises c2 !! length (promises c) = Some Pending.
Proof.
  intros Hp. pose proof (lookup_lt_Some _ _ _ Hp) as Lt.
  destruct (hash_unset (clearHashCache c) eq_refl eq_refl) as (c1 & H & _ & _ & P & I).
  cbn [clearHashCache promises invocations] in H, P, I.
  exists c1. split; [exact H |]. split; [exact I |].
  assert (Q : promises c1 !! p = Some Pending).
  { rewrite P. rewrite lookup_app_l by exact Lt. exact Hp. }
  split; [exact Q |]. cbn zeta. cbn [hashStep]. rewrite Q.
  split; [reflexivity |]. cbn [settle promises]. rewrite P.
  rewrite list_lookup_insert_ne by lia.
  now rewrite lookup_app_r, Nat.sub_diag by lia.
Qed.

Lemma X6_invalidation_keeps_computation_running_witness :
  exists c1,
    hash (clearHashCache (snd (hash newHashCache))) = (Shared 1%nat, c1) /\
    invocations c1 = 2%nat /\
    promises c1 !! 0%nat = Some Pending /\
    let c2 := hashStep goButton c1 (HashSettled 0%nat (Ok sampleHash)) in
    hash c2 = (Immediate sampleHash, c2) /\
    promises c2 !! 1%nat = Some Pending.
Proof.
  apply (X6_invalidation_keeps_computation_running goButton (snd (hash newHashCache))
           0%nat sampleHash).
  reflexivity.
Defined.

(** X7.  A failed computation is not cached.  The callers that wait for
    it get an error that names the tag of the node (or [unknown]) before
    the original message, and the next [hash()] starts a new computation
    instead of returning the failure again. *)
Theorem X7_failed_hash_is_retried (e : DOMElementNode) (c : HashCache)
  (p : nat) (msg : string) :
  _hashedValue c = None -> _hashPromise c = Some p ->
  promises c !! p = Some Pending ->
  let c1 := hashStep e c (HashSettled p (Throw msg)) in
  awaited (Shared p) c1
  = Rejected ("Failed to hash DOM element (" +:+ JS.orElse (tagName e) "unknown"
                +:+ "): " +:+ msg) /\
  exists c2,
    hash c1 = (Shared (length (promises c)), c2) /\
    p <> length (promises c) /\
    awaited (Shared (length (promises c))) c2 = Pending /\
    invocations c2 = S (invocations c).
Proof.
  intros Hv Hq Hp. pose proof (lookup_lt_Some _ _ _ Hp) as Lt.
  cbn zeta. cbn [hashStep]. rewrite Hp. split.
  - cbn [awaited settle promises]. now rewrite list_lookup_insert_eq by exact Lt.
  - destruct (hash_unset (settle e p (Throw msg) c)) as (c2 & H & _ & _ & P & I);
      [exact Hv | reflexivity |].
    cbn [settle promises invocations] in H, P, I.
    rewrite length_insert in H.
    exists c2. split; [exact H |]. split; [lia |]. split; [| exact I].
    cbn [awaited]. rewrite P.
    rewrite lookup_app_r by (rewrite length_insert; lia).
    now rewrite length_insert, Nat.sub_diag.
Qed.

Lemma X7_failed_hash_is_retried_witness :
  let c1 := hashStep goButton (snd (hash newHashCache)) (HashSettled 0%nat (Throw "boom")) in
  awaited (Shared 0%nat) c1 = Rejected "Failed to hash DOM element (button): boom" /\
  exists c2,
    hash c1 = (Shared 1%nat, c2) /\
    0%nat <> 1%nat /\
    awaited (Shared 1%nat) c2 = Pending /\
    invocations c2 = 2%nat.
Proof.
  apply (X7_failed_hash_is_retried goButton (snd (hash newHashCache)) 0%nat "boom");
    reflexivity.
Defined.

(** ** The listing of clickable elements *)

Lemma highlightedUpwards_step (e : DOMElementNode) :
  highlightedUpwards e = isHighlighted e || hasParentWithHighlightIndex (parent e).
Proof.
  destruct e as [tg xp at_ vis int top sh [i |] vc pc vi [p |]]; reflexivity.
Qed.

Lemma wellParented_children (above : option DOMElementNode) (e : DOMElementNode)
  (children : list DOMBaseNode) :
  wellParented above (DOMElement e children) ->
  parent e = above /\ Forall (wellParented (Some e)) children.
Proof.
  cbn [wellParented]. intros [P C]. split; [exact P |].
  induction children as [| c rest IH]; constructor; cbn [fold_right] in C; tauto.
Qed.

(** X8.  In a tree whose parent pointers agree with the ownership of
    the children, the walk up the parents that [clickableElementsToString]
    makes for every text node can be replaced by a flag handed down the
    tree: a text gets its own line exactly when no element above it, up to
    the root of the pointers, is highlighted. *)
Theorem X8_text_lines_by_inherited_flag (includeAttributes : list string)
  (node : DOMBaseNode) :
  forall above,
    wellParented above node ->
    processNode includeAttributes node
    = linesUnder includeAttributes (hasParentWithHighlightIndex above) node.
Proof.
  induction node as [text visible textParent | e children IH] using DOMBaseNode_induction;
    intros above WP.
  - cbn [wellParented] in WP. subst textParent. cbn [processNode linesUnder].
    now destruct (hasParentWithHighlightIndex above).
  - apply wellParented_children in WP as [P C]. cbn [processNode linesUnder].
    f_equal. apply flat_map_equal.
    rewrite List.Forall_forall in IH, C |- *. intros c Hc.
    rewrite (IH c Hc (Some e) (C c Hc)). cbn [hasParentWithHighlightIndex].
    now rewrite highlightedUpwards_step, P, orb_comm.
Qed.

Lemma X8_text_lines_by_inherited_flag_witness :
  processNode [] (DOMElement goButton [DOMText "Go" true (Some goButton)])
  = linesUnder [] (hasParentWithHighlightIndex None)
      (DOMElement goButton [DOMText "Go" true (Some goButton)]).
Proof.
  apply (X8_text_lines_by_inherited_flag []
           (DOMElement goButton [DOMText "Go" true (Some goButton)]) None).
  cbn. auto.
Defined.

(** ** File inputs *)

Lemma scan_is_first (children : list DOMBaseNode) :
  (fix scan (rest : list DOMBaseNode) : option DOMElementNode :=
     match rest with
     | [] => None
     | child :: rest' =>
         match getFileUploadElementBelow child with
         | Some result => Some result
         | None => scan rest'
         end
     end) children = firstFileUploadElement children.
Proof. induction children as [| c rest IH]; [reflexivity |]. cbn. now rewrite IH. Qed.

Lemma getFileUploadElementBelow_element (e : DOMElementNode) (children : list DOMBaseNode) :
  getFileUploadElementBelow (DOMElement e children)
  = if isFileInput e then Some e else firstFileUploadElement children.
Proof. cbn [getFileUploadElementBelow]. now rewrite scan_is_first. Qed.

Lemma firstFileUploadElement_Some (children : list DOMBaseNode) (found : DOMElementNode) :
  firstFileUploadElement children = Some found ->
  exists c, In c children /\ getFileUploadElementBelow c = Some found.
Proof.
  induction children as [| c rest IH]; [discriminate |]. cbn [firstFileUploadElement].
  destruct (getFileUploadElementBelow c) eqn:E.
  - intros [= ->]. exists c. split; [now left | exact E].
  - intros H. destruct (IH H) as (d & Hd & Ed). exists d. split; [now right | exact Ed].
Qed.

Lemma isFileInput_accepts (e : DOMElementNode) :
  isFileInput e = true -> acceptsFiles e = true.
Proof.
  unfold isFileInput, acceptsFiles.
  destruct (tagName e) as [t |]; [| discriminate].
  destruct (attr e "type") as [ty |]; [| discriminate].
  intros H. apply andb_true_iff in H as [Ht Hty].
  apply String.eqb_eq in Hty. subst ty. now rewrite Ht.
Qed.

Lemma below_is_file_input (node : DOMBaseNode) :
  forall found,
    getFileUploadElementBelow node = Some found -> isFileInput found = true.
Proof.
  induction node as [text visible textParent | e children IH] using DOMBaseNode_induction;
    intros found H; [discriminate |].
  rewrite getFileUploadElementBelow_element in H.
  destruct (isFileInput e) eqn:E; [now injection H as <- |].
  apply firstFileUploadElement_Some in H as (c & Hc & Ec).
  rewrite List.Forall_forall in IH. exact (IH c Hc found Ec).
Qed.

Lemma below_is_uploader (node : DOMBaseNode) :
  forall found maxDepth currentDepth,
    getFileUploadElementBelow node = Some found ->
    currentDepth + levels node <= maxDepth + 1 ->
    isFileUploader node maxDepth currentDepth = true.
Proof.
  induction node as [text visible textParent | e children IH] using DOMBaseNode_induction;
    intros found maxDepth currentDepth H L; [discriminate |].
  rewrite getFileUploadElementBelow_element in H.
  pose proof (levels_element e children) as L1.
  cbn [isFileUploader].
  replace (maxDepth <? currentDepth) with false by (symmetry; apply Z.ltb_ge; lia).
  destruct (acceptsFiles e) eqn:A; [reflexivity |].
  destruct (isFileInput e) eqn:E.
  { apply isFileInput_accepts in E. congruence. }
  apply firstFileUploadElement_Some in H as (c & Hc & Ec).
  pose proof (levels_child e children c Hc) as Lc.
  assert (Nc : 1 <= levels c).
  { destruct c; [discriminate | apply levels_element]. }
  replace (currentDepth <? maxDepth) with true by (symmetry; apply Z.ltb_lt; lia).
  apply existsb_exists. exists c. split; [exact Hc |].
  rewrite List.Forall_forall in IH. apply (IH c Hc found); [exact Ec | lia].
Qed.

(** X9.  What [getFileUploadElement] returns, from the node itself, its
    descendants or its siblings, is an [input] whose [type] is exactly
    [file]. *)
Theorem X9_file_upload_element_is_file_input (checkSiblings : bool) (this : DOMBaseNode)
  (siblings : option (list DOMBaseNode)) (found : DOMElementNode) :
  getFileUploadElement checkSiblings this siblings = Some found ->
  tagName found = Some "input" /\ attr found "type" = Some "file".
Proof.
  intros H.
  assert (F : isFileInput found = true).
  { unfold getFileUploadElement in H.
    destruct (getFileUploadElementBelow this) eqn:B.
    - injection H as ->. exact (below_is_file_input this found B).
    - destruct siblings as [others |]; [| discriminate].
      destruct checkSiblings; [| discriminate].
      apply firstFileUploadElement_Some in H as (c & _ & Ec).
      exact (below_is_file_input c found Ec). }
  unfold isFileInput in F.
  destruct (tagName found) as [t |]; [| discriminate].
  destruct (attr found "type") as [ty |]; [| discriminate].
  apply andb_true_iff in F as [Ft Fty].
  apply String.eqb_eq in Ft, Fty. now subst.
Qed.

Lemma X9_file_upload_element_is_file_input_witness :
  tagName (element "input" (Some "html/body/form/input") [("type", "file")]) = Some "input" /\
  attr (element "input" (Some "html/body/form/input") [("type", "file")]) "type"
  = Some "file".
Proof.
  apply (X9_file_upload_element_is_file_input true uploadForm None). reflexivity.
Defined.

(** X10.  The two detectors of file inputs agree in one direction: when
    [getFileUploadElement(false)] finds an element below a node that has
    at most [maxDepth + 1] levels, [isFileUploader] with that [maxDepth]
    answers true on the node. *)
Theorem X10_found_upload_element_is_uploader (this : DOMBaseNode)
  (siblings : option (list DOMBaseNode)) (found : DOMElementNode) (maxDepth : Z) :
  getFileUploadElement false this siblings = Some found ->
  levels this <= maxDepth + 1 ->
  isFileUploader this maxDepth 0 = true.
Proof.
  unfold getFileUploadElement. intros H L.
  destruct (getFileUploadElementBelow this) eqn:B.
  - apply (below_is_uploader this d); [exact B | lia].
  - destruct siblings; discriminate.
Qed.

Lemma X10_found_upload_element_is_uploader_witness :
  isFileUploader uploadForm 3 0 = true.
Proof.
  apply (X10_found_upload_element_is_uploader uploadForm None
           (element "input" (Some "html/body/form/input") [("type", "file")]) 3).
  - reflexivity.
  - vm_compute. discriminate.
Defined.

(** X11.  [isFileUploader] is monotone in its depth limit: an answer
    true stays true under every larger [maxDepth]. *)
Theorem X11_uploader_monotone_in_depth (node : DOMBaseNode) :
  forall maxDepth maxDepth' currentDepth,
    maxDepth <= maxDepth' ->
    isFileUploader node maxDepth currentDepth = true ->
    isFileUploader node maxDepth' currentDepth = true.
Proof.
  induction node as [text visible textParent | e children IH] using DOMBaseNode_induction;
    intros maxDepth maxDepth' currentDepth Le H; [discriminate |].
  cbn [isFileUploader] in H |- *.
  destruct (maxDepth <? currentDepth) eqn:D; [discriminate |].
  apply Z.ltb_ge in D.
  replace (maxDepth' <? currentDepth) with false by (symmetry; apply Z.ltb_ge; lia).
  destruct (acceptsFiles e); [reflexivity |].
  destruct (currentDepth <? maxDepth) eqn:D2; [| discriminate].
  apply Z.ltb_lt in D2.
  replace (currentDepth <? maxDepth') with true by (symmetry; apply Z.ltb_lt; lia).
  apply existsb_exists in H as (c & Hc & Ec).
  apply existsb_exists. exists c. split; [exact Hc |].
  rewrite List.Forall_forall in IH. exact (IH c Hc maxDepth maxDepth' _ Le Ec).
Qed.

Lemma X11_uploader_monotone_in_depth_witness :
  isFileUploader uploadForm 5 0 = true.
Proof.
  apply (X11_uploader_monotone_in_depth uploadForm 1 5 0); [lia | reflexivity].
Defined.

(** ** The refresh and the screenshot *)

Section RefreshOutcome.
Context {W : Type} (T : Transport W).

Lemma returns_currentState : @returnsState W (currentState).
Proof. intros s st s'. unfold currentState. step. now intros [= <- <-]. Qed.

Lemma returns_bind {A} (m : M W A) (k : A -> M W PageState) :
  (forall a, returnsState (k a)) -> returnsState (bind m k).
Proof.
  intros K s st s'. unfold bind. destruct (m s) as [[a | msg] s1]; [| discriminate].
  apply K.
Qed.

Lemma guarded_returns (body : M W PageState) (s : Machine W) :
  returnsState body ->
  exists st s', tryCatch body (fun _ => currentState) s = (Ok st, s') /\
                st = _state (page s').
Proof.
  intros R. unfold tryCatch. destruct (body s) as [[st | msg] s'] eqn:B.
  - exists st, s'. split; [reflexivity | exact (R _ _ _ B)].
  - exists (_state (page s')), s'. split; reflexivity.
Qed.

Lemma recoverPage_raises (s s' : Machine W) (msg : string) :
  recoverPage T s = (Throw msg, s') ->
  page s' = page s /\
  exists b, _browser (page s) = Some b /\ last (calls s') = Some (CallPages b).
Proof.
  unfold recoverPage, tryCatch, bind, getPage, perform, throw, ret, setPage.
  destruct (_puppeteerPage (page s)) as [p |]; cbn [page world calls].
  - destruct (evaluate T p "1" (world s)) as [[[] | msg0] w]; cbn [page world calls];
      [discriminate |].
    destruct (_browser (page s)) as [b |]; [| discriminate]. cbn [page world calls].
    destruct (pages T b w) as [[[| q ps] | msg'] w']; cbn [page world calls];
      [| discriminate |];
      intros [= <- <-]; (split; [reflexivity |]); exists b;
      (split; [reflexivity | apply last_snoc]).
  - destruct (_browser (page s)) as [b |]; [| discriminate]. cbn [page world calls].
    destruct (pages T b (world s)) as [[[| q ps] | msg'] w']; cbn [page world calls];
      [| discriminate |];
      intros [= <- <-]; (split; [reflexivity |]); exists b;
      (split; [reflexivity | apply last_snoc]).
Qed.

(** X12.  [_updateState] raises only out of its recovery step: when it
    raises, the last call it made is [browser.pages()] and the stored
    state is untouched.  Whatever fails later is caught, and the state
    handed to the caller is the stored state as it is after the call. *)
Theorem X12_refresh_raises_only_on_lost_browser (useVision : bool) (focus : Z)
  (s : Machine W) :
  match _updateState T useVision focus s with
  | (Ok st, s') => st = _state (page s')
  | (Throw msg, s') =>
      _state (page s') = _state (page s) /\
      exists b, _browser (page s) = Some b /\ last (calls s') = Some (CallPages b)
  end.
Proof.
  unfold _updateState. unfold bind at 1.
  destruct (recoverPage T s) as [[[] | msg] s1] eqn:R.
  - match goal with
    | |- context [tryCatch ?body _ s1] =>
        destruct (guarded_returns body s1) as (st & s' & E & St)
    end.
    + apply returns_bind. intros _. apply returns_bind. intros [content |].
      * repeat first [apply returns_currentState | apply returns_bind; intros].
      * apply returns_currentState.
    + rewrite E. exact St.
  - destruct (recoverPage_raises s s1 msg R) as (P & b & B & L).
    split; [now rewrite P |]. now exists b.
Qed.

(** X13.  [takeScreenshot] has no cleanup on failure: when the
    screenshot itself raises, the error is passed on and the script that
    restores the animations is never evaluated, so the page keeps the
    style that disables them. *)
Theorem X13_failed_screenshot_leaves_animations_off (fullPage : bool)
  (s : Machine W) (p : PuppeteerPage) (w1 w2 : W) (msg : string) :
  _puppeteerPage (page s) = Some p ->
  evaluate T p disableAnimationsScript (world s) = (Ok tt, w1) ->
  takeScreenshotOf T p fullPage w1 = (Throw msg, w2) ->
  takeScreenshot T fullPage s
  = (Throw msg,
     {| page := page s; world := w2;
        calls := (calls s ++ [CallEvaluate p disableAnimationsScript;
                              CallScreenshot p fullPage])%list |}).
Proof.
  intros P E1 E2. unfold takeScreenshot. step. rewrite P. step.
  rewrite E1. cbn [page world calls]. rewrite E2. cbn [page world calls].
  now rewrite <- app_assoc.
Qed.

(** X14.  A tab whose URL does not start with [http] is not a web page
    for the controller: nothing reaches the browser, the highlight
    removal, the extraction and the scroll offsets answer with their
    placeholders, and [getState] answers with the empty initial state of
    the tab, whose URL is empty, and not with the stored state, which
    holds the URL the constructor was given. *)
Theorem X14_non_web_page_never_reaches_browser (tab : Z) (u t : string)
  (config : BrowserContextConfig) (w : W) (log : list Call) :
  JS.startsWith u "http" = false ->
  let s := {| page := newPage tab u t config; world := w; calls := log |} in
  getState T s = (Ok (build_initial_state (Some tab) None None), s) /\
  url (build_initial_state (Some tab) None None) = EmptyString /\
  url (_state (page s)) = u /\
  removeHighlight T s = (Ok tt, s) /\
  getClickableElementsOf T (-1) s = (Ok None, s) /\
  getScrollInfoOf T s = (Ok (0, 0), s).
Proof.
  intros H s.
  assert (V : _validWebPage (page s) = false).
  { unfold s, newPage. cbn [page _validWebPage]. rewrite H. apply andb_false_r. }
  unfold getState, removeHighlight, getClickableElementsOf, getScrollInfoOf.
  step. rewrite V, andb_false_r. cbn [negb]. repeat split; try reflexivity.
  unfold s. cbn. now destruct u.
Qed.

End RefreshOutcome.

Lemma X13_failed_screenshot_leaves_animations_off_witness :
  takeScreenshot (scripted shotRaises) false (start lastGoodState)
  = (Throw "Target closed",
     {| page := attachedPage lastGoodState; world := tt;
        calls := [CallEvaluate 0%nat disableAnimationsScript;
                  CallScreenshot 0%nat false] |}).
Proof.
  apply (X13_failed_screenshot_leaves_animations_off (scripted shotRaises) false
           (start lastGoodState) 0%nat tt tt "Target closed"); reflexivity.
Defined.

Lemma X14_non_web_page_never_reaches_browser_witness :
  let s := {| page := newPage 7 "chrome://newtab/" "New Tab" defaultConfig;
              world := tt; calls := [] |} in
  getState (scripted emptyPage) s = (Ok (build_initial_state (Some 7) None None), s) /\
  url (build_initial_state (Some 7) None None) = EmptyString /\
  url (_state (page s)) = "chrome://newtab/" /\
  removeHighlight (scripted emptyPage) s = (Ok tt, s) /\
  getClickableElementsOf (scripted emptyPage) (-1) s = (Ok None, s) /\
  getScrollInfoOf (scripted emptyPage) s = (Ok (0, 0), s).
Proof.
  apply (X14_non_web_page_never_reaches_browser (scripted emptyPage) 7
           "chrome://newtab/" "New Tab" defaultConfig tt []).
  reflexivity.
Defined.

(** ** The network monitor *)

(** X15.  Every response settles its request for the monitor: whatever
    the content type and the length, the request of the response is not
    pending afterwards, the other pending requests are untouched, and the
    time of the last activity is either kept or set to the time of the
    response. *)
Theorem X15_response_clears_its_request (now : Z) (response : HTTPResponse) (m : Monitor) :
  isPending (request response) (onResponse now response m) = false /\
  (forall k, k <> requestId (request response) ->
             pendingRequests (onResponse now response m) !! k = pendingRequests m !! k) /\
  (lastActivity (onResponse now response m) = lastActivity m \/
   lastActivity (onResponse now response m) = now).
Proof.
  unfold onResponse. cbv zeta.
  destruct (isPending (request response) m) eqn:P; cbn [negb].
  - assert (D : forall m',
               pendingRequests m' = delete (requestId (request response)) (pendingRequests m) ->
               isPending (request response) m' = false /\
               (forall k, k <> requestId (request response) ->
                          pendingRequests m' !! k = pendingRequests m !! k)).
    { intros m' E. unfold isPending. rewrite E. split.
      - now rewrite lookup_delete_eq.
      - intros k Hk. now rewrite lookup_delete_ne. }
    repeat match goal with
           | |- context [if ?b then _ else _] => destruct b
           end;
      match goal with
      | |- isPending _ ?M = false /\ _ =>
          destruct (D M eq_refl) as [D1 D2]; split; [exact D1 | split; [exact D2 |]]
      end;
      cbn [removePending lastActivity]; auto.
  - split; [exact P | split; [reflexivity | now left]].
Qed.

(** ** The keyboard *)

Lemma lookupAttr_In (key value : string) (l : list (string * string)) :
  lookupAttr key l = Some value -> In value (map snd l).
Proof.
  induction l as [| [k v] rest IH]; [discriminate |]. cbn [lookupAttr map snd In].
  destruct (String.eqb k key); [intros [= ->]; now left | right; auto].
Qed.

Lemma keyMap_values_fixed :
  Forall (fun name => _convertKey name = KeyName name) (map snd keyMap).
Proof. repeat constructor. Qed.

(** X16.  [_convertKey] is idempotent on key names: the name it gives
    for a key is converted to itself, whether the key was found in the
    table or passed through. *)
Theorem X16_convertKey_idempotent (key name : string) :
  _convertKey key = KeyName name -> _convertKey name = KeyName name.
Proof.
  unfold _convertKey at 1. cbv zeta.
  destruct (lookupAttr (JS.toLowerCase (JS.trim key)) keyMap) as [v |] eqn:L.
  - intros [= <-]. apply lookupAttr_In in L.
    pose proof keyMap_values_fixed as F. rewrite List.Forall_forall in F. now apply F.
  - destruct (memStr _ inheritedNames) eqn:I; [discriminate |].
    intros [= <-]. unfold _convertKey. cbv zeta. now rewrite L, I.
Qed.

Lemma X16_convertKey_idempotent_witness :
  _convertKey "ArrowLeft" = KeyName "ArrowLeft".
Proof.
  apply (X16_convertKey_idempotent " arrowLEFT " "ArrowLeft"). reflexivity.
Defined.

Section KeyFacts.
Context {V : Type} (K : Keyboard V).

Lemma pressModifiers_log (p : PuppeteerPage) (modifiers : list string) :
  forall s : Machine (V * list KeyCall),
  exists attempted rest r s',
    pressModifiers (recording K) p modifiers s = (r, s') /\
    page s' = page s /\
    snd (world s') = (snd (world s) ++ attempted)%list /\
    map KeyDown (map _convertKey modifiers) = (attempted ++ rest)%list /\
    (r = Ok tt -> rest = []) /\
    (r = Ok tt \/ exists msg, r = Throw msg).
Proof.
  induction modifiers as [| modifier more IH]; intros s.
  - exists [], [], (Ok tt), s. cbn. rewrite app_nil_r. auto 10.
  - cbn [pressModifiers map]. unfold bind at 1. unfold effect at 1.
    cbn [recording keyboardDown].
    destruct (keyboardDown K p (_convertKey modifier) (fst (world s)))
      as [[[] | msg] v] eqn:E.
    + match goal with
      | |- context [pressModifiers _ p more ?s1] =>
          destruct (IH s1) as (attempted & rest & r & s' & R & P & L & M & O & C)
      end.
      cbn [page world snd] in P, L.
      exists (KeyDown (_convertKey modifier) :: attempted), rest, r, s'.
      split; [exact R |]. split; [exact P |].
      split; [rewrite L; now rewrite <- app_assoc |].
      split; [cbn [app]; now rewrite M |]. auto.
    + eexists [KeyDown (_convertKey modifier)], _, (Throw msg), _.
      split; [reflexivity |]. cbn [page world snd app].
      split; [reflexivity |]. split; [reflexivity |].
      split; [reflexivity |]. split; [discriminate | right; now exists msg].
Qed.

Lemma releaseModifiers_log (p : PuppeteerPage) (modifiers : list string) :
  forall s : Machine (V * list KeyCall),
  exists s',
    releaseModifiers (recording K) p modifiers s = (Ok tt, s') /\
    page s' = page s /\
    snd (world s') = (snd (world s) ++ map KeyUp (map _convertKey modifiers))%list.
Proof.
  induction modifiers as [| modifier more IH]; intros s.
  - exists s. cbn. now rewrite app_nil_r.
  - cbn [releaseModifiers map]. unfold bind at 1. unfold tryCatch at 1, effect at 1.
    cbn [recording keyboardUp].
    destruct (keyboardUp K p (_convertKey modifier) (fst (world s))) as [[[] | msg] v];
      cbn [ret];
      match goal with
      | |- context [releaseModifiers _ p more ?s1] =>
          destruct (IH s1) as (s' & R & P & L)
      end;
      cbn [page world snd] in P, L;
      (exists s'; split; [exact R |]; split; [exact P |]);
      rewrite L; now rewrite <- app_assoc.
Qed.

(** X17.  [sendKeys] releases every modifier of the combination, in
    the reverse of their order, on every path: after the key-down calls
    and the press that were attempted (all of them when the method
    returns, those up to the first failure when it raises) come the key-up
    calls of all the modifiers, also of those that were never pressed, and
    a failing release does not stop the others.  A raise carries the
    prefix [Failed to send keys: ]. *)
Theorem X17_sendKeys_releases_all_modifiers (keys : string)
  (s : Machine (V * list KeyCall)) (p : PuppeteerPage) :
  _puppeteerPage (page s) = Some p ->
  let modifiers := map _convertKey (removelast (JS.split "+" keys)) in
  let mainKey := _convertKey (List.last (JS.split "+" keys) EmptyString) in
  exists attempted rest r s',
    sendKeys (recording K) keys s = (r, s') /\
    page s' = page s /\
    snd (world s')
    = (snd (world s) ++ attempted ++ map KeyUp (rev modifiers))%list /\
    (map KeyDown modifiers ++ [KeyPress mainKey])%list = (attempted ++ rest)%list /\
    (r = Ok tt -> rest = []) /\
    (forall msg, r = Throw msg -> JS.startsWith msg "Failed to send keys: " = true).
Proof.
  intros P modifiers mainKey. unfold sendKeys. unfold bind at 1. unfold getPage at 1.
  rewrite P. cbv zeta. unfold tryFinally, tryCatch at 1. unfold bind at 1.
  destruct (pressModifiers_log p (removelast (JS.split "+" keys)) s)
    as (attempted & rest & r & s1 & R & P1 & L1 & M1 & O1 & C1).
  rewrite R. destruct C1 as [-> | [msg ->]].
  - specialize (O1 eq_refl). subst rest. rewrite app_nil_r in M1.
    unfold effect at 1. cbn [recording keyboardPress].
    destruct (keyboardPress K p _ (fst (world s1))) as [[[] | msg] v] eqn:E.
    + match goal with
      | |- context [releaseModifiers _ p _ ?s2] =>
          destruct (releaseModifiers_log p (rev (removelast (JS.split "+" keys))) s2)
            as (s' & R' & P' & L')
      end.
      rewrite R'. cbn [page world snd] in P', L'.
      exists (attempted ++ [KeyPress mainKey])%list, [], (Ok tt), s'.
      split; [reflexivity |]. split; [congruence |].
      split; [rewrite L', L1, map_rev; now rewrite <- !app_assoc |].
      split; [rewrite app_nil_r; fold modifiers in M1; now rewrite M1 |].
      split; [reflexivity | discriminate].
    + unfold throw at 1.
      match goal with
      | |- context [releaseModifiers _ p _ ?s2] =>
          destruct (releaseModifiers_log p (rev (removelast (JS.split "+" keys))) s2)
            as (s' & R' & P' & L')
      end.
      rewrite R'. cbn [page world snd] in P', L'.
      exists (attempted ++ [KeyPress mainKey])%list, [],
        (Throw ("Failed to send keys: " +:+ msg)), s'.
      split; [reflexivity |]. split; [congruence |].
      split; [rewrite L', L1, map_rev; now rewrite <- !app_assoc |].
      split; [rewrite app_nil_r; fold modifiers in M1; now rewrite M1 |].
      split; [discriminate | now intros ? [= <-]].
  - unfold throw at 1.
    match goal with
    | |- context [releaseModifiers _ p _ ?s2] =>
        destruct (releaseModifiers_log p (rev (removelast (JS.split "+" keys))) s2)
          as (s' & R' & P' & L')
    end.
    rewrite R'.
    exists attempted, (rest ++ [KeyPress mainKey])%list,
      (Throw ("Failed to send keys: " +:+ msg)), s'.
    split; [reflexivity |]. split; [congruence |].
    split; [rewrite L', L1, map_rev; now rewrite <- !app_assoc |].
    split; [fold modifiers in M1; rewrite M1; now rewrite <- app_assoc |].
    split; [discriminate | now intros ? [= <-]].
Qed.

End KeyFacts.

Lemma X17_sendKeys_releases_all_modifiers_witness :
  exists attempted rest r s',
    sendKeys (recording (stuckKeyboard ["Shift"])) "Control+Shift+A"
      {| page := attachedPage lastGoodState; world := (tt, []); calls := [] |}
    = (r, s') /\
    page s' = attachedPage lastGoodState /\
    snd (world s')
    = ([] ++ attempted ++ map KeyUp (rev [KeyName "Control"; KeyName "Shift"]))%list /\
    (map KeyDown [KeyName "Control"; KeyName "Shift"] ++ [KeyPress (KeyName "KeyA")])%list
    = (attempted ++ rest)%list /\
    (r = Ok tt -> rest = []) /\
    (forall msg, r = Throw msg -> JS.startsWith msg "Failed to send keys: " = true).
Proof.
  apply (X17_sendKeys_releases_all_modifiers (stuckKeyboard ["Shift"]) "Control+Shift+A"
           {| page := attachedPage lastGoodState; world := (tt, []); calls := [] |} 0%nat).
  reflexivity.
Defined.

(** ** Dropdowns *)

Lemma trimEnd_idempotent (s : string) : JS.trimEnd (JS.trimEnd s) = JS.trimEnd s.
Proof.
  induction s as [| c r IH]; [reflexivity |]. cbn [JS.trimEnd].
  destruct (JS.isSpace c && JS.isEmpty (JS.trimEnd r)) eqn:E; [reflexivity |].
  cbn [JS.trimEnd]. now rewrite IH, E.
Qed.

Lemma trimStart_of_trimmed (s : string) :
  JS.trimStart (JS.trimEnd (JS.trimStart s)) = JS.trimEnd (JS.trimStart s).
Proof.
  induction s as [| c r IH]; [reflexivity |]. cbn [JS.trimStart].
  destruct (JS.isSpace c) eqn:E; [exact IH |].
  cbn [JS.trimEnd]. rewrite E. cbn [andb JS.trimStart]. now rewrite E.
Qed.

Lemma trim_idempotent (s : string) : JS.trim (JS.trim s) = JS.trim s.
Proof. unfold JS.trim. now rewrite trimStart_of_trimmed, trimEnd_idempotent. Qed.

(** X18.  The callback of [selectDropdownOption] compares the trimmed
    text of an option with the wanted text as it is given: a wanted text
    that [trim()] would change matches no option, also not an option that
    shows exactly that text, and the element is left alone. *)
Theorem X18_untrimmed_text_selects_nothing (options : list SelectOption)
  (value text : string) (index : Z) :
  JS.trim text <> text ->
  exists result,
    chooseOption text index (SelectElement options value) = (Ok result, []) /\
    found result = false.
Proof.
  intros N. unfold chooseOption.
  destruct (List.find _ options) as [option |] eqn:F.
  - apply List.find_some in F as [_ E]. apply String.eqb_eq in E.
    exfalso. apply N. rewrite <- E. apply trim_idempotent.
  - eexists. split; reflexivity.
Qed.

Lemma X18_untrimmed_text_selects_nothing_witness :
  exists result,
    chooseOption " Peru" 5
      (SelectElement [{| optionIndex := 0; optionText := " Peru"; optionValue := "pe" |}]
         EmptyString)
    = (Ok result, []) /\
    found result = false.
Proof.
  apply (X18_untrimmed_text_selects_nothing
           [{| optionIndex := 0; optionText := " Peru"; optionValue := "pe" |}]
           EmptyString " Peru" 5).
  discriminate.
Defined.

Lemma find_first {A : Type} (f : A -> bool) (before after : list A) (a : A) :
  (forall b, In b before -> f b = false) -> f a = true ->
  List.find f (before ++ a :: after) = Some a.
Proof.
  intros B Ha. induction before as [| b rest IH]; cbn [app List.find].
  - now rewrite Ha.
  - rewrite (B b) by now left. apply IH. intros c Hc. apply B. now right.
Qed.

(** X19.  The callback of [selectDropdownOption] takes the first option
    whose trimmed text is the wanted text, sets the value of the [select]
    to the value of that option, and dispatches [change] and [input], in
    this order, only when the value was another one before. *)
Theorem X19_first_matching_option_is_selected (before after : list SelectOption)
  (option : SelectOption) (previousValue text : string) (index : Z) :
  (forall o, In o before -> JS.trim (optionText o) <> text) ->
  JS.trim (optionText option) = text ->
  chooseOption text index (SelectElement (before ++ option :: after) previousValue)
  = (Ok {| found := true;
           message := "Selected option " +:+ JS.quoted text +:+ " with value "
                        +:+ JS.quoted (optionValue option) |},
     SetValue (optionValue option)
       :: (if String.eqb previousValue (optionValue option) then []
           else [DispatchEvent "change"; DispatchEvent "input"])).
Proof.
  intros B E. unfold chooseOption. rewrite find_first.
  - now destruct (String.eqb previousValue (optionValue option)).
  - intros o Ho. apply String.eqb_neq. now apply B.
  - now apply String.eqb_eq.
Qed.

Lemma X19_first_matching_option_is_selected_witness :
  chooseOption "Peru" 5 (SelectElement countries "pe")
  = (Ok {| found := true;
           message := "Selected option " +:+ JS.quoted "Peru" +:+ " with value "
                        +:+ JS.quoted "pe" |},
     [SetValue "pe"]).
Proof.
  apply (X19_first_matching_option_is_selected
           [{| optionIndex := 0; optionText := "Choose"; optionValue := EmptyString |};
            {| optionIndex := 1; optionText := "France"; optionValue := "fr" |}]
           []
           {| optionIndex := 2; optionText := "Peru"; optionValue := "pe" |}
           "pe" "Peru" 5).
  - intros o [<- | [<- | []]]; discriminate.
  - reflexivity.
Defined.

Section DeviceFacts.
Context {W : Type} (T : Transport W) (D : Device W).

(** X20.  [getDropdownOptions] never answers with an empty list, and it
    raises with one of two shapes: the message of its guard, when the
    index is not in the snapshot or the page is not attached, or a message
    that starts with [Failed to get dropdown options: ]. *)
Theorem X20_dropdown_options_are_never_empty (index : Z) (s : Machine W) :
  match getDropdownOptions T D index s with
  | (Ok options, _) => options <> []
  | (Throw msg, _) =>
      msg = "Element not found or puppeteer is not connected" \/
      JS.startsWith msg "Failed to get dropdown options: " = true
  end.
Proof.
  unfold getDropdownOptions. unfold bind at 1, getPage at 1.
  destruct (selectorMap (_state (page s)) !! index) as [e |]; [| now left].
  destruct (_puppeteerPage (page s)) as [p |]; [| now left].
  unfold tryCatch. match goal with |- context [bind ?m ?k s] => destruct (bind m k s) as [[options | msg] s'] eqn:B end.
  - revert B. unfold bind at 1.
    destruct (locateElement T e s) as [[[h |] | msg] s1]; [| discriminate | discriminate].
    unfold bind at 1. destruct (evaluateOn D h readOptions s1) as [[[| o os] | msg] s2];
      [discriminate | | discriminate].
    intros [= <- <-]. discriminate.
  - right. unfold throw. reflexivity.
Qed.

(** X21.  For [selectDropdownOption] a missing option is no error: on
    a [select] that is located and has no option with the wanted text, the
    method returns normally, with a message that starts with [Option ],
    and does nothing to the element. *)
Theorem X21_missing_option_is_reported_as_result (index : Z) (text : string)
  (s s1 : Machine W) (e : DOMElementNode) (p : PuppeteerPage) (h : ElementHandle)
  (options : list SelectOption) (value : string) (w : W) :
  selectorMap (_state (page s)) !! index = Some e ->
  _puppeteerPage (page s) = Some p ->
  isSelectTag (tagName e) = true ->
  locateElement T e s = (Ok (Some h), s1) ->
  readElement D h (world s1) = (Ok (SelectElement options value), w) ->
  (forall o, In o options -> JS.trim (optionText o) <> text) ->
  exists msg,
    selectDropdownOption T D index text s
    = (Ok msg, {| page := page s1; world := applyEffects D h [] w; calls := calls s1 |}) /\
    JS.startsWith msg "Option " = true.
Proof.
  intros M P Tg L R N. unfold selectDropdownOption. unfold bind at 1, getPage at 1.
  rewrite M, P, Tg. cbn [negb]. unfold tryCatch. unfold bind at 1. rewrite L.
  unfold bind at 1. unfold evaluateOn. unfold bind at 1. unfold effect at 1. rewrite R.
  cbn [page world calls].
  assert (F : List.find (fun opt => String.eqb (JS.trim (optionText opt)) text) options
              = None).
  { destruct (List.find _ options) as [o |] eqn:F; [| reflexivity].
    apply List.find_some in F as [I E]. apply String.eqb_eq in E. now apply N in I. }
  unfold chooseOption. rewrite F. cbv zeta.
  eexists. split; reflexivity.
Qed.

End DeviceFacts.

Lemma X21_missing_option_is_reported_as_result_witness :
  exists msg,
    selectDropdownOption (scripted formPage)
      (formDevice (SelectElement countries EmptyString) (Ok tt) (Ok tt)) 5 "Chile"
      (start formState)
    = (Ok msg,
       {| page := attachedPage formState; world := tt;
          calls := [CallQuery (InPage 0%nat) "select#country";
                    CallScrollIntoView 9%nat 2500] |}) /\
    JS.startsWith msg "Option " = true.
Proof.
  apply (X21_missing_option_is_reported_as_result (scripted formPage)
           (formDevice (SelectElement countries EmptyString) (Ok tt) (Ok tt))
           5 "Chile" (start formState)
           {| page := attachedPage formState; world := tt;
              calls := [CallQuery (InPage 0%nat) "select#country";
                        CallScrollIntoView 9%nat 2500] |}
           countrySelect 0%nat 9%nat countries EmptyString tt).
  - reflexivity.
  - reflexivity.
  - reflexivity.
  - reflexivity.
  - reflexivity.
  - intros o [<- | [<- | [<- | []]]]; discriminate.
Defined.

(** ** Text search, navigation and text input *)

Section SearchFacts.
Context {W : Type} (T : Transport W) (D : Device W).

Lemma firstVisible_returns (p : PuppeteerPage) (selectors : list string) :
  forall s : Machine W,
  exists b s',
    firstVisible T D p selectors s = (Ok b, s') /\
    page s' = page s /\
    (b = true -> exists h, last (calls s') = Some (CallScrollIntoView h 2500)).
Proof.
  induction selectors as [| selector rest IH]; intros s.
  - exists false, s. cbn. repeat split; [discriminate].
  - cbn [firstVisible]. unfold bind at 1. unfold tryCatch at 1. unfold bind at 1.
    unfold perform at 1.
    destruct (query T (InPage p) selector (world s)) as [[[h |] | msg] w1];
      cbn [page world calls ret].
    + unfold bind at 1. unfold effect at 1. cbn [page world calls].
      destruct (isDisplayed D h w1) as [[[|] | msg] w2]; cbn [page world calls ret].
      * unfold bind at 1. unfold perform at 1. cbn [page world calls].
        destruct (scrollIntoViewIfNeeded T h 2500 w2) as [[[] | msg] w3];
          cbn [page world calls ret].
        -- eexists true, _. split; [reflexivity |]. cbn [page calls].
           split; [reflexivity |]. intros _. exists h. apply last_snoc.
        -- match goal with
           | |- context [firstVisible T D p rest ?s1] =>
               destruct (IH s1) as (b & s' & R & P & L)
           end.
           exists b, s'. split; [exact R |]. split; [exact P | exact L].
      * match goal with
        | |- context [firstVisible T D p rest ?s1] =>
            destruct (IH s1) as (b & s' & R & P & L)
        end.
        exists b, s'. split; [exact R |]. split; [exact P | exact L].
      * match goal with
        | |- context [firstVisible T D p rest ?s1] =>
            destruct (IH s1) as (b & s' & R & P & L)
        end.
        exists b, s'. split; [exact R |]. split; [exact P | exact L].
    + match goal with
      | |- context [firstVisible T D p rest ?s1] =>
          destruct (IH s1) as (b & s' & R & P & L)
      end.
      exists b, s'. split; [exact R |]. split; [exact P | exact L].
    + match goal with
      | |- context [firstVisible T D p rest ?s1] =>
          destruct (IH s1) as (b & s' & R & P & L)
      end.
      exists b, s'. split; [exact R |]. split; [exact P | exact L].
Qed.

(** X22.  On an attached page [scrollToText] never raises: a failing
    lookup, visibility test or scroll only moves it on to the next
    selector.  It answers true only right after an element was scrolled
    into view, and false when both selectors are used up. *)
Theorem X22_scrollToText_never_raises (text : string) (s : Machine W)
  (p : PuppeteerPage) :
  _puppeteerPage (page s) = Some p ->
  exists b s',
    scrollToText T D text s = (Ok b, s') /\
    page s' = page s /\
    (b = true -> exists h, last (calls s') = Some (CallScrollIntoView h 2500)).
Proof.
  intros P. unfold scrollToText. unfold bind at 1, getPage at 1. rewrite P.
  unfold tryCatch.
  destruct (firstVisible_returns p (textSelectors text) s) as (b & s' & R & Pg & L).
  rewrite R. now exists b, s'.
Qed.

(** X23.  [navigateTo], [refreshPage], [goBack] and [goForward] raise
    only what the browser raised, and never an error whose message
    contains [timeout]: such an error is taken for a page that may still be
    usable, and the method returns normally. *)
Theorem X23_navigation_swallows_timeouts (nav : Navigation) (s s' : Machine W)
  (msg : string) :
  navigation D nav s = (Throw msg, s') ->
  JS.includes msg "timeout" = false /\
  exists p,
    _puppeteerPage (page s) = Some p /\
    navigate D p nav (world s) = (Throw msg, world s') /\
    page s' = page s.
Proof.
  unfold navigation. unfold bind at 1, getPage at 1.
  destruct (_puppeteerPage (page s)) as [p |]; [| discriminate].
  unfold tryCatch, effect.
  destruct (navigate D p nav (world s)) as [[[] | msg0] w] eqn:E; [discriminate |].
  destruct (JS.includes msg0 "timeout") eqn:I; [discriminate |].
  intros [= <- <-]. split; [exact I |]. exists p. auto.
Qed.

(** X24.  [inputTextElementNode] has no second try once the element is
    located: when typing into the handle raises, the host script is not
    run, and the error is raised with the tag and the index of the node
    before it. *)
Theorem X24_failed_typing_has_no_fallback (useVision : bool)
  (elementNode targetElement : DOMElementNode) (text msg : string)
  (s s1 s2 : Machine W) (p : PuppeteerPage) (h : ElementHandle) (w3 w4 w5 : W) :
  _puppeteerPage (page s) = Some p ->
  freshTarget T useVision elementNode s = (Ok targetElement, s1) ->
  locateElement T targetElement s1 = (Ok (Some h), s2) ->
  scrollIntoViewIfNeeded T h 2500 (world s2) = (Ok tt, w3) ->
  clearValue D h w3 = (Ok tt, w4) ->
  typeText D h text w4 = (Throw msg, w5) ->
  inputTextElementNode T D useVision elementNode text s
  = (Throw (failedToInput elementNode msg),
     {| page := page s2; world := w5;
        calls := (calls s2 ++ [CallScrollIntoView h 2500])%list |}).
Proof.
  intros P F L S1 C Ty. unfold inputTextElementNode.
  unfold bind at 1, getPage at 1. rewrite P. unfold tryCatch.
  unfold bind at 1. rewrite F. unfold bind at 1. rewrite L.
  unfold bind at 1. unfold perform at 1. rewrite S1. cbn [page world calls].
  unfold bind at 1. unfold effect at 1. cbn [page world calls]. rewrite C.
  unfold effect. cbn [page world calls]. rewrite Ty. reflexivity.
Qed.

End SearchFacts.

Lemma X22_scrollToText_never_raises_witness :
  exists b s',
    scrollToText (scripted formPage)
      (formDevice OtherElement (Ok tt) (Ok tt)) "Peru" (start formState) = (Ok b, s') /\
    page s' = attachedPage formState /\
    (b = true -> exists h, last (calls s') = Some (CallScrollIntoView h 2500)).
Proof.
  apply (X22_scrollToText_never_raises (scripted formPage)
           (formDevice OtherElement (Ok tt) (Ok tt)) "Peru" (start formState) 0%nat).
  reflexivity.
Defined.

Lemma X23_navigation_swallows_timeouts_witness :
  JS.includes "net::ERR_NAME_NOT_RESOLVED" "timeout" = false /\
  exists p,
    _puppeteerPage (attachedPage formState) = Some p /\
    navigate (formDevice OtherElement (Ok tt) (Throw "net::ERR_NAME_NOT_RESOLVED")) p
      (Goto "https://nowhere.example/") tt
    = (Throw "net::ERR_NAME_NOT_RESOLVED", tt) /\
    attachedPage formState = attachedPage formState.
Proof.
  apply (X23_navigation_swallows_timeouts
           (formDevice OtherElement (Ok tt) (Throw "net::ERR_NAME_NOT_RESOLVED"))
           (Goto "https://nowhere.example/") (start formState) (start formState)
           "net::ERR_NAME_NOT_RESOLVED").
  reflexivity.
Defined.

Lemma X24_failed_typing_has_no_fallback_witness :
  inputTextElementNode (scripted formPage)
    (formDevice OtherElement (Throw "Node is detached") (Ok tt))
    false searchBox "llama" (start formState)
  = (Throw (failedToInput searchBox "Node is detached"),
     {| page := attachedPage formState; world := tt;
        calls := ([CallQuery (InPage 0%nat) "input#q"; CallScrollIntoView 4%nat 2500]
                    ++ [CallScrollIntoView 4%nat 2500])%list |}).
Proof.
  apply (X24_failed_typing_has_no_fallback (scripted formPage)
           (formDevice OtherElement (Throw "Node is detached") (Ok tt))
           false searchBox searchBox "llama" "Node is detached"
           (start formState) (start formState)
           {| page := attachedPage formState; world := tt;
              calls := [CallQuery (InPage 0%nat) "input#q";
                        CallScrollIntoView 4%nat 2500] |}
           0%nat 4%nat tt tt tt); reflexivity.
Defined.

(** ** The wait for an element to be in view *)

Section PollingFacts.
Context {W : Type} (V : Viewport W).
Hypothesis timer : forall d w, dateNow V w + d <= dateNow V (setTimeout V d w).
Hypothesis forward : forall h w, dateNow V w <= dateNow V (snd (checkVisible V h w)).

Lemma scrollRounds_ends (element : ElementHandle) (timeout startTime : Z) (rounds : nat) :
  forall s : Machine W,
    (1 <= rounds)%nat ->
    timeout < dateNow V (world s) - startTime + 100 * (Z.of_nat rounds - 1) ->
    fst (scrollRounds V rounds element timeout startTime s) <> Ok None.
Proof.
  induction rounds as [| more IH]; intros s R B; [lia |].
  cbn [scrollRounds]. unfold bind at 1. unfold effect at 1.
  pose proof (forward element (world s)) as F.
  destruct (checkVisible V element (world s)) as [[[|] | msg] w1]; cbn [snd] in F;
    cbn [fst ret]; try discriminate.
  unfold bind at 1. unfold effect at 1. cbn [page world calls].
  destruct (timeout <? dateNow V w1 - startTime) eqn:E; [discriminate |].
  apply Z.ltb_ge in E.
  unfold bind at 1. unfold effect at 1. cbn [page world calls].
  pose proof (timer 100 w1) as Tm.
  apply IH; cbn [world]; lia.
Qed.

(** X25.  The wait of [_scrollIntoViewIfNeeded] is bounded: when the
    clock does not run backwards and a timer of 100 ms takes at least
    100 ms, the loop ends, by a return or a raise, within
    [timeout / 100 + 2] visibility tests. *)
Theorem X25_scroll_wait_is_bounded (element : ElementHandle) (timeout : Z)
  (rounds : nat) (s : Machine W) :
  0 <= timeout ->
  (Z.to_nat (timeout / 100) + 2 <= rounds)%nat ->
  fst (_scrollIntoViewIfNeeded V rounds element timeout s) <> Ok None.
Proof.
  intros T0 R. unfold _scrollIntoViewIfNeeded. unfold bind at 1. unfold effect at 1.
  apply scrollRounds_ends; cbn [world]; [lia |].
  pose proof (Z.mod_pos_bound timeout 100 ltac:(lia)) as M.
  pose proof (Z.div_mod timeout 100 ltac:(lia)) as Dm.
  assert (0 <= timeout / 100) by (apply Z.div_pos; lia).
  lia.
Qed.

End PollingFacts.

Lemma X25_scroll_wait_is_bounded_witness :
  fst (_scrollIntoViewIfNeeded neverVisible 27 7%nat 2500
         {| page := attachedPage formState; world := 0; calls := [] |}) <> Ok None.
Proof.
  apply (X25_scroll_wait_is_bounded neverVisible); cbn [neverVisible dateNow setTimeout
    checkVisible snd]; intros; try lia.
  vm_compute. lia.
Defined.

(** ** Think tags *)

Lemma startsWith_self (needle rest : string) :
  JS.startsWith (needle +:+ rest) needle = true.
Proof.
  induction needle as [| c n IH]; [reflexivity |].
  rewrite append_cons. cbn [JS.startsWith]. now rewrite Ascii.eqb_refl, IH.
Qed.

Lemma dropChars_app (needle rest : string) :
  dropChars (String.length needle) (needle +:+ rest) = rest.
Proof.
  induction needle as [| c n IH]; [now rewrite append_nil_l |].
  rewrite append_cons. exact IH.
Qed.

Lemma startsWith_up_to_bracket (n : string) :
  forall v r,
    JS.any (Ascii.eqb "<") n = false ->
    JS.startsWith (v +:+ String "<" r) n = true ->
    JS.startsWith v n = true.
Proof.
  induction n as [| a n IH]; intros v r A H; [reflexivity |].
  cbn [JS.any] in A. apply orb_false_iff in A as [A1 A2].
  destruct v as [| b v].
  - rewrite append_nil_l in H. cbn [JS.startsWith] in H.
    rewrite Ascii.eqb_sym, A1 in H. discriminate.
  - rewrite append_cons in H. cbn [JS.startsWith] in H |- *.
    apply andb_true_iff in H as [H1 H2]. rewrite H1. cbn [andb]. now apply (IH v r).
Qed.

Lemma cutAt_first (tail : string) (before rest : string) :
  JS.any (Ascii.eqb "<") tail = false ->
  JS.includes before (String "<" tail) = false ->
  cutAt (String "<" tail) (before +:+ String "<" tail +:+ rest) = Some (before, rest).
Proof.
  intros A. induction before as [| c b IH]; intros I.
  - rewrite append_nil_l.
    change (String "<" tail +:+ rest) with (String "<" (tail +:+ rest)) at 1.
    destruct (String "<" tail) as [| x needle] eqn:N; [discriminate |].
    unfold cutAt; fold cutAt. rewrite <- N.
    change (String "<" (tail +:+ rest)) with (String "<" tail +:+ rest).
    now rewrite startsWith_self, dropChars_app.
  - cbn [JS.includes] in I. apply orb_false_iff in I as [I1 I2].
    rewrite append_cons.
    assert (S : JS.startsWith (String c (b +:+ String "<" tail +:+ rest)) (String "<" tail)
                = false).
    { destruct (JS.startsWith (String c (b +:+ String "<" tail +:+ rest))
                  (String "<" tail)) eqn:E; [| reflexivity].
      cbn [JS.startsWith] in E, I1. apply andb_true_iff in E as [E1 E2].
      change (String "<" tail +:+ rest) with (String "<" (tail +:+ rest)) in E2.
      apply startsWith_up_to_bracket in E2; [| exact A].
      rewrite E1, E2 in I1. discriminate. }
    unfold cutAt; fold cutAt. rewrite S. now rewrite (IH I2).
Qed.

Lemma cutAt_none (needle text : string) :
  JS.includes text needle = false -> cutAt needle text = None.
Proof.
  induction text as [| c r IH]; intros I; cbn [JS.includes] in I;
    apply orb_false_iff in I as [I1 I2]; unfold cutAt; fold cutAt; rewrite I1.
  - reflexivity.
  - now rewrite (IH I2).
Qed.

(** X26.  [removeThinkTags] removes the first think block and nothing
    else: the text before the first opening tag and the text after the
    first closing tag that follows it are joined as they are, later think
    blocks included; a text without an opening tag is returned
    unchanged. *)
Theorem X26_only_first_think_block_is_removed (before inside after : string) :
  JS.includes before "<think>" = false ->
  JS.includes inside "</think>" = false ->
  removeThinkTags (before +:+ "<think>" +:+ inside +:+ "</think>" +:+ after)
  = before +:+ after /\
  removeThinkTags before = before.
Proof.
  intros B I. split.
  - unfold removeThinkTags.
    rewrite (cutAt_first "think>" before (inside +:+ "</think>" +:+ after));
      [| reflexivity | exact B].
    rewrite (cutAt_first "/think>" inside after); [reflexivity | reflexivity | exact I].
  - unfold removeThinkTags. now rewrite cutAt_none.
Qed.

Lemma X26_only_first_think_block_is_removed_witness :
  removeThinkTags ("A" +:+ "<think>" +:+ "b" +:+ "</think>" +:+ "C<think>d</think>")
  = "A" +:+ "C<think>d</think>" /\
  removeThinkTags "A" = "A".
Proof.
  apply (X26_only_first_think_block_is_removed "A" "b" "C<think>d</think>");
    reflexivity.
Defined.
